(** * The NL5 DLL client ([nl5_dll.py]): a shallow embedding

    The Python class [NL5_dll] wraps the entry points of the NL5 circuit
    simulator's dynamic library.  The simulator itself is outside the
    repository; what is verified here is the wrapper: which entry points
    a method calls, in which order, with which arguments, and what it
    returns or raises for every possible reply of the engine.

    A method is embedded as a function from the client object to a finite
    tree of foreign calls ([prog]); the engine is any function that answers
    a call given the history of the calls before it.  A call is recorded
    with the Python values the wrapper is given; [ctypes_call] is what the
    library receives of them, and [behind_ctypes] the engine that a library
    is behind the wrappers. *)

From Stdlib Require Import ZArith List String Ascii Bool Lia Floats.
Import ListNotations.

Open Scope string_scope.
Open Scope Z_scope.

(** ** Python values *)

(** A [str] is modelled by the string of its UTF-8 bytes, so [encode('utf-8')]
    is the identity; [decode('utf-8')] of bytes written by the engine can fail
    and is a field of [py_env].  A [float] and a [c_double] are IEEE binary64
    numbers, the kernel's [float]. *)

(** [ct.c_double()]: a fresh cell, holding 0.0. *)
Definition c_double : float := 0%float.

(** [str.endswith]: the last [len(suffix)] characters are [suffix]. *)
Definition endswith (s suffix : string) : bool :=
  let n := String.length s in
  let m := String.length suffix in
  if (n <? m)%nat then false
  else String.eqb (substring (n - m) m s) suffix.

(** [bool(i)] of an [int]. *)
Definition bool_of_int (i : Z) : bool := negb (i =? 0).

(** [float(i)] of an [int], as in [i * t_step]: rounded to nearest even.
    (Python refuses an [int] beyond the range of [float]; the loop index of
    [get_data_slice], the only [int] converted, is never that large.) *)
Definition float_of_int (i : Z) : float :=
  SF2Prim (binary_normalize prec emax i 0 false).

(** [v[i] = x] on an array. *)
Fixpoint setitem (v : list float) (i : nat) (x : float) : list float :=
  match v, i with
  | [], _ => []
  | _ :: v', O => x :: v'
  | y :: v', S i' => y :: setitem v' i' x
  end.

(** [np.zeros(n)] for [n >= 0]. *)
Definition np_zeros (n : Z) : list float := repeat 0%float (Z.to_nat n).

(** An f-string, kept as its pieces: literal text, a formatted [str]
    and a formatted [float] (whose digits [render] leaves to a formatter). *)
Inductive piece : Type :=
| Lit (s : string)
| FStr (s : string)
| FFloat (x : float).

Definition fstring := list piece.

Definition render_piece (fmt : float -> string) (p : piece) : string :=
  match p with
  | Lit s => s
  | FStr s => s
  | FFloat x => fmt x
  end.

Fixpoint render (fmt : float -> string) (m : fstring) : string :=
  match m with
  | [] => EmptyString
  | p :: m' => render_piece fmt p ++ render fmt m'
  end.

(** What a method returns, whatever its Python type. *)
Inductive pyvalue : Type :=
| PyNone
| PyBool (b : bool)
| PyInt (z : Z)
| PyFloat (x : float)
| PyStr (s : string)
| PyPair (a b : pyvalue)
| PyTriple (a b c : pyvalue)
| PyArray (l : list float).

(** ** Exceptions *)

(** The nine exception classes the module raises (all derive from its
    [NL5Exception]) carry their message; the exceptions of the interpreter
    and of ctypes are kept by class only. *)
Inductive exn : Type :=
| NL5OpenException (msg : fstring)
| NL5ParamException (msg : fstring)
| NL5TraceException (msg : fstring)
| NL5ValueException (msg : fstring)
| NL5SaveException (msg : fstring)
| NL5StartException (msg : fstring)
| NL5DeleteException (msg : fstring)
| NL5LicenseException (msg : fstring)
| NL5NotImplementedException (msg : fstring)
| ArgumentError
| ValueError
| ZeroDivisionError
| OverflowError
| MemoryError
| AttributeError
| UnicodeDecodeError.

Definition exn_message (e : exn) : option fstring :=
  match e with
  | NL5OpenException m | NL5ParamException m | NL5TraceException m
  | NL5ValueException m | NL5SaveException m | NL5StartException m
  | NL5DeleteException m | NL5LicenseException m
  | NL5NotImplementedException m => Some m
  | _ => None
  end.

Definition is_NL5Exception (e : exn) : bool :=
  match exn_message e with Some _ => true | None => false end.

Inductive result (A : Type) : Type :=
| Returns (a : A)
| Raises (e : exn).
Arguments Returns {A} a.
Arguments Raises {A} e.

(** ** The foreign boundary *)

(** One constructor per [NL5_*] wrapper method: a call of the wrapper with
    the Python values it is given, indexed by what comes back: the [c_int]
    result and, for an entry point with output parameters, the values found
    in them after the call (the [c_double] cells, or the [value] of the text
    buffer).  What the library itself receives, once [argtypes] has made C
    values of the arguments, is [ctypes_call] below. *)
Inductive entry : Type -> Type :=
| NL5_GetError : entry (option string)
| NL5_GetInfo : entry (option string)
| NL5_GetLicense (name : string) : entry Z
| NL5_Open (name : string) : entry Z
| NL5_Close (ncir : Z) : entry Z
| NL5_Save (ncir : Z) : entry Z
| NL5_SaveAs (ncir : Z) (name : string) : entry Z
| NL5_GetValue (ncir : Z) (name : string) : entry (Z * float)
| NL5_SetValue (ncir : Z) (name : string) (v : float) : entry Z
| NL5_GetText (ncir : Z) (name : string) (length : Z) : entry (Z * string)
| NL5_SetText (ncir : Z) (name : string) (text : string) : entry Z
| NL5_GetParam (ncir : Z) (name : string) : entry Z
| NL5_GetParamValue (ncir npar : Z) : entry (Z * float)
| NL5_SetParamValue (ncir npar : Z) (v : float) : entry Z
| NL5_GetParamText (ncir npar : Z) (length : Z) : entry (Z * string)
| NL5_SetParamText (ncir npar : Z) (text : string) : entry Z
| NL5_GetTrace (ncir : Z) (name : string) : entry Z
| NL5_AddVTrace (ncir : Z) (name : string) : entry Z
| NL5_AddITrace (ncir : Z) (name : string) : entry Z
| NL5_AddPTrace (ncir : Z) (name : string) : entry Z
| NL5_AddVarTrace (ncir : Z) (name : string) : entry Z
| NL5_AddFuncTrace (ncir : Z) (text : string) : entry Z
| NL5_DeleteTrace (ncir ntrace : Z) : entry Z
| NL5_SetStep (ncir : Z) (step : float) : entry Z
| NL5_SetTimeout (ncir : Z) (t : Z) : entry Z
| NL5_GetSimulationTime (ncir : Z) : entry (Z * float)
| NL5_Start (ncir : Z) : entry Z
| NL5_Simulate (ncir : Z) (interval : float) : entry Z
| NL5_SimulateInterval (ncir : Z) (interval : float) : entry Z
| NL5_SimulateStep (ncir : Z) : entry Z
| NL5_SaveIC (ncir : Z) : entry Z
| NL5_GetDataSize (ncir ntrace : Z) : entry Z
| NL5_GetDataAt (ncir ntrace n : Z) : entry (Z * (float * float))
| NL5_GetLastData (ncir ntrace : Z) : entry (Z * (float * float))
| NL5_GetData (ncir ntrace : Z) (t : float) : entry (Z * float)
| NL5_DeleteOldData (ncir : Z) : entry Z
| NL5_SaveData (ncir : Z) (name : string) : entry Z
| NL5_GetInput (ncir : Z) (name : string) : entry Z
| NL5_SetInputValue (ncir nin : Z) (v : float) : entry Z
| NL5_SetInputLogicalValue (ncir nin i : Z) : entry Z
| NL5_GetOutput (ncir : Z) (name : string) : entry Z
| NL5_GetOutputValue (ncir nout : Z) : entry (Z * float)
| NL5_GetOutputLogicalValue (ncir nout : Z) : entry (Z * Z)
| NL5_CalcAC (ncir : Z) : entry Z
| NL5_GetACTrace (ncir : Z) (name : string) : entry Z
| NL5_GetACDataSize (ncir ntrace : Z) : entry Z
| NL5_GetACDataAt (ncir ntrace n : Z) : entry (Z * (float * (float * float)))
| NL5_SaveACData (ncir : Z) (name : string) : entry Z.

(** The [c_int] an entry point returns; [NL5_GetError] and [NL5_GetInfo]
    return text and have none. *)
Definition status {R : Type} (e : entry R) : R -> option Z :=
  match e in entry R return R -> option Z with
  | NL5_GetError | NL5_GetInfo => fun _ => None
  | NL5_GetValue _ _ | NL5_GetParamValue _ _ | NL5_GetSimulationTime _
  | NL5_GetData _ _ _ | NL5_GetOutputValue _ _ => fun r => Some (fst r)
  | NL5_GetText _ _ _ | NL5_GetParamText _ _ _ => fun r => Some (fst r)
  | NL5_GetDataAt _ _ _ | NL5_GetLastData _ _ => fun r => Some (fst r)
  | NL5_GetOutputLogicalValue _ _ => fun r => Some (fst r)
  | NL5_GetACDataAt _ _ _ => fun r => Some (fst r)
  | _ => fun r => Some r
  end.

Definition failed {R : Type} (e : entry R) (r : R) : bool :=
  match status e r with
  | Some z => z <? 0
  | None => false
  end.

Definition is_close {R : Type} (e : entry R) : bool :=
  match e with NL5_Close _ => true | _ => false end.

(** A program: it is done, or it calls an entry point and goes on with the
    reply. *)
Inductive prog (X : Type) : Type :=
| Done (x : X)
| Call {R : Type} (e : entry R) (k : R -> prog X).
Arguments Done {X} x.
Arguments Call {X R} e k.

(** A call with its reply. *)
Inductive event : Type :=
| Ev {R : Type} (e : entry R) (r : R).

(** The engine: deterministic, so its reply is a function of the calls made
    so far (oldest first) and of the call. *)
Definition engine : Type := forall R : Type, list event -> entry R -> R.

(** [run eng h p]: what [p] ends with against [eng] after history [h], and
    the calls it made, in order. *)
Fixpoint run {X : Type} (eng : engine) (h : list event) (p : prog X)
  : X * list event :=
  match p with
  | Done x => (x, [])
  | Call e k =>
      let r := eng _ h e in
      let (x, t) := run eng (h ++ [Ev e r]) (k r) in
      (x, Ev e r :: t)
  end.

(** ** What ctypes makes of the arguments *)

(** A Python [int] handed to a parameter declared [c_int] is cut to its low
    32 bits, read as a signed number; ctypes checks no range. *)
Definition c_int (z : Z) : Z := (z + 2147483648) mod 4294967296 - 2147483648.

(** [bytes] handed to a parameter declared [c_char_p] are read by the library
    as a C string: up to the first NUL byte. *)
Fixpoint c_char_p (s : string) : string :=
  match s with
  | EmptyString => EmptyString
  | String c s' =>
      if Ascii.eqb c Ascii.zero then EmptyString else String c (c_char_p s')
  end.

(** [b'\x00' in s]. *)
Fixpoint has_nul (s : string) : bool :=
  match s with
  | EmptyString => false
  | String c s' => Ascii.eqb c Ascii.zero || has_nul s'
  end.

(** The body of each wrapper: it declares the [argtypes] of the entry point
    and calls it, so every [int] crosses as a [c_int] and every name or text
    as a [c_char_p]; a [float] is a [c_double] as it stands, and the cells and
    the buffer are passed by reference. *)
Definition ctypes_call {R : Type} (e : entry R) : entry R :=
  match e in entry R return entry R with
  | NL5_GetError => NL5_GetError
  | NL5_GetInfo => NL5_GetInfo
  | NL5_GetLicense name => NL5_GetLicense (c_char_p name)
  | NL5_Open name => NL5_Open (c_char_p name)
  | NL5_Close ncir => NL5_Close (c_int ncir)
  | NL5_Save ncir => NL5_Save (c_int ncir)
  | NL5_SaveAs ncir name => NL5_SaveAs (c_int ncir) (c_char_p name)
  | NL5_GetValue ncir name => NL5_GetValue (c_int ncir) (c_char_p name)
  | NL5_SetValue ncir name v => NL5_SetValue (c_int ncir) (c_char_p name) v
  | NL5_GetText ncir name length =>
      NL5_GetText (c_int ncir) (c_char_p name) (c_int length)
  | NL5_SetText ncir name text =>
      NL5_SetText (c_int ncir) (c_char_p name) (c_char_p text)
  | NL5_GetParam ncir name => NL5_GetParam (c_int ncir) (c_char_p name)
  | NL5_GetParamValue ncir npar => NL5_GetParamValue (c_int ncir) (c_int npar)
  | NL5_SetParamValue ncir npar v =>
      NL5_SetParamValue (c_int ncir) (c_int npar) v
  | NL5_GetParamText ncir npar length =>
      NL5_GetParamText (c_int ncir) (c_int npar) (c_int length)
  | NL5_SetParamText ncir npar text =>
      NL5_SetParamText (c_int ncir) (c_int npar) (c_char_p text)
  | NL5_GetTrace ncir name => NL5_GetTrace (c_int ncir) (c_char_p name)
  | NL5_AddVTrace ncir name => NL5_AddVTrace (c_int ncir) (c_char_p name)
  | NL5_AddITrace ncir name => NL5_AddITrace (c_int ncir) (c_char_p name)
  | NL5_AddPTrace ncir name => NL5_AddPTrace (c_int ncir) (c_char_p name)
  | NL5_AddVarTrace ncir name => NL5_AddVarTrace (c_int ncir) (c_char_p name)
  | NL5_AddFuncTrace ncir text => NL5_AddFuncTrace (c_int ncir) (c_char_p text)
  | NL5_DeleteTrace ncir ntrace => NL5_DeleteTrace (c_int ncir) (c_int ntrace)
  | NL5_SetStep ncir step => NL5_SetStep (c_int ncir) step
  | NL5_SetTimeout ncir t => NL5_SetTimeout (c_int ncir) (c_int t)
  | NL5_GetSimulationTime ncir => NL5_GetSimulationTime (c_int ncir)
  | NL5_Start ncir => NL5_Start (c_int ncir)
  | NL5_Simulate ncir interval => NL5_Simulate (c_int ncir) interval
  | NL5_SimulateInterval ncir interval =>
      NL5_SimulateInterval (c_int ncir) interval
  | NL5_SimulateStep ncir => NL5_SimulateStep (c_int ncir)
  | NL5_SaveIC ncir => NL5_SaveIC (c_int ncir)
  | NL5_GetDataSize ncir ntrace => NL5_GetDataSize (c_int ncir) (c_int ntrace)
  | NL5_GetDataAt ncir ntrace n =>
      NL5_GetDataAt (c_int ncir) (c_int ntrace) (c_int n)
  | NL5_GetLastData ncir ntrace => NL5_GetLastData (c_int ncir) (c_int ntrace)
  | NL5_GetData ncir ntrace t => NL5_GetData (c_int ncir) (c_int ntrace) t
  | NL5_DeleteOldData ncir => NL5_DeleteOldData (c_int ncir)
  | NL5_SaveData ncir name => NL5_SaveData (c_int ncir) (c_char_p name)
  | NL5_GetInput ncir name => NL5_GetInput (c_int ncir) (c_char_p name)
  | NL5_SetInputValue ncir nin v =>
      NL5_SetInputValue (c_int ncir) (c_int nin) v
  | NL5_SetInputLogicalValue ncir nin i =>
      NL5_SetInputLogicalValue (c_int ncir) (c_int nin) (c_int i)
  | NL5_GetOutput ncir name => NL5_GetOutput (c_int ncir) (c_char_p name)
  | NL5_GetOutputValue ncir nout => NL5_GetOutputValue (c_int ncir) (c_int nout)
  | NL5_GetOutputLogicalValue ncir nout =>
      NL5_GetOutputLogicalValue (c_int ncir) (c_int nout)
  | NL5_CalcAC ncir => NL5_CalcAC (c_int ncir)
  | NL5_GetACTrace ncir name => NL5_GetACTrace (c_int ncir) (c_char_p name)
  | NL5_GetACDataSize ncir ntrace =>
      NL5_GetACDataSize (c_int ncir) (c_int ntrace)
  | NL5_GetACDataAt ncir ntrace n =>
      NL5_GetACDataAt (c_int ncir) (c_int ntrace) (c_int n)
  | NL5_SaveACData ncir name => NL5_SaveACData (c_int ncir) (c_char_p name)
  end.

(** A call as the library saw it, and a run as the library saw it. *)
Definition ev_received (v : event) : event :=
  match v with Ev e r => Ev (ctypes_call e) r end.

Definition received (t : list event) : list event := map ev_received t.

(** The engine the wrappers make of the library: each call, and the history
    before it, reach the library as C values. *)
Definition behind_ctypes (library : engine) : engine :=
  fun R h e => library R (received h) (ctypes_call e).

(** ** The client object *)

Record NL5_dll : Type := { path : string; _ncir : Z }.

Definition set_ncir (self : NL5_dll) (n : Z) : NL5_dll :=
  {| path := self.(path); _ncir := n |}.

(** A method body: it reads and writes [self], calls the engine, and returns
    or raises. *)
Definition M (A : Type) : Type := NL5_dll -> prog (result A * NL5_dll).

Definition ret {A : Type} (a : A) : M A :=
  fun self => Done (Returns a, self).

Definition raise {A : Type} (e : exn) : M A :=
  fun self => Done (Raises e, self).

Fixpoint bind_prog {X Y : Type} (p : prog X) (f : X -> prog Y) : prog Y :=
  match p with
  | Done x => f x
  | Call e k => Call e (fun r => bind_prog (k r) f)
  end.

Definition bind {A B : Type} (m : M A) (f : A -> M B) : M B :=
  fun self =>
    bind_prog (m self)
      (fun xs =>
         match fst xs with
         | Returns a => f a (snd xs)
         | Raises e => Done (Raises e, snd xs)
         end).

Definition foreign {R : Type} (e : entry R) : M R :=
  fun self => Call e (fun r => Done (Returns r, self)).

Definition get_ncir : M Z :=
  fun self => Done (Returns self.(_ncir), self).

Definition put_ncir (n : Z) : M unit :=
  fun self => Done (Returns tt, set_ncir self n).

Definition self_path : M string :=
  fun self => Done (Returns self.(path), self).

Declare Scope nl5_scope.
Delimit Scope nl5_scope with nl5.
Notation "x <- m ;; k" := (bind m (fun x => k))
  (at level 100, m at next level, right associativity) : nl5_scope.
Notation "' p <- m ;; k" := (bind m (fun p => k))
  (at level 100, p pattern, m at next level, right associativity) : nl5_scope.
Notation "m ;;; k" := (bind m (fun _ => k))
  (at level 100, right associativity) : nl5_scope.
Open Scope nl5_scope.

(** [int(x)] of a [float]: truncation toward zero; NaN and the infinities
    have no integer. *)
Definition int_of_float (x : float) : result Z :=
  match Prim2SF x with
  | S754_nan => Raises ValueError
  | S754_infinity _ => Raises OverflowError
  | S754_zero _ => Returns 0
  | S754_finite sgn m e =>
      let mag := Z.shiftl (Zpos m) e in
      Returns (if sgn then - mag else mag)
  end.

(** What the interpreter and the operating system supply. *)
Record py_env : Type := {
  getcwd : string;                         (* os.getcwd() *)
  abspath : string -> string;              (* os.path.abspath *)
  join : string -> string -> string;       (* os.path.join *)
  on_linux : bool;                         (* 'linux' in platform.system().lower() *)
  decode : string -> option string;        (* bytes.decode('utf-8') *)
  log10 : float -> float;                  (* np.log10, on one element *)
  maxsize : Z;                             (* sys.maxsize *)
  can_allocate : Z -> bool                 (* a buffer of that many bytes fits in memory *)
}.

Definition lift {A : Type} (r : result A) : M A :=
  fun self => Done (r, self).

Definition not_opened : fstring :=
  [Lit "Circuit file not opened or not valid. Try to use open() function first!"].

Definition not_closable : fstring :=
  [Lit "Error closing NL5 circuit, not opened."].

Definition param_not_found (name : string) : fstring :=
  [Lit "Parameter "; FStr name; Lit " not found or parameter type not supported."].

Definition param_missing (name : string) : fstring :=
  [Lit "Parameter "; FStr name; Lit " does not exist in circuit."].

Definition trace_missing (name : string) : fstring :=
  [Lit "Trace "; FStr name; Lit " does not exist in circuit."].

Definition ac_trace_missing (name : string) : fstring :=
  [Lit "AC Trace "; FStr name; Lit " does not exist in circuit."].

Definition bad_index : fstring :=
  [Lit "Index is less than zero, or greater or equal to data size."].

Section Client.

Variable os : py_env.

(** The library file [__init__] hands to the loader. *)
Definition dll_file (name path : string) : string :=
  if endswith name ".dll" || endswith name ".so" then os.(join) path name
  else if os.(on_linux) then os.(join) path (name ++ ".so")
  else os.(join) path (name ++ ".dll").

Definition __init__ (name path : string) : NL5_dll :=
  {| path := os.(abspath) path; _ncir := -1 |}.

(** [c.decode('utf-8')] of what a [c_char_p] result holds ([None] for NULL). *)
Definition decode_c_char_p (c : option string) : M string :=
  match c with
  | None => raise AttributeError
  | Some b =>
      match os.(decode) b with
      | Some s => ret s
      | None => raise UnicodeDecodeError
      end
  end.

Definition decode_value (b : string) : M string :=
  match os.(decode) b with
  | Some s => ret s
  | None => raise UnicodeDecodeError
  end.

Definition get_error : M string :=
  c <- foreign NL5_GetError ;;
  decode_c_char_p c.

Definition get_info : M string :=
  c <- foreign NL5_GetInfo ;;
  decode_c_char_p c.

(** [if not name.endswith(ext): name = f'{name}{ext}']. *)
Definition with_extension (name ext : string) : string :=
  if negb (endswith name ext) then name ++ ext else name.

(** [if path: path = os.path.abspath(path) else: path = os.getcwd()]. *)
Definition resolve (path : string) : string :=
  if negb (String.eqb path EmptyString) then os.(abspath) path else os.(getcwd).

Definition get_license (name path : string) : M bool :=
  own <- self_path ;;
  let path := if negb (String.eqb path EmptyString) then os.(abspath) path else own in
  let name := with_extension name ".nll" in
  let lic_file := os.(join) path name in
  retval <- foreign (NL5_GetLicense lic_file) ;;
  if retval <? 0 then
    raise (NL5LicenseException [Lit "License does not have DLL option activated."])
  else ret (negb (bool_of_int retval)).

Definition open (name path : string) : M unit :=
  ncir0 <- get_ncir ;;
  (if ncir0 >=? 0 then
     (_ <- foreign (NL5_Close ncir0) ;;
      put_ncir (-1))
   else ret tt) ;;;
  let path := resolve path in
  let name := with_extension name ".nl5" in
  let cir_file := os.(join) path name in
  ncir <- foreign (NL5_Open cir_file) ;;
  if ncir >=? 0 then put_ncir ncir
  else raise (NL5OpenException [Lit "Error opening NL5 circuit"]).

Definition close : M unit :=
  ncir <- get_ncir ;;
  if ncir >=? 0 then
    _ <- foreign (NL5_Close ncir) ;;
    ret tt
  else raise (NL5OpenException not_closable).

Definition save : M unit :=
  ncir <- get_ncir ;;
  if ncir >=? 0 then
    retval <- foreign (NL5_Save ncir) ;;
    if retval <? 0 then
      raise (NL5SaveException [Lit "Error trying to save the schematic circuit file."])
    else ret tt
  else raise (NL5OpenException not_closable).

Definition save_as (name path : string) : M unit :=
  let path := resolve path in
  let name := with_extension name ".nl5" in
  let cir_file := os.(join) path name in
  ncir <- get_ncir ;;
  if ncir >=? 0 then
    retval <- foreign (NL5_SaveAs ncir cir_file) ;;
    if retval <? 0 then
      raise (NL5SaveException
               [Lit "Error trying to save the schematic circuit file as ";
                FStr name; Lit "."])
    else ret tt
  else raise (NL5OpenException not_closable).

Definition get_value (name : string) : M float :=
  ncir <- get_ncir ;;
  if ncir >=? 0 then
    '(retval, v) <- foreign (NL5_GetValue ncir name) ;;
    if retval <? 0 then raise (NL5ValueException (param_not_found name))
    else ret v
  else raise (NL5OpenException not_opened).

Definition set_value (name : string) (v : float) : M unit :=
  ncir <- get_ncir ;;
  if ncir >=? 0 then
    retval <- foreign (NL5_SetValue ncir name v) ;;
    if retval <? 0 then raise (NL5ValueException (param_not_found name))
    else ret tt
  else raise (NL5OpenException not_opened).

(** [ct.create_string_buffer(buf_size)], that is [(c_char * buf_size)()]:
    the length of an array type is an index ([-maxsize - 1 .. maxsize], or
    [OverflowError]) that is not negative (or [ValueError]), and the array
    has to fit in memory (or [MemoryError]). *)
Definition create_string_buffer (buf_size : Z) : M unit :=
  if (buf_size <? - os.(maxsize) - 1) || (os.(maxsize) <? buf_size) then
    raise OverflowError
  else if buf_size <? 0 then raise ValueError
  else if os.(can_allocate) buf_size then ret tt
  else raise MemoryError.

(** The buffer is made first; [buf_size] is then handed to the wrapper for
    the length, and crosses as a [c_int]. *)
Definition get_text (name : string) (buf_size : Z) : M string :=
  ncir <- get_ncir ;;
  if ncir >=? 0 then
    create_string_buffer buf_size ;;;
    '(retval, c_buf) <- foreign (NL5_GetText ncir name buf_size) ;;
    if retval <? 0 then raise (NL5ValueException (param_not_found name))
    else decode_value c_buf
  else raise (NL5OpenException not_opened).

Definition set_text (name text : string) : M unit :=
  ncir <- get_ncir ;;
  if ncir >=? 0 then
    retval <- foreign (NL5_SetText ncir name text) ;;
    if retval <? 0 then raise (NL5ValueException (param_not_found name))
    else ret tt
  else raise (NL5OpenException not_opened).

Definition get_parameter_value (name : string) : M float :=
  ncir <- get_ncir ;;
  if ncir >=? 0 then
    npar <- foreign (NL5_GetParam ncir name) ;;
    if npar >=? 0 then
      '(retval, v) <- foreign (NL5_GetParamValue ncir npar) ;;
      if retval <? 0 then raise (NL5ValueException (param_not_found name))
      else ret v
    else raise (NL5ParamException (param_missing name))
  else raise (NL5OpenException not_opened).

Definition set_parameter_value (name : string) (v : float) : M unit :=
  ncir <- get_ncir ;;
  if ncir >=? 0 then
    npar <- foreign (NL5_GetParam ncir name) ;;
    if npar >=? 0 then
      retval <- foreign (NL5_SetParamValue ncir npar v) ;;
      if retval <? 0 then raise (NL5ValueException (param_not_found name))
      else ret tt
    else raise (NL5ParamException (param_missing name))
  else raise (NL5OpenException not_opened).

Definition get_parameter_text (name : string) (buf_size : Z) : M string :=
  ncir <- get_ncir ;;
  if ncir >=? 0 then
    npar <- foreign (NL5_GetParam ncir name) ;;
    if npar >=? 0 then
      create_string_buffer buf_size ;;;
      '(retval, c_buf) <- foreign (NL5_GetParamText ncir npar buf_size) ;;
      if retval <? 0 then raise (NL5ValueException (param_not_found name))
      else decode_value c_buf
    else raise (NL5ParamException (param_missing name))
  else raise (NL5OpenException not_opened).

Definition set_parameter_text (name text : string) : M unit :=
  ncir <- get_ncir ;;
  if ncir >=? 0 then
    npar <- foreign (NL5_GetParam ncir name) ;;
    if npar >=? 0 then
      retval <- foreign (NL5_SetParamText ncir npar text) ;;
      if retval <? 0 then raise (NL5ValueException (param_not_found name))
      else ret tt
    else raise (NL5ParamException (param_missing name))
  else raise (NL5OpenException not_opened).

Definition add_voltage_trace (name : string) : M unit :=
  ncir <- get_ncir ;;
  if ncir >=? 0 then
    retval <- foreign (NL5_AddVTrace ncir name) ;;
    if retval <? 0 then
      raise (NL5TraceException
               [Lit "Problem trying to add voltage trace for component ";
                FStr name; Lit "."])
    else ret tt
  else raise (NL5OpenException not_opened).

Definition add_current_trace (name : string) : M unit :=
  ncir <- get_ncir ;;
  if ncir >=? 0 then
    retval <- foreign (NL5_AddITrace ncir name) ;;
    if retval <? 0 then
      raise (NL5TraceException
               [Lit "Problem trying to add current trace for component ";
                FStr name; Lit "."])
    else ret tt
  else raise (NL5OpenException not_opened).

Definition add_power_trace (name : string) : M unit :=
  ncir <- get_ncir ;;
  if ncir >=? 0 then
    retval <- foreign (NL5_AddPTrace ncir name) ;;
    if retval <? 0 then
      raise (NL5TraceException
               [Lit "Problem trying to add power trace for component ";
                FStr name; Lit "."])
    else ret tt
  else raise (NL5OpenException not_opened).

Definition add_variable_trace (name : string) : M unit :=
  ncir <- get_ncir ;;
  if ncir >=? 0 then
    retval <- foreign (NL5_AddVarTrace ncir name) ;;
    if retval <? 0 then
      raise (NL5TraceException
               [Lit "Problem trying to add trace for variable ";
                FStr name; Lit "."])
    else ret tt
  else raise (NL5OpenException not_opened).

Definition add_function_trace (text : string) : M unit :=
  ncir <- get_ncir ;;
  if ncir >=? 0 then
    retval <- foreign (NL5_AddFuncTrace ncir text) ;;
    if retval <? 0 then
      raise (NL5TraceException
               [Lit "Problem trying to add function trace "; FStr text; Lit "."])
    else ret tt
  else raise (NL5OpenException not_opened).

Definition delete_trace (name : string) : M unit :=
  ncir <- get_ncir ;;
  if ncir >=? 0 then
    ntrace <- foreign (NL5_GetTrace ncir name) ;;
    if ntrace >=? 0 then
      retval <- foreign (NL5_DeleteTrace ncir ntrace) ;;
      if retval <? 0 then
        raise (NL5ValueException
                 [Lit "Problem trying to delete trace "; FStr name; Lit "."])
      else ret tt
    else raise (NL5TraceException (trace_missing name))
  else raise (NL5OpenException not_opened).

(** The parameter [v] is rebound to a fresh [c_double] before the call. *)
Definition set_input_value (name : string) (v : float) : M unit :=
  ncir <- get_ncir ;;
  if ncir >=? 0 then
    nin <- foreign (NL5_GetInput ncir name) ;;
    if nin >=? 0 then
      let v := c_double in
      retval <- foreign (NL5_SetInputValue ncir nin v) ;;
      if retval <? 0 then
        raise (NL5ValueException [Lit "Input "; FStr name; Lit " not valid."])
      else ret tt
    else raise (NL5TraceException (trace_missing name))
  else raise (NL5OpenException not_opened).

(** [v] is rebound to a [c_double] here too, and [int(v)] of a ctypes cell
    is a [ValueError]: the entry point is never reached. *)
Definition set_input_logical_value (name : string) (v : bool) : M unit :=
  ncir <- get_ncir ;;
  if ncir >=? 0 then
    nin <- foreign (NL5_GetInput ncir name) ;;
    if nin >=? 0 then raise ValueError
    else raise (NL5TraceException (trace_missing name))
  else raise (NL5OpenException not_opened).

Definition get_output_value (name : string) : M float :=
  ncir <- get_ncir ;;
  if ncir >=? 0 then
    nout <- foreign (NL5_GetOutput ncir name) ;;
    if nout >=? 0 then
      '(retval, v) <- foreign (NL5_GetOutputValue ncir nout) ;;
      if retval <? 0 then
        raise (NL5ValueException [Lit "Output "; FStr name; Lit " not valid."])
      else ret v
    else raise (NL5TraceException (trace_missing name))
  else raise (NL5OpenException not_opened).

(** The wrapper declares a [POINTER(c_int)] and is handed a [c_double]:
    ctypes refuses the argument before the library is called. *)
Definition get_output_logical_value (name : string) : M bool :=
  ncir <- get_ncir ;;
  if ncir >=? 0 then
    nout <- foreign (NL5_GetOutput ncir name) ;;
    if nout >=? 0 then raise ArgumentError
    else raise (NL5TraceException (trace_missing name))
  else raise (NL5OpenException not_opened).

Definition set_step (step : float) : M unit :=
  ncir <- get_ncir ;;
  if ncir >=? 0 then
    retval <- foreign (NL5_SetStep ncir (PrimFloat.abs step)) ;;
    if retval <? 0 then raise (NL5ValueException [Lit "Step not valid."])
    else ret tt
  else raise (NL5OpenException not_opened).

(** [abs(t)] is what the wrapper is given; it crosses as a [c_int]
    ([ctypes_call]). *)
Definition set_timeout (t : Z) : M unit :=
  ncir <- get_ncir ;;
  if ncir >=? 0 then
    retval <- foreign (NL5_SetTimeout ncir (Z.abs t)) ;;
    if retval <? 0 then raise (NL5ValueException [Lit "Timeout not valid."])
    else ret tt
  else raise (NL5OpenException not_opened).

Definition get_simulation_time : M float :=
  ncir <- get_ncir ;;
  if ncir >=? 0 then
    '(retval, t) <- foreign (NL5_GetSimulationTime ncir) ;;
    if retval <? 0 then
      raise (NL5ValueException [Lit "Error when reading simulation time."])
    else ret t
  else raise (NL5OpenException not_opened).

Definition start : M unit :=
  ncir <- get_ncir ;;
  if ncir >=? 0 then
    retval <- foreign (NL5_Start ncir) ;;
    if retval <? 0 then
      raise (NL5StartException [Lit "Error trying to start simulation."])
    else ret tt
  else raise (NL5OpenException not_opened).

(** The message quotes [interval] as the caller gave it ([{interval=}]). *)
Definition simulate (interval : float) : M unit :=
  ncir <- get_ncir ;;
  if ncir >=? 0 then
    retval <- foreign (NL5_Simulate ncir (PrimFloat.abs interval)) ;;
    if retval <? 0 then
      raise (NL5StartException
               [Lit "Error trying to start simulation with interval=";
                FFloat interval; Lit "."])
    else ret tt
  else raise (NL5OpenException not_opened).

Definition simulate_interval (interval : float) : M unit :=
  ncir <- get_ncir ;;
  if ncir >=? 0 then
    retval <- foreign (NL5_SimulateInterval ncir (PrimFloat.abs interval)) ;;
    if retval <? 0 then
      raise (NL5StartException
               [Lit "Error trying to start simulation with interval=";
                FFloat interval; Lit "."])
    else ret tt
  else raise (NL5OpenException not_opened).

Definition simulate_step : M unit :=
  ncir <- get_ncir ;;
  if ncir >=? 0 then
    retval <- foreign (NL5_SimulateStep ncir) ;;
    if retval <? 0 then
      raise (NL5StartException [Lit "Error trying to perform one simulation step."])
    else ret tt
  else raise (NL5OpenException not_opened).

Definition save_ic : M unit :=
  ncir <- get_ncir ;;
  if ncir >=? 0 then
    retval <- foreign (NL5_SaveIC ncir) ;;
    if retval <? 0 then
      raise (NL5SaveException
               [Lit "Error trying to save initial conditions into components."])
    else ret tt
  else raise (NL5OpenException not_opened).

Definition delete_old_data : M unit :=
  ncir <- get_ncir ;;
  if ncir >=? 0 then
    retval <- foreign (NL5_DeleteOldData ncir) ;;
    if retval <? 0 then
      raise (NL5DeleteException [Lit "Error trying to delete old data."])
    else ret tt
  else raise (NL5OpenException not_opened).

Definition save_data (name path : string) : M unit :=
  let path := resolve path in
  let name := with_extension name ".nlt" in
  let data_file := os.(join) path name in
  ncir <- get_ncir ;;
  if ncir >=? 0 then
    retval <- foreign (NL5_SaveData ncir data_file) ;;
    if retval <? 0 then
      raise (NL5SaveException [Lit "Error trying to save NL5 data file."])
    else ret tt
  else raise (NL5OpenException not_opened).

Definition get_trace (name : string) : M Z :=
  raise (NL5NotImplementedException
           [Lit "function "; FStr "get_trace"; Lit " not implemented!"]).

(** The message quotes [abs(time)] ([{abs(time)=}]). *)
Definition get_data (name : string) (time : float) : M float :=
  ncir <- get_ncir ;;
  if ncir >=? 0 then
    ntrace <- foreign (NL5_GetTrace ncir name) ;;
    if ntrace >=? 0 then
      '(retval, d) <- foreign (NL5_GetData ncir ntrace (PrimFloat.abs time)) ;;
      if retval <? 0 then
        raise (NL5ValueException
                 [Lit "Data point does not exist for abs(time)=";
                  FFloat (PrimFloat.abs time); Lit " seconds."])
      else ret d
    else raise (NL5TraceException (trace_missing name))
  else raise (NL5OpenException not_opened).

Definition get_last_data (name : string) : M (float * float) :=
  ncir <- get_ncir ;;
  if ncir >=? 0 then
    ntrace <- foreign (NL5_GetTrace ncir name) ;;
    if ntrace >=? 0 then
      '(retval, (t, d)) <- foreign (NL5_GetLastData ncir ntrace) ;;
      if retval <? 0 then
        raise (NL5ValueException [Lit "Data point does not exist."])
      else ret (t, d)
    else raise (NL5TraceException (trace_missing name))
  else raise (NL5OpenException not_opened).

(** [n] goes to the wrapper as the caller gave it; it crosses as a [c_int]
    ([ctypes_call]), so the library is asked for the index [c_int n]. *)
Definition get_data_at (name : string) (n : Z) : M (float * float) :=
  ncir <- get_ncir ;;
  if ncir >=? 0 then
    ntrace <- foreign (NL5_GetTrace ncir name) ;;
    if ntrace >=? 0 then
      '(retval, (t, d)) <- foreign (NL5_GetDataAt ncir ntrace n) ;;
      if retval <? 0 then raise (NL5ValueException bad_index)
      else ret (t, d)
    else raise (NL5TraceException (trace_missing name))
  else raise (NL5OpenException not_opened).

Definition get_data_size (name : string) : M Z :=
  ncir <- get_ncir ;;
  if ncir >=? 0 then
    ntrace <- foreign (NL5_GetTrace ncir name) ;;
    if ntrace >=? 0 then
      size <- foreign (NL5_GetDataSize ncir ntrace) ;;
      if size <? 0 then
        raise (NL5ValueException
                 [Lit "Error occurred when trying to read data size of trace ";
                  FStr name; Lit "."])
      else ret size
    else raise (NL5TraceException (trace_missing name))
  else raise (NL5OpenException not_opened).

Definition simulate_ac : M unit :=
  ncir <- get_ncir ;;
  if ncir >=? 0 then
    retval <- foreign (NL5_CalcAC ncir) ;;
    if retval <? 0 then
      raise (NL5StartException [Lit "Error trying to start AC simulation"])
    else ret tt
  else raise (NL5OpenException not_opened).

Definition get_ac_trace (name : string) : M Z :=
  raise (NL5NotImplementedException
           [Lit "function "; FStr "get_ac_trace"; Lit " not implemented!"]).

Definition get_ac_data_size (name : string) : M Z :=
  ncir <- get_ncir ;;
  if ncir >=? 0 then
    ntrace <- foreign (NL5_GetACTrace ncir name) ;;
    if ntrace >=? 0 then
      size <- foreign (NL5_GetACDataSize ncir ntrace) ;;
      if size <? 0 then
        raise (NL5ValueException
                 [Lit "Error occurred when trying to read AC data size of trace ";
                  FStr name; Lit "."])
      else ret size
    else raise (NL5TraceException (ac_trace_missing name))
  else raise (NL5OpenException not_opened).

(** [n] crosses as a [c_int] here too. *)
Definition get_ac_data_at (name : string) (n : Z) : M (float * float * float) :=
  ncir <- get_ncir ;;
  if ncir >=? 0 then
    ntrace <- foreign (NL5_GetACTrace ncir name) ;;
    if ntrace >=? 0 then
      '(retval, (f, (m, p))) <- foreign (NL5_GetACDataAt ncir ntrace n) ;;
      if retval <? 0 then raise (NL5ValueException bad_index)
      else ret (f, m, p)
    else raise (NL5TraceException (ac_trace_missing name))
  else raise (NL5OpenException not_opened).

Definition save_ac_data (name path : string) : M unit :=
  let path := resolve path in
  let name := with_extension name ".nlf" in
  let data_file := os.(join) path name in
  ncir <- get_ncir ;;
  if ncir >=? 0 then
    retval <- foreign (NL5_SaveACData ncir data_file) ;;
    if retval <? 0 then
      raise (NL5SaveException [Lit "Error trying to save NL5 data file."])
    else ret tt
  else raise (NL5OpenException not_opened).

(** [N = int((t_end - t_start) / t_step) + 1]: the division refuses a zero
    step, [int] refuses NaN and the infinities. *)
Definition slice_length (t_start t_end t_step : float) : M Z :=
  if PrimFloat.eqb t_step 0%float then raise ZeroDivisionError
  else
    n <- lift (int_of_float ((t_end - t_start) / t_step)%float) ;;
    ret (n + 1).

(** [np.zeros(N)] refuses a negative length. *)
Definition zeros (n : Z) : M (list float) :=
  if n <? 0 then raise ValueError else ret (np_zeros n).

(** The body of [for i in range(N)] in [get_data_slice], for the [count]
    indices from [i] on. *)
Fixpoint slice_loop (ncir ntrace : Z) (t_start t_step : float)
    (count : nat) (i : Z) (v : list float) : M (list float) :=
  match count with
  | O => ret v
  | S count' =>
      let t := (float_of_int i * t_step + t_start)%float in
      '(retval, d) <- foreign (NL5_GetData ncir ntrace (PrimFloat.abs t)) ;;
      if retval <? 0 then
        raise (NL5ValueException
                 [Lit "Data point does not exist for time="; FFloat t;
                  Lit " seconds."])
      else slice_loop ncir ntrace t_start t_step count' (i + 1)
             (setitem v (Z.to_nat i) d)
  end.

Definition get_data_slice (name : string) (t_start t_end t_step : float)
  : M (list float) :=
  ncir <- get_ncir ;;
  if ncir >=? 0 then
    ntrace <- foreign (NL5_GetTrace ncir name) ;;
    if ntrace >=? 0 then
      N <- slice_length t_start t_end t_step ;;
      v <- zeros N ;;
      slice_loop ncir ntrace t_start t_step (Z.to_nat N) 0 v
    else raise (NL5TraceException (trace_missing name))
  else raise (NL5OpenException not_opened).

(** The body of [for i in range(size)] in [get_timedata_vectors]. *)
Fixpoint timedata_loop (ncir ntrace : Z) (count : nat) (i : Z)
    (t_vec d_vec : list float) : M (list float * list float) :=
  match count with
  | O => ret (t_vec, d_vec)
  | S count' =>
      '(retval, (t, d)) <- foreign (NL5_GetDataAt ncir ntrace i) ;;
      if retval <? 0 then raise (NL5ValueException bad_index)
      else timedata_loop ncir ntrace count' (i + 1)
             (setitem t_vec (Z.to_nat i) t) (setitem d_vec (Z.to_nat i) d)
  end.

Definition size_unreadable (name : string) : fstring :=
  [Lit "Error occurred when trying to read data size of trace ";
   FStr name; Lit "."].

Definition get_timedata_vectors (name : string)
  : M (list float * list float) :=
  ncir <- get_ncir ;;
  if ncir >=? 0 then
    ntrace <- foreign (NL5_GetTrace ncir name) ;;
    if ntrace >=? 0 then
      size <- foreign (NL5_GetDataSize ncir ntrace) ;;
      if size <? 0 then raise (NL5ValueException (size_unreadable name))
      else
        timedata_loop ncir ntrace (Z.to_nat size) 0
          (np_zeros size) (np_zeros size)
    else raise (NL5TraceException (trace_missing name))
  else raise (NL5OpenException not_opened).

(** The body of [for i in range(size)] in [get_freqmagphase_vectors]. *)
Fixpoint freqmagphase_loop (ncir ntrace : Z) (count : nat) (i : Z)
    (f_vec m_vec p_vec : list float)
  : M (list float * list float * list float) :=
  match count with
  | O => ret (f_vec, m_vec, p_vec)
  | S count' =>
      '(retval, (f, (m, p))) <- foreign (NL5_GetACDataAt ncir ntrace i) ;;
      if retval <? 0 then raise (NL5ValueException bad_index)
      else freqmagphase_loop ncir ntrace count' (i + 1)
             (setitem f_vec (Z.to_nat i) f) (setitem m_vec (Z.to_nat i) m)
             (setitem p_vec (Z.to_nat i) p)
  end.

Definition get_freqmagphase_vectors (name : string) (log : bool)
  : M (list float * list float * list float) :=
  ncir <- get_ncir ;;
  '(f_vec, m_vec, p_vec) <-
    (if ncir >=? 0 then
       ntrace <- foreign (NL5_GetACTrace ncir name) ;;
       if ntrace >=? 0 then
         size <- foreign (NL5_GetACDataSize ncir ntrace) ;;
         if size <? 0 then raise (NL5ValueException (size_unreadable name))
         else
           freqmagphase_loop ncir ntrace (Z.to_nat size) 0
             (np_zeros size) (np_zeros size) (np_zeros size)
       else raise (NL5TraceException (ac_trace_missing name))
     else raise (NL5OpenException not_opened)) ;;
  if log then
    ret (map os.(log10) f_vec,
         map (fun m => (20 * os.(log10) m)%float) m_vec,
         p_vec)
  else ret (f_vec, m_vec, p_vec).

(** ** The methods as one table *)

(** A call of a public method with its arguments. *)
Inductive method_call : Type :=
| Get_error
| Get_info
| Get_license (name path : string)
| Open (name path : string)
| Close
| Save
| Save_as (name path : string)
| Get_value (name : string)
| Set_value (name : string) (v : float)
| Get_text (name : string) (buf_size : Z)
| Set_text (name text : string)
| Get_parameter_value (name : string)
| Set_parameter_value (name : string) (v : float)
| Get_parameter_text (name : string) (buf_size : Z)
| Set_parameter_text (name text : string)
| Add_voltage_trace (name : string)
| Add_current_trace (name : string)
| Add_power_trace (name : string)
| Add_variable_trace (name : string)
| Add_function_trace (text : string)
| Delete_trace (name : string)
| Set_input_value (name : string) (v : float)
| Set_input_logical_value (name : string) (v : bool)
| Get_output_value (name : string)
| Get_output_logical_value (name : string)
| Set_step (step : float)
| Set_timeout (t : Z)
| Get_simulation_time
| Start
| Simulate (interval : float)
| Simulate_interval (interval : float)
| Simulate_step
| Save_ic
| Delete_old_data
| Save_data (name path : string)
| Get_trace (name : string)
| Get_data (name : string) (time : float)
| Get_last_data (name : string)
| Get_data_at (name : string) (n : Z)
| Get_data_size (name : string)
| Simulate_ac
| Get_ac_trace (name : string)
| Get_ac_data_size (name : string)
| Get_ac_data_at (name : string) (n : Z)
| Save_ac_data (name path : string)
| Get_data_slice (name : string) (t_start t_end t_step : float)
| Get_timedata_vectors (name : string)
| Get_freqmagphase_vectors (name : string) (log : bool).

Definition fmap {A B : Type} (f : A -> B) (m : M A) : M B :=
  a <- m ;; ret (f a).

Definition none (_ : unit) : pyvalue := PyNone.

Definition pair_value (p : float * float) : pyvalue :=
  PyPair (PyFloat (fst p)) (PyFloat (snd p)).

Definition triple_value (p : float * float * float) : pyvalue :=
  PyTriple (PyFloat (fst (fst p))) (PyFloat (snd (fst p))) (PyFloat (snd p)).

Definition invoke (c : method_call) : M pyvalue :=
  match c with
  | Get_error => fmap PyStr get_error
  | Get_info => fmap PyStr get_info
  | Get_license name path => fmap PyBool (get_license name path)
  | Open name path => fmap none (open name path)
  | Close => fmap none close
  | Save => fmap none save
  | Save_as name path => fmap none (save_as name path)
  | Get_value name => fmap PyFloat (get_value name)
  | Set_value name v => fmap none (set_value name v)
  | Get_text name buf_size => fmap PyStr (get_text name buf_size)
  | Set_text name text => fmap none (set_text name text)
  | Get_parameter_value name => fmap PyFloat (get_parameter_value name)
  | Set_parameter_value name v => fmap none (set_parameter_value name v)
  | Get_parameter_text name buf_size =>
      fmap PyStr (get_parameter_text name buf_size)
  | Set_parameter_text name text => fmap none (set_parameter_text name text)
  | Add_voltage_trace name => fmap none (add_voltage_trace name)
  | Add_current_trace name => fmap none (add_current_trace name)
  | Add_power_trace name => fmap none (add_power_trace name)
  | Add_variable_trace name => fmap none (add_variable_trace name)
  | Add_function_trace text => fmap none (add_function_trace text)
  | Delete_trace name => fmap none (delete_trace name)
  | Set_input_value name v => fmap none (set_input_value name v)
  | Set_input_logical_value name v =>
      fmap none (set_input_logical_value name v)
  | Get_output_value name => fmap PyFloat (get_output_value name)
  | Get_output_logical_value name =>
      fmap PyBool (get_output_logical_value name)
  | Set_step step => fmap none (set_step step)
  | Set_timeout t => fmap none (set_timeout t)
  | Get_simulation_time => fmap PyFloat get_simulation_time
  | Start => fmap none start
  | Simulate interval => fmap none (simulate interval)
  | Simulate_interval interval => fmap none (simulate_interval interval)
  | Simulate_step => fmap none simulate_step
  | Save_ic => fmap none save_ic
  | Delete_old_data => fmap none delete_old_data
  | Save_data name path => fmap none (save_data name path)
  | Get_trace name => fmap PyInt (get_trace name)
  | Get_data name time => fmap PyFloat (get_data name time)
  | Get_last_data name => fmap pair_value (get_last_data name)
  | Get_data_at name n => fmap pair_value (get_data_at name n)
  | Get_data_size name => fmap PyInt (get_data_size name)
  | Simulate_ac => fmap none simulate_ac
  | Get_ac_trace name => fmap PyInt (get_ac_trace name)
  | Get_ac_data_size name => fmap PyInt (get_ac_data_size name)
  | Get_ac_data_at name n => fmap triple_value (get_ac_data_at name n)
  | Save_ac_data name path => fmap none (save_ac_data name path)
  | Get_data_slice name t_start t_end t_step =>
      fmap PyArray (get_data_slice name t_start t_end t_step)
  | Get_timedata_vectors name =>
      fmap (fun p => PyPair (PyArray (fst p)) (PyArray (snd p)))
        (get_timedata_vectors name)
  | Get_freqmagphase_vectors name log =>
      fmap (fun p => PyTriple (PyArray (fst (fst p))) (PyArray (snd (fst p)))
                       (PyArray (snd p)))
        (get_freqmagphase_vectors name log)
  end.

End Client.

(** The methods that work on the open document. *)
Definition per_document (c : method_call) : bool :=
  match c with
  | Get_error | Get_info | Get_license _ _ | Open _ _
  | Get_trace _ | Get_ac_trace _ => false
  | _ => true
  end.

(** The argument a method names its subject by (a parameter, a trace, an
    input or output label, a file), when it has one. *)
Definition identifier (c : method_call) : option string :=
  match c with
  | Get_license name _ | Open name _ | Save_as name _ | Get_value name
  | Set_value name _ | Get_text name _ | Set_text name _
  | Get_parameter_value name | Set_parameter_value name _
  | Get_parameter_text name _ | Set_parameter_text name _
  | Add_voltage_trace name | Add_current_trace name | Add_power_trace name
  | Add_variable_trace name | Add_function_trace name | Delete_trace name
  | Set_input_value name _ | Set_input_logical_value name _
  | Get_output_value name | Get_output_logical_value name
  | Save_data name _ | Get_trace name | Get_data name _ | Get_last_data name
  | Get_data_at name _ | Get_data_size name | Get_ac_trace name
  | Get_ac_data_size name | Get_ac_data_at name _ | Save_ac_data name _
  | Get_data_slice name _ _ _ | Get_timedata_vectors name
  | Get_freqmagphase_vectors name _ => Some name
  | _ => None
  end.

(** ** Observations on a run *)

Definition ev_failed (v : event) : bool :=
  match v with Ev e r => failed e r end.

Definition ev_is_close (v : event) : bool :=
  match v with Ev e _ => is_close e end.

(** The handles passed to [NL5_Close] during a run, in order. *)
Fixpoint closes (t : list event) : list Z :=
  match t with
  | [] => []
  | Ev e _ :: t' =>
      match e with
      | NL5_Close ncir => ncir :: closes t'
      | _ => closes t'
      end
  end.

(** The entry points whose failure is reported with the caller's name for
    the subject in the message. *)
Definition names_subject {R : Type} (e : entry R) : bool :=
  match e with
  | NL5_SaveAs _ _ | NL5_GetValue _ _ | NL5_SetValue _ _ _
  | NL5_GetText _ _ _ | NL5_SetText _ _ _ | NL5_GetParam _ _
  | NL5_GetParamValue _ _ | NL5_SetParamValue _ _ _
  | NL5_GetParamText _ _ _ | NL5_SetParamText _ _ _ | NL5_GetTrace _ _
  | NL5_AddVTrace _ _ | NL5_AddITrace _ _ | NL5_AddPTrace _ _
  | NL5_AddVarTrace _ _ | NL5_AddFuncTrace _ _ | NL5_DeleteTrace _ _
  | NL5_GetInput _ _ | NL5_SetInputValue _ _ _ | NL5_GetOutput _ _
  | NL5_GetOutputValue _ _ | NL5_GetDataSize _ _ | NL5_GetACTrace _ _
  | NL5_GetACDataSize _ _ => true
  | _ => false
  end.

Definition ev_names_subject (v : event) : bool :=
  match v with Ev e _ => names_subject e end.

(** [contains s sub]: [sub in s]. *)
Fixpoint contains (s sub : string) : bool :=
  if prefix sub s then true
  else match s with
       | EmptyString => false
       | String _ s' => contains s' sub
       end.

(** The message of [e], once rendered, has [id] in it. *)
Definition embeds (id : string) (e : exn) : Prop :=
  exists msg, exn_message e = Some msg /\
    forall fmt, exists pre post, render fmt msg = (pre ++ id ++ post)%string.

(** The name a message of the method [c] quotes: the name it was called
    with; for [save_as], that name with its extension. *)
Definition quoted_name (c : method_call) (id : string) : string :=
  match c with
  | Save_as _ _ => with_extension id ".nl5"
  | _ => id
  end.

(** The message of [e] is the name [c] quotes, between two literal texts. *)
Definition names_in_text (c : method_call) (e : exn) : Prop :=
  exists id a b,
    identifier c = Some id /\
    exn_message e = Some [Lit a; FStr (quoted_name c id); Lit b].

(** The messages of the module that quote nothing, and the texts around the
    number in those that quote one. *)
Definition plain_texts : list string :=
  ["License does not have DLL option activated.";
   "Error opening NL5 circuit";
   "Error trying to save the schematic circuit file.";
   "Step not valid.";
   "Timeout not valid.";
   "Error when reading simulation time.";
   "Error trying to start simulation.";
   "Error trying to perform one simulation step.";
   "Error trying to save initial conditions into components.";
   "Error trying to delete old data.";
   "Error trying to save NL5 data file.";
   "Data point does not exist.";
   "Index is less than zero, or greater or equal to data size.";
   "Error trying to start AC simulation"].

Definition quoting_texts : list (string * string) :=
  [("Error trying to start simulation with interval=", ".");
   ("Data point does not exist for abs(time)=", " seconds.");
   ("Data point does not exist for time=", " seconds.")].

(** A message that is one of these: fixed text, around one number at most. *)
Definition fixed_text (m : fstring) : bool :=
  match m with
  | [Lit s] => existsb (String.eqb s) plain_texts
  | [Lit a; FFloat _; Lit b] =>
      existsb (fun p => String.eqb a (fst p) && String.eqb b (snd p))
        quoting_texts
  | _ => false
  end.

Definition has_fixed_text (e : exn) : Prop :=
  exists m, exn_message e = Some m /\ fixed_text m = true.

(** The calls whose status is read and whose failure is reported without a
    name. *)
Definition ev_unnamed (v : event) : bool :=
  negb (ev_names_subject v) && negb (ev_is_close v).

(** An exception without its message. *)
Definition erase_message (e : exn) : exn :=
  match e with
  | NL5OpenException _ => NL5OpenException []
  | NL5ParamException _ => NL5ParamException []
  | NL5TraceException _ => NL5TraceException []
  | NL5ValueException _ => NL5ValueException []
  | NL5SaveException _ => NL5SaveException []
  | NL5StartException _ => NL5StartException []
  | NL5DeleteException _ => NL5DeleteException []
  | NL5LicenseException _ => NL5LicenseException []
  | NL5NotImplementedException _ => NL5NotImplementedException []
  | e' => e'
  end.

Definition erase_result {A : Type} (r : result A) : result A :=
  match r with
  | Returns a => Returns a
  | Raises e => Raises (erase_message e)
  end.

(** Every call chosen by [sel] that fails is followed at once by an
    exception satisfying [P]. *)
Fixpoint each_failure {X : Type} (sel : event -> bool) (P : exn -> Prop)
    (p : prog (result X * NL5_dll)) : Prop :=
  match p with
  | Done _ => True
  | Call e k =>
      forall r,
        (failed e r = true -> sel (Ev e r) = true ->
         exists ex s, k r = Done (Raises ex, s) /\ P ex)
        /\ each_failure sel P (k r)
  end.

(** ** Sample surroundings, for the examples *)

(** An engine that answers every call with status [z], zeroed cells and an
    empty buffer, whatever came before. *)
Definition answer (z : Z) (R : Type) (e : entry R) : R :=
  match e in entry R return R with
  | NL5_GetError | NL5_GetInfo => Some "OK"
  | NL5_GetValue _ _ | NL5_GetParamValue _ _ | NL5_GetSimulationTime _
  | NL5_GetData _ _ _ | NL5_GetOutputValue _ _ => (z, 0%float)
  | NL5_GetText _ _ _ | NL5_GetParamText _ _ _ => (z, EmptyString)
  | NL5_GetDataAt _ _ _ | NL5_GetLastData _ _ => (z, (0%float, 0%float))
  | NL5_GetOutputLogicalValue _ _ => (z, 0)
  | NL5_GetACDataAt _ _ _ => (z, (0%float, (0%float, 0%float)))
  | _ => z
  end.

Definition steady (z : Z) : engine := fun R _ e => answer z R e.

(** A document with one trace, handle 0, of three samples: the indices 0, 1
    and 2 are in range. *)
Definition three_samples : engine :=
  fun R _ e =>
    match e in entry R return R with
    | NL5_GetDataSize _ _ => 3
    | NL5_GetDataAt _ _ n =>
        if (0 <=? n) && (n <? 3) then (0, (float_of_int n, 1%float))
        else (-1, (0%float, 0%float))
    | e' => answer 0 _ e'
    end.

Definition starts_with_slash (s : string) : bool := prefix "/" s.

(** A POSIX-like environment with working directory [/work].  [abspath]
    does not normalise and [log10] is a stand-in: the examples use neither
    dotted paths nor logarithms. *)
Definition sample_env : py_env := {|
  getcwd := "/work";
  abspath := fun p => if starts_with_slash p then p else "/work/" ++ p;
  join := fun a b =>
            if starts_with_slash b then b
            else if String.eqb a EmptyString || endswith a "/" then a ++ b
            else a ++ "/" ++ b;
  on_linux := true;
  decode := fun b => Some b;
  log10 := fun _ => PrimFloat.nan;
  maxsize := 9223372036854775807;
  can_allocate := fun n => n <=? 4294967296
|}.

Definition closed_client : NL5_dll := {| path := "/work"; _ncir := -1 |}.

Definition open_client (ncir : Z) : NL5_dll := {| path := "/work"; _ncir := ncir |}.

(** The file names handed to the engine during a run, in order. *)
Fixpoint file_args (t : list event) : list string :=
  match t with
  | [] => []
  | Ev e _ :: t' =>
      match e with
      | NL5_Open name | NL5_SaveAs _ name | NL5_SaveData _ name
      | NL5_SaveACData _ name | NL5_GetLicense name => name :: file_args t'
      | _ => file_args t'
      end
  end.

(** ** Further observations *)

(** Every way the program can end satisfies [Q]. *)
Fixpoint all_leaves {X : Type} (Q : X -> Prop) (p : prog X) : Prop :=
  match p with
  | Done x => Q x
  | Call e k => forall r, all_leaves Q (k r)
  end.

(** Every call the program can make satisfies [Q], whatever the replies. *)
Fixpoint all_calls {X : Type} (Q : forall R : Type, entry R -> Prop)
    (p : prog X) : Prop :=
  match p with
  | Done _ => True
  | Call e k => Q _ e /\ forall r, all_calls Q (k r)
  end.

(** The program makes at most [n] calls. *)
Fixpoint at_most {X : Type} (n : nat) (p : prog X) {struct p} : Prop :=
  match p with
  | Done _ => True
  | Call e k =>
      match n with
      | O => False
      | S n' => forall r, at_most n' (k r)
      end
  end.

Definition ev_entry_holds (Q : forall R : Type, entry R -> Prop) (v : event)
  : Prop :=
  match v with Ev e _ => Q _ e end.

(** The document handle an entry point is called with, when it takes one. *)
Definition ncir_arg {R : Type} (e : entry R) : option Z :=
  match e with
  | NL5_GetError | NL5_GetInfo | NL5_GetLicense _ | NL5_Open _ => None
  | NL5_Close ncir | NL5_Save ncir | NL5_SaveAs ncir _ | NL5_GetValue ncir _
  | NL5_SetValue ncir _ _ | NL5_GetText ncir _ _ | NL5_SetText ncir _ _
  | NL5_GetParam ncir _ | NL5_GetParamValue ncir _
  | NL5_SetParamValue ncir _ _ | NL5_GetParamText ncir _ _
  | NL5_SetParamText ncir _ _ | NL5_GetTrace ncir _ | NL5_AddVTrace ncir _
  | NL5_AddITrace ncir _ | NL5_AddPTrace ncir _ | NL5_AddVarTrace ncir _
  | NL5_AddFuncTrace ncir _ | NL5_DeleteTrace ncir _ | NL5_SetStep ncir _
  | NL5_SetTimeout ncir _ | NL5_GetSimulationTime ncir | NL5_Start ncir
  | NL5_Simulate ncir _ | NL5_SimulateInterval ncir _
  | NL5_SimulateStep ncir | NL5_SaveIC ncir | NL5_GetDataSize ncir _
  | NL5_GetDataAt ncir _ _ | NL5_GetLastData ncir _ | NL5_GetData ncir _ _
  | NL5_DeleteOldData ncir | NL5_SaveData ncir _ | NL5_GetInput ncir _
  | NL5_SetInputValue ncir _ _ | NL5_SetInputLogicalValue ncir _ _
  | NL5_GetOutput ncir _ | NL5_GetOutputValue ncir _
  | NL5_GetOutputLogicalValue ncir _ | NL5_CalcAC ncir
  | NL5_GetACTrace ncir _ | NL5_GetACDataSize ncir _
  | NL5_GetACDataAt ncir _ _ | NL5_SaveACData ncir _ => Some ncir
  end.

(** The parameter, trace, input or output handle an entry point is called
    with, when it takes one. *)
Definition handle_arg {R : Type} (e : entry R) : option Z :=
  match e with
  | NL5_GetParamValue _ h | NL5_SetParamValue _ h _ | NL5_GetParamText _ h _
  | NL5_SetParamText _ h _ | NL5_DeleteTrace _ h | NL5_GetDataSize _ h
  | NL5_GetDataAt _ h _ | NL5_GetLastData _ h | NL5_GetData _ h _
  | NL5_SetInputValue _ h _ | NL5_SetInputLogicalValue _ h _
  | NL5_GetOutputValue _ h | NL5_GetOutputLogicalValue _ h
  | NL5_GetACDataSize _ h | NL5_GetACDataAt _ h _ => Some h
  | _ => None
  end.

(** The entry points that resolve a name to a handle, with the name. *)
Definition lookup_name {R : Type} (e : entry R) : option string :=
  match e with
  | NL5_GetParam _ name | NL5_GetTrace _ name | NL5_GetInput _ name
  | NL5_GetOutput _ name | NL5_GetACTrace _ name => Some name
  | _ => None
  end.

(** The classes of the module's exceptions. *)
Inductive exn_kind : Type :=
| KOpen | KParam | KTrace | KValue | KSave | KStart | KDelete | KLicense
| KNotImplemented | KInterpreter.

Definition exn_kind_eqb (a b : exn_kind) : bool :=
  match a, b with
  | KOpen, KOpen | KParam, KParam | KTrace, KTrace | KValue, KValue
  | KSave, KSave | KStart, KStart | KDelete, KDelete | KLicense, KLicense
  | KNotImplemented, KNotImplemented | KInterpreter, KInterpreter => true
  | _, _ => false
  end.

Definition kind_of (e : exn) : exn_kind :=
  match e with
  | NL5OpenException _ => KOpen
  | NL5ParamException _ => KParam
  | NL5TraceException _ => KTrace
  | NL5ValueException _ => KValue
  | NL5SaveException _ => KSave
  | NL5StartException _ => KStart
  | NL5DeleteException _ => KDelete
  | NL5LicenseException _ => KLicense
  | NL5NotImplementedException _ => KNotImplemented
  | _ => KInterpreter
  end.

(** The class of exception the client answers a negative status of each
    entry point with ([NL5_Close] apart, whose status it does not read). *)
Definition kind_for {R : Type} (e : entry R) : exn_kind :=
  match e with
  | NL5_GetLicense _ => KLicense
  | NL5_Open _ => KOpen
  | NL5_Save _ | NL5_SaveAs _ _ | NL5_SaveIC _ | NL5_SaveData _ _
  | NL5_SaveACData _ _ => KSave
  | NL5_GetParam _ _ => KParam
  | NL5_GetTrace _ _ | NL5_GetACTrace _ _ | NL5_GetInput _ _
  | NL5_GetOutput _ _ | NL5_AddVTrace _ _ | NL5_AddITrace _ _
  | NL5_AddPTrace _ _ | NL5_AddVarTrace _ _ | NL5_AddFuncTrace _ _ => KTrace
  | NL5_Start _ | NL5_Simulate _ _ | NL5_SimulateInterval _ _
  | NL5_SimulateStep _ | NL5_CalcAC _ => KStart
  | NL5_DeleteOldData _ => KDelete
  | _ => KValue
  end.

Definition ev_kind_for (v : event) : exn_kind :=
  match v with Ev e _ => kind_for e end.

Definition is_open_call (c : method_call) : bool :=
  match c with Open _ _ => true | _ => false end.

(** The methods that loop over a trace. *)
Definition is_bulk (c : method_call) : bool :=
  match c with
  | Get_data_slice _ _ _ _ | Get_timedata_vectors _
  | Get_freqmagphase_vectors _ _ => true
  | _ => false
  end.

(** The indices [NL5_GetDataAt] was asked for during a run, and what it put
    in the two cells. *)
Fixpoint data_at_indices (t : list event) : list Z :=
  match t with
  | [] => []
  | Ev e _ :: t' =>
      match e with
      | NL5_GetDataAt _ _ n => n :: data_at_indices t'
      | _ => data_at_indices t'
      end
  end.

Fixpoint data_at_samples (t : list event) : list (float * float) :=
  match t with
  | [] => []
  | Ev e r :: t' =>
      match e in entry R return R -> list (float * float) with
      | NL5_GetDataAt _ _ _ => fun r => snd r :: data_at_samples t'
      | _ => fun _ => data_at_samples t'
      end r
  end.

(** The same for [NL5_GetACDataAt]. *)
Fixpoint ac_data_at_indices (t : list event) : list Z :=
  match t with
  | [] => []
  | Ev e _ :: t' =>
      match e with
      | NL5_GetACDataAt _ _ n => n :: ac_data_at_indices t'
      | _ => ac_data_at_indices t'
      end
  end.

Fixpoint ac_data_at_samples (t : list event) : list (float * (float * float)) :=
  match t with
  | [] => []
  | Ev e r :: t' =>
      match e in entry R return R -> list (float * (float * float)) with
      | NL5_GetACDataAt _ _ _ => fun r => snd r :: ac_data_at_samples t'
      | _ => fun _ => ac_data_at_samples t'
      end r
  end.

(** The times [NL5_GetData] was asked for during a run, and what it put in
    the cell. *)
Fixpoint data_times (t : list event) : list float :=
  match t with
  | [] => []
  | Ev e _ :: t' =>
      match e with
      | NL5_GetData _ _ x => x :: data_times t'
      | _ => data_times t'
      end
  end.

Fixpoint data_values (t : list event) : list float :=
  match t with
  | [] => []
  | Ev e r :: t' =>
      match e in entry R return R -> list float with
      | NL5_GetData _ _ _ => fun r => snd r :: data_values t'
      | _ => fun _ => data_values t'
      end r
  end.

(** [range(n)] from [i]: the [n] integers [i], [i + 1], ... *)
Fixpoint range_from (i : Z) (n : nat) : list Z :=
  match n with
  | O => []
  | S n' => i :: range_from (i + 1) n'
  end.

(** How a method other than [open] can end: the client is as it was, and
    an [NL5OpenException] means there was no document. *)
Definition ends_in_place {A : Type} (self : NL5_dll) (x : result A * NL5_dll)
  : Prop :=
  snd x = self /\
  match fst x with
  | Raises e => kind_of e = KOpen -> self.(_ncir) < 0
  | Returns _ => True
  end.

(** The name of a parameter, trace, input or output a wrapper is given (file
    names apart); the library reads [c_char_p] of it. *)
Definition name_arg {R : Type} (e : entry R) : option string :=
  match e with
  | NL5_GetValue _ name | NL5_SetValue _ name _ | NL5_GetText _ name _
  | NL5_SetText _ name _ | NL5_GetParam _ name | NL5_GetTrace _ name
  | NL5_AddVTrace _ name | NL5_AddITrace _ name | NL5_AddPTrace _ name
  | NL5_AddVarTrace _ name | NL5_AddFuncTrace _ name | NL5_GetInput _ name
  | NL5_GetOutput _ name | NL5_GetACTrace _ name => Some name
  | _ => None
  end.

Definition is_logical_entry {R : Type} (e : entry R) : bool :=
  match e with
  | NL5_SetInputLogicalValue _ _ _ | NL5_GetOutputLogicalValue _ _ => true
  | _ => false
  end.

Definition ev_ncir_arg (v : event) : option Z :=
  match v with Ev e _ => ncir_arg e end.

Definition ev_name_arg (v : event) : option string :=
  match v with Ev e _ => name_arg e end.

Definition ev_handle_arg (v : event) : option Z :=
  match v with Ev e _ => handle_arg e end.

Definition ev_is_logical (v : event) : bool :=
  match v with Ev e _ => is_logical_entry e end.

(** What holds of every call a method [c] makes on the client [self]. *)
Definition sound_call (self : NL5_dll) (c : method_call) (R : Type)
    (e : entry R) : Prop :=
  match ncir_arg e with
  | Some n => n = self.(_ncir) /\ 0 <= n
  | None => True
  end /\
  match name_arg e with
  | Some name => identifier c = Some name
  | None => True
  end /\
  is_logical_entry e = false.

(** The handle a look-up has answered. *)
Definition ev_lookup_reply (v : event) : option Z :=
  match v with
  | Ev e r =>
      match e in entry R return R -> option Z with
      | NL5_GetParam _ _ | NL5_GetTrace _ _ | NL5_GetInput _ _
      | NL5_GetOutput _ _ | NL5_GetACTrace _ _ => fun r => Some r
      | _ => fun _ => None
      end r
  end.

(** The handle answered by the latest look-up of a history, if any. *)
Definition last_lookup (start : option Z) (t : list event) : option Z :=
  fold_left
    (fun acc v => match ev_lookup_reply v with Some z => Some z | None => acc end)
    t start.

(** Every handle a program passes on is non-negative and is the one the
    latest look-up answered ([last] before the program starts). *)
Fixpoint threads {X : Type} (last : option Z) (p : prog X) : Prop :=
  match p with
  | Done _ => True
  | Call e k =>
      match handle_arg e with
      | Some hd => last = Some hd /\ 0 <= hd
      | None => True
      end /\
      forall r,
        threads
          (match ev_lookup_reply (Ev e r) with Some z => Some z | None => last end)
          (k r)
  end.

(** * Properties *)

Ltac bool_lia :=
  repeat match goal with
  | H : (_ <? _) = true |- _ => apply Z.ltb_lt in H
  | H : (_ <? _) = false |- _ => apply Z.ltb_ge in H
  | H : (_ >=? _) = true |- _ => rewrite Z.geb_leb in H; apply Z.leb_le in H
  | H : (_ >=? _) = false |- _ => rewrite Z.geb_leb in H; apply Z.leb_gt in H
  end; lia.

Lemma geb_true (a : Z) : 0 <= a -> (a >=? 0) = true.
Proof. intros H. rewrite Z.geb_leb. apply Z.leb_le. exact H. Qed.

Lemma geb_false (a : Z) : a < 0 -> (a >=? 0) = false.
Proof. intros H. rewrite Z.geb_leb. apply Z.leb_gt. exact H. Qed.

Lemma ltb_true (a : Z) : a < 0 -> (a <? 0) = true.
Proof. intros H. apply Z.ltb_lt. exact H. Qed.

Lemma ltb_false (a : Z) : 0 <= a -> (a <? 0) = false.
Proof. intros H. apply Z.ltb_ge. exact H. Qed.

(** ** The conversions of ctypes *)

Lemma c_int_range (z : Z) : -2147483648 <= c_int z <= 2147483647.
Proof.
  unfold c_int.
  pose proof (Z.mod_pos_bound (z + 2147483648) 4294967296 eq_refl). lia.
Qed.

Lemma c_int_id (z : Z) : -2147483648 <= z <= 2147483647 -> c_int z = z.
Proof. intros H. unfold c_int. rewrite Z.mod_small by lia. lia. Qed.

Lemma c_int_idem (z : Z) : c_int (c_int z) = c_int z.
Proof. apply c_int_id. apply c_int_range. Qed.

Lemma c_int_fixed (z : Z) : c_int z = z <-> -2147483648 <= z <= 2147483647.
Proof.
  split; [| apply c_int_id].
  intros H. rewrite <- H. apply c_int_range.
Qed.

Lemma c_int_multiple (k : Z) : c_int (k * 4294967296) = 0.
Proof.
  unfold c_int. rewrite Z.add_comm, Z.mod_add by discriminate. reflexivity.
Qed.

Lemma c_char_p_prefix (s : string) : prefix (c_char_p s) s = true.
Proof.
  induction s as [| c s IH]; simpl; [reflexivity|].
  destruct (Ascii.eqb c Ascii.zero); simpl; [reflexivity|].
  destruct (ascii_dec c c) as [_ | Hne]; [exact IH | contradiction].
Qed.

Lemma c_char_p_fixed (s : string) : c_char_p s = s <-> has_nul s = false.
Proof.
  induction s as [| c s IH]; simpl; [split; reflexivity|].
  destruct (Ascii.eqb c Ascii.zero); simpl.
  - split; discriminate.
  - rewrite <- IH. split; intros H; [injection H as H; exact H | rewrite H; reflexivity].
Qed.

Lemma c_char_p_has_no_nul (s : string) : has_nul (c_char_p s) = false.
Proof.
  induction s as [| c s IH]; simpl; [reflexivity|].
  destruct (Ascii.eqb c Ascii.zero) eqn:Hc; simpl; [reflexivity|].
  rewrite Hc. exact IH.
Qed.

(** ** Sample runs *)

Example int_of_float_truncates :
  int_of_float 2.5%float = Returns 2 /\ int_of_float (-2.5)%float = Returns (-2) /\
  int_of_float infinity = Raises OverflowError /\
  int_of_float nan = Raises ValueError.
Proof. repeat split. Qed.

Example endswith_cases :
  endswith "amp.nl5" ".nl5" = true /\ endswith "nl5" ".nl5" = false /\
  endswith "amp.NL5" ".nl5" = false /\ endswith "amp" EmptyString = true.
Proof. repeat split. Qed.

Example get_data_slice_three_points :
  run (steady 0) [] (get_data_slice "V(out)" 0%float 1%float 0.5%float (open_client 0))
  = ((Returns [0%float; 0%float; 0%float], open_client 0),
     [Ev (NL5_GetTrace 0 "V(out)") 0;
      Ev (NL5_GetData 0 0 0%float) (0, 0%float);
      Ev (NL5_GetData 0 0 0.5%float) (0, 0%float);
      Ev (NL5_GetData 0 0 1%float) (0, 0%float)]).
Proof. vm_compute. reflexivity. Qed.

Example get_data_slice_backwards :
  run (steady 0) [] (get_data_slice "V(out)" 1%float 0%float 0.5%float (open_client 0))
  = ((Raises ValueError, open_client 0), [Ev (NL5_GetTrace 0 "V(out)") 0]).
Proof. vm_compute. reflexivity. Qed.

Example get_data_slice_zero_step :
  run (steady 0) [] (get_data_slice "V(out)" 0%float 1%float 0%float (open_client 0))
  = ((Raises ZeroDivisionError, open_client 0), [Ev (NL5_GetTrace 0 "V(out)") 0]).
Proof. vm_compute. reflexivity. Qed.

Example get_timedata_vectors_three_samples :
  run three_samples [] (get_timedata_vectors "V(out)" (open_client 0))
  = ((Returns ([0%float; 1%float; 2%float], [1%float; 1%float; 1%float]),
      open_client 0),
     [Ev (NL5_GetTrace 0 "V(out)") 0; Ev (NL5_GetDataSize 0 0) 3;
      Ev (NL5_GetDataAt 0 0 0) (0, (0%float, 1%float));
      Ev (NL5_GetDataAt 0 0 1) (0, (1%float, 1%float));
      Ev (NL5_GetDataAt 0 0 2) (0, (2%float, 1%float))]).
Proof. vm_compute. reflexivity. Qed.

Example set_input_logical_value_never_arrives :
  run (steady 1) [] (set_input_logical_value "Vin" true (open_client 0))
  = ((Raises ValueError, open_client 0), [Ev (NL5_GetInput 0 "Vin") 1]).
Proof. reflexivity. Qed.

Example get_output_logical_value_never_arrives :
  run (steady 1) [] (get_output_logical_value "Vout" (open_client 0))
  = ((Raises ArgumentError, open_client 0), [Ev (NL5_GetOutput 0 "Vout") 1]).
Proof. reflexivity. Qed.

(** ** Failures along a run *)

Section EachFailure.

Context {X : Type} (sel : event -> bool) (P : exn -> Prop).

(** What [each_failure] says of the tree holds on every run of it: a failed
    call chosen by [sel] is the last call, and the run ends in an exception
    satisfying [P]. *)
Lemma each_failure_run :
  forall (p : prog (result X * NL5_dll)) eng h res s pre ev post,
    each_failure sel P p ->
    run eng h p = ((res, s), (pre ++ ev :: post)%list) ->
    ev_failed ev = true -> sel ev = true ->
    post = [] /\ exists ex, res = Raises ex /\ P ex.
Proof.
  induction p as [x | R e k IH]; intros eng h res s pre ev post Hp Hrun Hf Hs.
  - simpl in Hrun. destruct pre; discriminate.
  - simpl in Hrun, Hp.
    destruct (Hp (eng R h e)) as [Hhere Hrest].
    destruct (run eng (h ++ [Ev e (eng R h e)])%list (k (eng R h e)))
      as [[res' s'] t] eqn:Hk.
    destruct pre as [| ev0 pre]; simpl in Hrun.
    + injection Hrun as Hres Hs' Hev Ht. subst ev res' s' t.
      destruct (Hhere Hf Hs) as (ex & s0 & Hdone & HP).
      rewrite Hdone in Hk. simpl in Hk. injection Hk as Hres _ Hpost.
      split; [symmetry; exact Hpost|].
      exists ex. split; [symmetry; exact Hres | exact HP].
    + injection Hrun as Hres Hs' Hev Ht. subst.
      eapply IH; eauto.
Qed.

(** Sequencing keeps the property when what follows passes exceptions on. *)
Lemma each_failure_bind_prog {Y : Type} :
  forall (p : prog (result Y * NL5_dll))
         (g : result Y * NL5_dll -> prog (result X * NL5_dll)),
    each_failure sel P p ->
    (forall x, each_failure sel P (g x)) ->
    (forall ex s, g (Raises ex, s) = Done (Raises ex, s)) ->
    each_failure sel P (bind_prog p g).
Proof.
  induction p as [x | R e k IH]; intros g Hp Hg Hraise; simpl.
  - apply Hg.
  - intros r. simpl in Hp. destruct (Hp r) as [Hhere Hrest]. split.
    + intros H1 H2. destruct (Hhere H1 H2) as (ex & s & Hk & HP).
      exists ex, s. rewrite Hk. simpl. split; [apply Hraise | exact HP].
    + apply IH; auto.
Qed.

End EachFailure.

(** The failure branch of a call: either the call is not one of the chosen,
    or the tests on its status lead to a [raise]. *)
Ltac fail_branch tacP :=
  intros ?Hf ?Hs; simpl in *;
  first
    [ match goal with H : false = true |- _ => discriminate H end
    | repeat (cbn in *;
              match goal with
              | |- context [if ?b then _ else _] => destruct b eqn:?
              end);
      first [ bool_lia
            | eexists; eexists; split; [reflexivity | tacP] ] ].

(** Walks a method body, call by call and test by test. *)
Ltac walk tacP :=
  unfold create_string_buffer, decode_value, decode_c_char_p;
  cbn;
  lazymatch goal with
  | |- True => exact I
  | |- forall r, _ /\ _ =>
      intros ?r;
      repeat match goal with r : (_ * _)%type |- _ => destruct r end;
      split; [ fail_branch tacP | walk tacP ]
  | |- context [if ?b then _ else _] => destruct b eqn:?; walk tacP
  | |- context [match ?x with Some _ => _ | None => _ end] =>
      destruct x eqn:?; walk tacP
  end.

(** ** No document *)

(** Every method that works on the document tests the handle first. *)
Lemma no_document_program (os : py_env) (c : method_call) (self : NL5_dll) :
  per_document c = true -> self.(_ncir) < 0 ->
  exists msg, invoke os c self = Done (Raises (NL5OpenException msg), self).
Proof.
  intros Hc Hn.
  destruct c; try discriminate Hc; cbn;
    rewrite (geb_false _ Hn); cbn; eexists; reflexivity.
Qed.

(** C1: with no document open ([_ncir = -1]) every per-document method
    raises [NL5OpenException], the client is left as it was, and the run has
    made no call of an entry point. *)
Theorem no_document_raises_open :
  forall (os : py_env) (c : method_call) (self : NL5_dll)
         (eng : engine) (h : list event),
    per_document c = true ->
    self.(_ncir) = -1 ->
    exists msg,
      run eng h (invoke os c self)
      = ((Raises (NL5OpenException msg), self), []).
Proof.
  intros os c self eng h Hc Hn.
  destruct (no_document_program os c self Hc) as [msg Hp]; [lia|].
  exists msg. rewrite Hp. reflexivity.
Qed.

Lemma no_document_raises_open_witness :
  per_document (Get_data_at "V(out)" 0) = true /\
  closed_client.(_ncir) = -1 /\
  exists msg,
    run (steady 0) [] (invoke sample_env (Get_data_at "V(out)" 0) closed_client)
    = ((Raises (NL5OpenException msg), closed_client), []).
Proof.
  split; [reflexivity|]. split; [reflexivity|].
  apply (no_document_raises_open sample_env (Get_data_at "V(out)" 0)
           closed_client (steady 0) []); reflexivity.
Defined.

(** ** Closing *)

Lemma close_run (eng : engine) (h : list event) (self : NL5_dll) :
  0 <= self.(_ncir) ->
  run eng h (close self)
  = ((Returns tt, self),
     [Ev (NL5_Close self.(_ncir)) (eng _ h (NL5_Close self.(_ncir)))]).
Proof.
  intros Hn. unfold close. cbn. rewrite (geb_true _ Hn). reflexivity.
Qed.

(** C2, on the code: [close()] on a client whose handle is 0 calls
    [NL5_Close] and returns, and the handle is still 0, not -1; a
    [get_value] after it goes to the engine with the closed handle instead
    of raising [NL5OpenException]. *)
Theorem close_keeps_handle :
  forall (eng : engine) (h : list event),
    let after := run eng h (close (open_client 0)) in
    fst after = (Returns tt, open_client 0) /\
    (snd (fst after)).(_ncir) = 0 /\
    (snd (fst after)).(_ncir) <> -1 /\
    closes (snd after) = [0] /\
    exists r,
      snd (run eng (h ++ snd after) (get_value "R1.R" (snd (fst after))))
      = [Ev (NL5_GetValue 0 "R1.R") r].
Proof.
  intros eng h after. subst after.
  rewrite close_run by (simpl; lia). simpl.
  repeat split; try reflexivity; try discriminate.
  unfold get_value. cbn.
  match goal with
  | |- context [eng ?T ?h' (NL5_GetValue 0 "R1.R")] =>
      destruct (eng T h' (NL5_GetValue 0 "R1.R")) as [retval v]
  end.
  cbn. destruct (retval <? 0); eexists; reflexivity.
Qed.

(** ** Negative statuses *)

Section Loops.

Context {sel : event -> bool} {P : exn -> Prop}.

Lemma slice_loop_each_failure :
  (forall ncir ntrace t r m,
      sel (Ev (NL5_GetData ncir ntrace t) r) = true ->
      P (NL5ValueException m)) ->
  forall ncir ntrace t_start t_step count i v self,
    each_failure sel P (slice_loop ncir ntrace t_start t_step count i v self).
Proof.
  intros HP ncir ntrace t_start t_step count.
  induction count as [| count IH]; intros i v self.
  - exact I.
  - cbn. intros [retval d]. split.
    + intros Hf Hs. simpl in Hf. rewrite Hf. cbn.
      eexists; eexists; split; [reflexivity | eapply HP; exact Hs].
    + cbn. destruct (retval <? 0); [exact I | apply IH].
Qed.

Lemma timedata_loop_each_failure :
  (forall ncir ntrace n r m,
      sel (Ev (NL5_GetDataAt ncir ntrace n) r) = true ->
      P (NL5ValueException m)) ->
  forall ncir ntrace count i t_vec d_vec self,
    each_failure sel P (timedata_loop ncir ntrace count i t_vec d_vec self).
Proof.
  intros HP ncir ntrace count.
  induction count as [| count IH]; intros i t_vec d_vec self.
  - exact I.
  - cbn. intros [retval [t d]]. split.
    + intros Hf Hs. simpl in Hf. rewrite Hf. cbn.
      eexists; eexists; split; [reflexivity | eapply HP; exact Hs].
    + cbn. destruct (retval <? 0); [exact I | apply IH].
Qed.

Lemma freqmagphase_loop_each_failure :
  (forall ncir ntrace n r m,
      sel (Ev (NL5_GetACDataAt ncir ntrace n) r) = true ->
      P (NL5ValueException m)) ->
  forall ncir ntrace count i f_vec m_vec p_vec self,
    each_failure sel P
      (freqmagphase_loop ncir ntrace count i f_vec m_vec p_vec self).
Proof.
  intros HP ncir ntrace count.
  induction count as [| count IH]; intros i f_vec m_vec p_vec self.
  - exact I.
  - cbn. intros [retval [f [m p]]]. split.
    + intros Hf Hs. simpl in Hf. rewrite Hf. cbn.
      eexists; eexists; split; [reflexivity | eapply HP; exact Hs].
    + cbn. destruct (retval <? 0); [exact I | apply IH].
Qed.

End Loops.

Lemma get_data_slice_each_failure (sel : event -> bool) (P : exn -> Prop)
    (name : string) (t_start t_end t_step : float) (self : NL5_dll) :
  (forall ncir r, sel (Ev (NL5_GetTrace ncir name) r) = true ->
                  P (NL5TraceException (trace_missing name))) ->
  (forall ncir ntrace t r m,
      sel (Ev (NL5_GetData ncir ntrace t) r) = true ->
      P (NL5ValueException m)) ->
  each_failure sel P (get_data_slice name t_start t_end t_step self).
Proof.
  intros Htrace Hdata. unfold get_data_slice. cbn.
  destruct (_ncir self >=? 0) eqn:Hn; [| exact I].
  cbn. intros ntrace. split.
  - intros Hf Hs. simpl in Hf. cbn.
    replace (ntrace >=? 0) with false by (symmetry; bool_lia).
    eexists; eexists; split; [reflexivity | eapply Htrace; exact Hs].
  - cbn. destruct (ntrace >=? 0); [| exact I].
    unfold slice_length, zeros, lift. cbn.
    destruct (PrimFloat.eqb t_step 0); [exact I|]. cbn.
    destruct (int_of_float ((t_end - t_start) / t_step)) as [n | e];
      [| exact I].
    cbn. destruct (n + 1 <? 0); [exact I|]. cbn.
    apply slice_loop_each_failure. exact Hdata.
Qed.

(** Walks up to a loop and hands it to the lemma for it. *)
Ltac walk_to_loop tacP lem :=
  unfold create_string_buffer, decode_value, decode_c_char_p;
  cbn;
  lazymatch goal with
  | |- True => exact I
  | |- forall r, _ /\ _ =>
      intros ?r;
      repeat match goal with r : (_ * _)%type |- _ => destruct r end;
      split; [ fail_branch tacP | walk_to_loop tacP lem ]
  | |- context [if ?b then _ else _] => destruct b eqn:?; walk_to_loop tacP lem
  | |- each_failure _ _ (bind_prog _ _) =>
      apply each_failure_bind_prog;
      [ first [ apply lem; intros;
                first [ match goal with
                        | H : _ = true |- _ => simpl in H; discriminate H
                        end
                      | tacP ]
              | walk_to_loop tacP lem ]
      | intros [[?a | ?e] ?s];
        repeat match goal with r : (_ * _)%type |- _ => destruct r end;
        cbn;
        repeat match goal with
               | |- context [if ?b then _ else _] => destruct b
               end;
        exact I
      | intros; reflexivity ]
  end.

(** Apart from [NL5_Close], every entry point's negative status makes the
    method raise on the spot. *)
Lemma checked_unless_close (os : py_env) (c : method_call) (self : NL5_dll) :
  each_failure (fun ev => negb (ev_is_close ev)) (fun _ => True)
    (invoke os c self).
Proof.
  destruct c;
    try solve [walk ltac:(exact I)].
  - apply each_failure_bind_prog.
    + apply get_data_slice_each_failure; intros; exact I.
    + intros [[a | e] s]; exact I.
    + intros; reflexivity.
  - walk_to_loop ltac:(exact I) @timedata_loop_each_failure.
  - walk_to_loop ltac:(exact I) @freqmagphase_loop_each_failure.
Qed.

(** C3, as the code has it: on every run of every method, a call of an entry
    point other than [NL5_Close] that comes back negative is the last call
    of the run (nothing is retried, nothing follows) and the method raises. *)
Theorem negative_status_raises_unless_close :
  forall (os : py_env) (c : method_call) (self : NL5_dll)
         (eng : engine) (h : list event)
         (res : result pyvalue) (self' : NL5_dll)
         (pre : list event) (ev : event) (post : list event),
    run eng h (invoke os c self) = ((res, self'), (pre ++ ev :: post)%list) ->
    ev_failed ev = true ->
    ev_is_close ev = false ->
    post = [] /\ exists ex, res = Raises ex.
Proof.
  intros os c self eng h res self' pre ev post Hrun Hf Hc.
  destruct (each_failure_run (fun ev => negb (ev_is_close ev)) (fun _ => True)
              _ eng h res self' pre ev post
              (checked_unless_close os c self) Hrun Hf) as [Hpost [ex [Hres _]]].
  - rewrite Hc. reflexivity.
  - split; [exact Hpost | exists ex; exact Hres].
Qed.

Lemma negative_status_raises_unless_close_witness :
  run (steady (-1)) [] (invoke sample_env (Get_value "R1.R") (open_client 0))
  = ((Raises (NL5ValueException (param_not_found "R1.R")), open_client 0),
     ([] ++ Ev (NL5_GetValue 0 "R1.R") (-1, 0%float) :: [])%list) /\
  ev_failed (Ev (NL5_GetValue 0 "R1.R") (-1, 0%float)) = true /\
  ev_is_close (Ev (NL5_GetValue 0 "R1.R") (-1, 0%float)) = false /\
  (@nil event = [] /\
   exists ex,
     Raises (NL5ValueException (param_not_found "R1.R")) = @Raises pyvalue ex).
Proof.
  split; [reflexivity|]. split; [reflexivity|]. split; [reflexivity|].
  apply (negative_status_raises_unless_close sample_env (Get_value "R1.R")
           (open_client 0) (steady (-1)) []
           (Raises (NL5ValueException (param_not_found "R1.R")))
           (open_client 0) []
           (Ev (NL5_GetValue 0 "R1.R") (-1, 0%float)) []);
    reflexivity.
Defined.

(** C3, as stated, fails on [close]: [NL5_Close] answers -1 and [close()]
    returns all the same. *)
Lemma close_swallows_negative_status :
  run (steady (-1)) [] (invoke sample_env Close (open_client 0))
  = ((Returns PyNone, open_client 0), [Ev (NL5_Close 0) (-1)]) /\
  ev_failed (Ev (NL5_Close 0) (-1)) = true.
Proof. split; reflexivity. Qed.

(** [open] does the same with the status of the [NL5_Close] it issues. *)
Lemma open_swallows_negative_close_status :
  forall os eng h name path self,
    0 <= self.(_ncir) ->
    exists r1 r2,
      snd (run eng h (open os name path self))
      = [Ev (NL5_Close self.(_ncir)) r1;
         Ev (NL5_Open (os.(join) (resolve os path)
                         (with_extension name ".nl5"))) r2].
Proof.
  intros os eng h name path self Hn.
  unfold open. cbn. rewrite (geb_true _ Hn). cbn.
  match goal with
  | |- context [if ?z >=? 0 then _ else _] => destruct (z >=? 0)
  end; eexists; eexists; reflexivity.
Qed.

(** ** Opening *)

Lemma open_run_from_open (os : py_env) (eng : engine) (h : list event)
    (name path : string) (self : NL5_dll) :
  0 <= self.(_ncir) ->
  let file := os.(join) (resolve os path) (with_extension name ".nl5") in
  let r0 := eng Z h (NL5_Close self.(_ncir)) in
  let ncir := eng Z (h ++ [Ev (NL5_Close self.(_ncir)) r0])%list (NL5_Open file) in
  run eng h (open os name path self)
  = ((if ncir >=? 0 then Returns tt
      else Raises (NL5OpenException [Lit "Error opening NL5 circuit"]),
      set_ncir self (if ncir >=? 0 then ncir else -1)),
     [Ev (NL5_Close self.(_ncir)) r0; Ev (NL5_Open file) ncir]).
Proof.
  intros Hn file r0 ncir. unfold open. cbn. rewrite (geb_true _ Hn). cbn.
  fold file. fold r0. fold ncir. destruct (ncir >=? 0); reflexivity.
Qed.

Lemma open_run_from_closed (os : py_env) (eng : engine) (h : list event)
    (name path : string) (self : NL5_dll) :
  self.(_ncir) < 0 ->
  let file := os.(join) (resolve os path) (with_extension name ".nl5") in
  let ncir := eng Z h (NL5_Open file) in
  run eng h (open os name path self)
  = ((if ncir >=? 0 then Returns tt
      else Raises (NL5OpenException [Lit "Error opening NL5 circuit"]),
      if ncir >=? 0 then set_ncir self ncir else self),
     [Ev (NL5_Open file) ncir]).
Proof.
  intros Hn file ncir. unfold open. cbn. rewrite (geb_false _ Hn). cbn.
  fold file. fold ncir. destruct (ncir >=? 0); reflexivity.
Qed.

(** C4: [open] on a client with a document open makes exactly two calls,
    [NL5_Close] on the old handle and then [NL5_Open]; on a client with none
    it makes the [NL5_Open] call alone; and when [NL5_Open] answers a handle
    (non-negative) that handle is the one stored. *)
Theorem open_closes_previous_once :
  forall (os : py_env) (eng : engine) (h : list event)
         (name path : string) (self : NL5_dll),
    let file := os.(join) (resolve os path) (with_extension name ".nl5") in
    let out := run eng h (open os name path self) in
    (0 <= self.(_ncir) ->
     let r0 := eng Z h (NL5_Close self.(_ncir)) in
     let ncir :=
       eng Z (h ++ [Ev (NL5_Close self.(_ncir)) r0])%list (NL5_Open file) in
     snd out = [Ev (NL5_Close self.(_ncir)) r0; Ev (NL5_Open file) ncir] /\
     closes (snd out) = [self.(_ncir)] /\
     (0 <= ncir ->
      fst (fst out) = Returns tt /\ (snd (fst out)).(_ncir) = ncir))
    /\
    (self.(_ncir) < 0 ->
     let ncir := eng Z h (NL5_Open file) in
     snd out = [Ev (NL5_Open file) ncir] /\
     closes (snd out) = [] /\
     (0 <= ncir ->
      fst (fst out) = Returns tt /\ (snd (fst out)).(_ncir) = ncir)).
Proof.
  intros os eng h name path self file out. split.
  - intros Hn r0 ncir. subst out.
    rewrite (open_run_from_open os eng h name path self Hn).
    fold file. fold r0. fold ncir. cbn.
    split; [reflexivity|]. split; [reflexivity|].
    intros Hpos. rewrite (geb_true _ Hpos). split; reflexivity.
  - intros Hn ncir. subst out.
    rewrite (open_run_from_closed os eng h name path self Hn).
    fold file. fold ncir. cbn.
    split; [reflexivity|]. split; [reflexivity|].
    intros Hpos. rewrite (geb_true _ Hpos). split; reflexivity.
Qed.

Lemma open_closes_previous_once_witness :
  0 <= (open_client 3).(_ncir) /\
  closes (snd (run (steady 7) [] (open sample_env "amp" EmptyString (open_client 3))))
  = [3] /\
  fst (run (steady 7) [] (open sample_env "amp" EmptyString (open_client 3)))
  = (Returns tt, open_client 7) /\
  closed_client.(_ncir) < 0 /\
  snd (run (steady 7) [] (open sample_env "amp" EmptyString closed_client))
  = [Ev (NL5_Open "/work/amp.nl5") 7].
Proof.
  destruct (open_closes_previous_once sample_env (steady 7) [] "amp" EmptyString
              (open_client 3)) as [Hopen _].
  destruct (open_closes_previous_once sample_env (steady 7) [] "amp" EmptyString
              closed_client) as [_ Hclosed].
  assert (H3 : 0 <= (open_client 3).(_ncir)) by (simpl; lia).
  assert (H1 : closed_client.(_ncir) < 0) by (simpl; lia).
  destruct (Hopen H3) as (_ & Hc & _).
  destruct (Hclosed H1) as (Ht & _).
  split; [exact H3|]. split; [exact Hc|]. split; [reflexivity|].
  split; [exact H1 | exact Ht].
Defined.

(** ** File names *)

Lemma length_append (a b : string) :
  String.length (a ++ b) = (String.length a + String.length b)%nat.
Proof. induction a as [| c a IH]; simpl; [reflexivity | rewrite IH; reflexivity]. Qed.

Lemma substring_whole (s : string) : substring 0 (String.length s) s = s.
Proof. induction s as [| c s IH]; simpl; [reflexivity | rewrite IH; reflexivity]. Qed.

Lemma substring_after (p s : string) (m : nat) :
  substring (String.length p) m (p ++ s) = substring 0 m s.
Proof. induction p as [| c p IH]; simpl; [reflexivity | exact IH]. Qed.

Lemma substring_split (s : string) (n : nat) :
  (n <= String.length s)%nat ->
  s = (substring 0 n s ++ substring n (String.length s - n) s)%string.
Proof.
  revert n. induction s as [| c s IH]; intros n Hn; simpl in *.
  - destruct n; [reflexivity | lia].
  - destruct n as [| n]; simpl.
    + rewrite substring_whole. reflexivity.
    + rewrite <- (IH n) by lia. reflexivity.
Qed.

(** [endswith] is the suffix relation. *)
Lemma endswith_spec (s suffix : string) :
  endswith s suffix = true <-> exists p, s = (p ++ suffix)%string.
Proof.
  unfold endswith. split.
  - destruct (String.length s <? String.length suffix)%nat eqn:Hlt;
      [discriminate|].
    apply Nat.ltb_ge in Hlt. intros Heq. apply String.eqb_eq in Heq.
    exists (substring 0 (String.length s - String.length suffix) s).
    pose proof (substring_split s (String.length s - String.length suffix))
      as Hsplit.
    replace (String.length s - (String.length s - String.length suffix))%nat
      with (String.length suffix) in Hsplit by lia.
    rewrite Heq in Hsplit. apply Hsplit. lia.
  - intros [p ->]. rewrite length_append.
    replace (String.length p + String.length suffix <? String.length suffix)%nat
      with false by (symmetry; apply Nat.ltb_ge; lia).
    replace (String.length p + String.length suffix - String.length suffix)%nat
      with (String.length p) by lia.
    rewrite substring_after, substring_whole. apply String.eqb_refl.
Qed.

Lemma endswith_append (name ext : string) : endswith (name ++ ext) ext = true.
Proof. apply endswith_spec. exists name. reflexivity. Qed.

(** The extension is appended when it is missing, once, and only then. *)
Lemma with_extension_spec (name ext : string) :
  (endswith name ext = true -> with_extension name ext = name) /\
  (endswith name ext = false -> with_extension name ext = (name ++ ext)%string) /\
  endswith (with_extension name ext) ext = true /\
  with_extension (with_extension name ext) ext = with_extension name ext.
Proof.
  unfold with_extension.
  destruct (endswith name ext) eqn:He; simpl.
  - rewrite He. simpl. repeat split; try reflexivity; discriminate.
  - rewrite endswith_append. simpl.
    repeat split; try reflexivity; discriminate.
Qed.

Example with_extension_missing : with_extension "amp" ".nl5" = "amp.nl5".
Proof. reflexivity. Qed.

Example with_extension_present : with_extension "amp.nl5" ".nl5" = "amp.nl5".
Proof. reflexivity. Qed.

Example with_extension_other : with_extension "amp.nlt" ".nl5" = "amp.nlt.nl5".
Proof. reflexivity. Qed.

Lemma save_as_run (os : py_env) (eng : engine) (h : list event)
    (name path : string) (self : NL5_dll) :
  0 <= self.(_ncir) ->
  exists r,
    snd (run eng h (save_as os name path self))
    = [Ev (NL5_SaveAs self.(_ncir)
             (os.(join) (resolve os path) (with_extension name ".nl5"))) r].
Proof.
  intros Hn. unfold save_as. cbn. rewrite (geb_true _ Hn). cbn.
  match goal with
  | |- context [if ?z <? 0 then _ else _] => destruct (z <? 0)
  end; eexists; reflexivity.
Qed.

Lemma save_data_run (os : py_env) (eng : engine) (h : list event)
    (name path : string) (self : NL5_dll) :
  0 <= self.(_ncir) ->
  exists r,
    snd (run eng h (save_data os name path self))
    = [Ev (NL5_SaveData self.(_ncir)
             (os.(join) (resolve os path) (with_extension name ".nlt"))) r].
Proof.
  intros Hn. unfold save_data. cbn. rewrite (geb_true _ Hn). cbn.
  match goal with
  | |- context [if ?z <? 0 then _ else _] => destruct (z <? 0)
  end; eexists; reflexivity.
Qed.

Lemma save_ac_data_run (os : py_env) (eng : engine) (h : list event)
    (name path : string) (self : NL5_dll) :
  0 <= self.(_ncir) ->
  exists r,
    snd (run eng h (save_ac_data os name path self))
    = [Ev (NL5_SaveACData self.(_ncir)
             (os.(join) (resolve os path) (with_extension name ".nlf"))) r].
Proof.
  intros Hn. unfold save_ac_data. cbn. rewrite (geb_true _ Hn). cbn.
  match goal with
  | |- context [if ?z <? 0 then _ else _] => destruct (z <? 0)
  end; eexists; reflexivity.
Qed.

Lemma open_file_arg (os : py_env) (eng : engine) (h : list event)
    (name path : string) (self : NL5_dll) :
  file_args (snd (run eng h (open os name path self)))
  = [os.(join) (resolve os path) (with_extension name ".nl5")].
Proof.
  destruct (Z.le_gt_cases 0 self.(_ncir)) as [Hn | Hn].
  - rewrite (open_run_from_open os eng h name path self Hn). reflexivity.
  - rewrite (open_run_from_closed os eng h name path self Hn). reflexivity.
Qed.

(** C5: an extension [ext] is appended to a name, once, when the name does
    not end with it, and the name is kept as it is when it does; [open] and
    [save_as] do so with ".nl5", [save_data] with ".nlt" and [save_ac_data]
    with ".nlf", and the file handed to the engine is that name joined to
    the resolved folder. *)
Theorem file_names_get_their_extension :
  forall (os : py_env) (eng : engine) (h : list event)
         (name path : string) (self : NL5_dll) (ext : string),
    let name' := with_extension name ext in
    ((forall p, name <> (p ++ ext)%string) -> name' = (name ++ ext)%string) /\
    ((exists p, name = (p ++ ext)%string) -> name' = name) /\
    endswith name' ext = true /\
    with_extension name' ext = name' /\
    file_args (snd (run eng h (open os name path self)))
    = [os.(join) (resolve os path) (with_extension name ".nl5")] /\
    (0 <= self.(_ncir) ->
     file_args (snd (run eng h (save_as os name path self)))
     = [os.(join) (resolve os path) (with_extension name ".nl5")] /\
     file_args (snd (run eng h (save_data os name path self)))
     = [os.(join) (resolve os path) (with_extension name ".nlt")] /\
     file_args (snd (run eng h (save_ac_data os name path self)))
     = [os.(join) (resolve os path) (with_extension name ".nlf")]).
Proof.
  intros os eng h name path self ext name'. subst name'.
  destruct (with_extension_spec name ext) as (Hkeep & Hadd & Hends & Hidem).
  split.
  { intros Hno. apply Hadd.
    destruct (endswith name ext) eqn:He; [| reflexivity].
    apply endswith_spec in He. destruct He as [p Hp].
    exfalso. exact (Hno p Hp). }
  split.
  { intros Hyes. apply Hkeep. apply endswith_spec. exact Hyes. }
  split; [exact Hends|]. split; [exact Hidem|].
  split; [apply open_file_arg|].
  intros Hn.
  destruct (save_as_run os eng h name path self Hn) as [r1 H1].
  destruct (save_data_run os eng h name path self Hn) as [r2 H2].
  destruct (save_ac_data_run os eng h name path self Hn) as [r3 H3].
  rewrite H1, H2, H3. repeat split.
Qed.

Lemma file_names_get_their_extension_witness :
  (forall p, "run1" <> (p ++ ".nlt")%string) /\
  with_extension "run1" ".nlt" = "run1.nlt" /\
  (exists p, "run1.nlt" = (p ++ ".nlt")%string) /\
  with_extension "run1.nlt" ".nlt" = "run1.nlt" /\
  0 <= (open_client 1).(_ncir) /\
  file_args (snd (run (steady 0) [] (save_data sample_env "run1" EmptyString (open_client 1))))
  = ["/work/run1.nlt"] /\
  file_args (snd (run (steady 0) [] (save_data sample_env "run1.nlt" EmptyString (open_client 1))))
  = ["/work/run1.nlt"].
Proof.
  assert (Hno : forall p, "run1" <> (p ++ ".nlt")%string).
  { intros p Hp.
    assert (He : endswith "run1" ".nlt" = true)
      by (apply endswith_spec; exists p; exact Hp).
    discriminate He. }
  assert (Hyes : exists p, "run1.nlt" = (p ++ ".nlt")%string)
    by (exists "run1"; reflexivity).
  assert (Hn : 0 <= (open_client 1).(_ncir)) by (simpl; lia).
  destruct (file_names_get_their_extension sample_env (steady 0) [] "run1" EmptyString
              (open_client 1) ".nlt") as (Hadd & _ & _ & _ & _ & Hsave).
  destruct (file_names_get_their_extension sample_env (steady 0) [] "run1.nlt" EmptyString
              (open_client 1) ".nlt") as (_ & Hkeep & _ & _ & _ & Hsave').
  destruct (Hsave Hn) as (_ & Hd & _).
  destruct (Hsave' Hn) as (_ & Hd' & _).
  split; [exact Hno|]. split; [exact (Hadd Hno)|].
  split; [exact Hyes|]. split; [exact (Hkeep Hyes)|]. split; [exact Hn|].
  split; [exact Hd | exact Hd'].
Defined.

(** ** Inputs *)

(** C6: with a document open and [NL5_GetInput] answering a handle for the
    name, [set_input_value name v] hands 0.0 to [NL5_SetInputValue]: the run
    is the [NL5_GetInput] call followed by [NL5_SetInputValue ncir nin 0.0],
    and it is the same run whatever [v] is. *)
Theorem set_input_value_passes_zero :
  forall (eng : engine) (h : list event) (name : string) (v : float)
         (self : NL5_dll),
    0 <= self.(_ncir) ->
    0 <= eng Z h (NL5_GetInput self.(_ncir) name) ->
    let ncir := self.(_ncir) in
    let nin := eng Z h (NL5_GetInput ncir name) in
    let h1 := (h ++ [Ev (NL5_GetInput ncir name) nin])%list in
    snd (run eng h (set_input_value name v self))
    = [Ev (NL5_GetInput ncir name) nin;
       Ev (NL5_SetInputValue ncir nin 0%float)
          (eng Z h1 (NL5_SetInputValue ncir nin 0%float))] /\
    forall v' : float,
      run eng h (set_input_value name v' self)
      = run eng h (set_input_value name v self).
Proof.
  intros eng h name v self Hn Hnin ncir nin h1.
  split; [| reflexivity].
  unfold set_input_value. cbn. rewrite (geb_true _ Hn). cbn.
  rewrite (geb_true _ Hnin). cbn.
  fold ncir. fold nin. fold h1. unfold c_double.
  destruct (eng Z h1 (NL5_SetInputValue ncir nin 0%float) <? 0); reflexivity.
Qed.

Lemma set_input_value_passes_zero_witness :
  0 <= (open_client 0).(_ncir) /\
  0 <= steady 2 Z [] (NL5_GetInput 0 "Vin") /\
  snd (run (steady 2) [] (set_input_value "Vin" 5%float (open_client 0)))
  = [Ev (NL5_GetInput 0 "Vin") 2; Ev (NL5_SetInputValue 0 2 0%float) 2].
Proof.
  assert (H0 : 0 <= (open_client 0).(_ncir)) by (simpl; lia).
  assert (H1 : 0 <= steady 2 Z [] (NL5_GetInput 0 "Vin")) by (simpl; lia).
  split; [exact H0|]. split; [exact H1|].
  exact (proj1 (set_input_value_passes_zero (steady 2) [] "Vin" 5%float
                  (open_client 0) H0 H1)).
Defined.

(** ** The license *)

Lemma get_license_run (os : py_env) (eng : engine) (h : list event)
    (name dir : string) (self : NL5_dll) :
  let folder :=
    if negb (String.eqb dir EmptyString) then os.(abspath) dir else self.(path) in
  let lic_file := os.(join) folder (with_extension name ".nll") in
  let retval := eng Z h (NL5_GetLicense lic_file) in
  run eng h (get_license os name dir self)
  = ((if retval <? 0 then
        Raises (NL5LicenseException
                  [Lit "License does not have DLL option activated."])
      else Returns (negb (bool_of_int retval)), self),
     [Ev (NL5_GetLicense lic_file) retval]).
Proof.
  intros folder lic_file retval. unfold get_license. cbn.
  fold folder. fold lic_file. fold retval.
  destruct (retval <? 0); reflexivity.
Qed.

(** C7: [get_license] makes one call, [NL5_GetLicense] on the license file;
    it raises exactly when the status is negative, and then it is
    [NL5LicenseException]; it returns [True] for status 0 and [False] for
    every positive status. *)
Theorem get_license_three_outcomes :
  forall (os : py_env) (eng : engine) (h : list event)
         (name dir : string) (self : NL5_dll),
    let folder :=
      if negb (String.eqb dir EmptyString) then os.(abspath) dir else self.(path) in
    let lic_file := os.(join) folder (with_extension name ".nll") in
    let retval := eng Z h (NL5_GetLicense lic_file) in
    let out := run eng h (get_license os name dir self) in
    snd out = [Ev (NL5_GetLicense lic_file) retval] /\
    (retval < 0 <-> exists e, fst (fst out) = Raises e) /\
    (retval < 0 <-> exists msg, fst (fst out) = Raises (NL5LicenseException msg)) /\
    (retval = 0 <-> fst (fst out) = Returns true) /\
    (0 < retval <-> fst (fst out) = Returns false).
Proof.
  intros os eng h name dir self folder lic_file retval out. subst out.
  rewrite (get_license_run os eng h name dir self).
  fold folder. fold lic_file. fold retval. cbn.
  split; [reflexivity|].
  destruct (retval <? 0) eqn:Hneg.
  - apply Z.ltb_lt in Hneg.
    repeat split; intros; try lia; try discriminate;
      try (eexists; reflexivity).
  - apply Z.ltb_ge in Hneg. unfold bool_of_int.
    destruct (retval =? 0) eqn:Hz; cbn.
    + apply Z.eqb_eq in Hz.
      repeat split; intros; try lia; try discriminate; try reflexivity;
        match goal with H : exists _, _ |- _ => destruct H; discriminate end.
    + apply Z.eqb_neq in Hz.
      repeat split; intros; try lia; try discriminate; try reflexivity;
        match goal with H : exists _, _ |- _ => destruct H; discriminate end.
Qed.

Example get_license_rejected :
  fst (fst (run (steady (-1)) [] (get_license sample_env "nl5" EmptyString closed_client)))
  = Raises (NL5LicenseException
              [Lit "License does not have DLL option activated."]).
Proof. reflexivity. Qed.

Example get_license_present :
  run (steady 0) [] (get_license sample_env "nl5" EmptyString closed_client)
  = ((Returns true, closed_client), [Ev (NL5_GetLicense "/work/nl5.nll") 0]).
Proof. reflexivity. Qed.

Example get_license_absent :
  fst (fst (run (steady 1) [] (get_license sample_env "nl5.nll" "/opt/nl5" closed_client)))
  = Returns false.
Proof. reflexivity. Qed.

Lemma get_license_three_outcomes_witness :
  (exists msg,
     fst (fst (run (steady (-1)) [] (get_license sample_env "nl5" EmptyString closed_client)))
     = Raises (NL5LicenseException msg)) /\
  fst (fst (run (steady 0) [] (get_license sample_env "nl5" EmptyString closed_client)))
  = Returns true /\
  fst (fst (run (steady 1) [] (get_license sample_env "nl5" EmptyString closed_client)))
  = Returns false.
Proof.
  destruct (get_license_three_outcomes sample_env (steady (-1)) [] "nl5" EmptyString
              closed_client) as (_ & _ & Hneg & _).
  destruct (get_license_three_outcomes sample_env (steady 0) [] "nl5" EmptyString
              closed_client) as (_ & _ & _ & Hzero & _).
  destruct (get_license_three_outcomes sample_env (steady 1) [] "nl5" EmptyString
              closed_client) as (_ & _ & _ & _ & Hpos).
  split; [apply Hneg; simpl; lia|].
  split; [apply Hzero; reflexivity | apply Hpos; simpl; lia].
Defined.

(** ** Samples by index *)

Lemma get_data_at_run (eng : engine) (h : list event) (name : string)
    (n : Z) (self : NL5_dll) :
  0 <= self.(_ncir) ->
  let ncir := self.(_ncir) in
  let ntrace := eng Z h (NL5_GetTrace ncir name) in
  let h1 := (h ++ [Ev (NL5_GetTrace ncir name) ntrace])%list in
  let reply := eng _ h1 (NL5_GetDataAt ncir ntrace n) in
  0 <= ntrace ->
  run eng h (get_data_at name n self)
  = ((if fst reply <? 0 then Raises (NL5ValueException bad_index)
      else Returns (snd reply), self),
     [Ev (NL5_GetTrace ncir name) ntrace;
      Ev (NL5_GetDataAt ncir ntrace n) reply]).
Proof.
  intros Hn ncir ntrace h1 reply Ht.
  unfold get_data_at. cbn. rewrite (geb_true _ Hn). cbn.
  fold ncir. fold ntrace. rewrite (geb_true _ Ht). cbn.
  fold h1. fold reply. destruct reply as [retval [t d]]. cbn.
  destruct (retval <? 0); reflexivity.
Qed.

(** The index crosses as a [c_int]: the library cannot tell [n] from
    [c_int n]. *)
Lemma index_crosses_as_c_int (library : engine) (h : list event)
    (ncir ntrace n : Z) :
  behind_ctypes library _ h (NL5_GetDataAt ncir ntrace (c_int n))
  = behind_ctypes library _ h (NL5_GetDataAt ncir ntrace n).
Proof. unfold behind_ctypes. cbn [ctypes_call]. rewrite c_int_idem. reflexivity. Qed.

(** C8, as the code has it: the library is behind ctypes, a document is open,
    the trace name is resolved, the trace has [s] samples ([s] a non-negative
    [c_int]) and the library's [NL5_GetDataAt] is negative exactly for the
    indices off [0 .. s - 1] among those a [c_int] can hold.  Then
    [get_data_at(name, n)] ends as [get_data_at(name, c_int n)] does; for
    [s >= 1] it returns the library's (time, value) pair for [n = 0] and
    [n = s - 1]; it raises [NL5ValueException] for [n = s] and for every [n]
    from [-2**31] to [-1]; and for [s >= 1] every multiple of [2**32], the
    negative ones too, is read as index 0 and returns the first sample. *)
Theorem get_data_at_boundaries :
  forall (library : engine) (h : list event) (name : string)
         (self : NL5_dll) (s : Z),
    let eng := behind_ctypes library in
    let ncir := self.(_ncir) in
    let ntrace := eng Z h (NL5_GetTrace ncir name) in
    let h1 := (h ++ [Ev (NL5_GetTrace ncir name) ntrace])%list in
    0 <= ncir ->
    0 <= ntrace ->
    0 <= s <= 2147483647 ->
    (forall m, -2147483648 <= m <= 2147483647 ->
       (fst (eng _ h1 (NL5_GetDataAt ncir ntrace m)) < 0
        <-> (m < 0 \/ s <= m))) ->
    (forall n, fst (run eng h (get_data_at name n self))
               = fst (run eng h (get_data_at name (c_int n) self))) /\
    (1 <= s ->
     forall n, n = 0 \/ n = s - 1 ->
       fst (fst (run eng h (get_data_at name n self)))
       = Returns (snd (eng _ h1 (NL5_GetDataAt ncir ntrace n)))) /\
    (forall n, n = s \/ -2147483648 <= n < 0 ->
       fst (fst (run eng h (get_data_at name n self)))
       = Raises (NL5ValueException bad_index)) /\
    (1 <= s ->
     forall k,
       fst (fst (run eng h (get_data_at name (k * 4294967296) self)))
       = Returns (snd (eng _ h1 (NL5_GetDataAt ncir ntrace 0)))).
Proof.
  intros library h name self s eng ncir ntrace h1 Hn Ht Hs Heng.
  assert (Hin : forall n, 0 <= n < s ->
            fst (fst (run eng h (get_data_at name n self)))
            = Returns (snd (eng _ h1 (NL5_GetDataAt ncir ntrace n)))).
  { intros n Hr. rewrite (get_data_at_run eng h name n self Hn Ht).
    fold ncir; fold ntrace; fold h1; cbn.
    rewrite ltb_false; [reflexivity|].
    destruct (Z.lt_ge_cases (fst (eng _ h1 (NL5_GetDataAt ncir ntrace n))) 0)
      as [Hlt | Hge]; [| exact Hge].
    apply Heng in Hlt; lia. }
  assert (Hwrap : forall n, fst (run eng h (get_data_at name n self))
                            = fst (run eng h (get_data_at name (c_int n) self))).
  { intros n.
    rewrite (get_data_at_run eng h name n self Hn Ht).
    rewrite (get_data_at_run eng h name (c_int n) self Hn Ht).
    fold ncir; fold ntrace; fold h1; cbn [fst].
    unfold eng. rewrite index_crosses_as_c_int. reflexivity. }
  split; [exact Hwrap|].
  split; [intros H1 n Hcase; apply Hin; lia|].
  split.
  - intros n Hcase. rewrite (get_data_at_run eng h name n self Hn Ht).
    fold ncir; fold ntrace; fold h1; cbn.
    rewrite ltb_true; [reflexivity|]. apply Heng; lia.
  - intros H1 k. rewrite Hwrap, c_int_multiple. apply Hin. lia.
Qed.

Lemma get_data_at_boundaries_witness :
  fst (fst (run (behind_ctypes three_samples) []
              (get_data_at "V(out)" 0 (open_client 0))))
  = Returns (0%float, 1%float) /\
  fst (fst (run (behind_ctypes three_samples) []
              (get_data_at "V(out)" 2 (open_client 0))))
  = Returns (2%float, 1%float) /\
  fst (fst (run (behind_ctypes three_samples) []
              (get_data_at "V(out)" 3 (open_client 0))))
  = Raises (NL5ValueException bad_index) /\
  fst (fst (run (behind_ctypes three_samples) []
              (get_data_at "V(out)" (-1) (open_client 0))))
  = Raises (NL5ValueException bad_index) /\
  fst (fst (run (behind_ctypes three_samples) []
              (get_data_at "V(out)" (2 * 4294967296) (open_client 0))))
  = Returns (0%float, 1%float).
Proof.
  assert (Hn : 0 <= (open_client 0).(_ncir)) by (simpl; lia).
  assert (Ht : 0 <= behind_ctypes three_samples Z [] (NL5_GetTrace 0 "V(out)"))
    by (vm_compute; discriminate).
  assert (Hs : 0 <= 3 <= 2147483647) by lia.
  assert (Heng : forall m, -2147483648 <= m <= 2147483647 ->
             (fst (behind_ctypes three_samples _
                     ([] ++ [Ev (NL5_GetTrace 0 "V(out)") 0])%list
                     (NL5_GetDataAt 0 0 m)) < 0
              <-> (m < 0 \/ 3 <= m))).
  { intros m Hm. unfold behind_ctypes. cbn [ctypes_call three_samples].
    rewrite (c_int_id m Hm).
    destruct (0 <=? m) eqn:H0; destruct (m <? 3) eqn:H3; simpl;
      try apply Z.leb_le in H0; try apply Z.leb_gt in H0;
      try apply Z.ltb_lt in H3; try apply Z.ltb_ge in H3; lia. }
  destruct (get_data_at_boundaries three_samples [] "V(out)" (open_client 0) 3
              Hn Ht Hs Heng) as (_ & Hin & Hout & Hmul).
  split; [exact (Hin ltac:(lia) 0 (or_introl eq_refl))|].
  split; [exact (Hin ltac:(lia) 2 (or_intror eq_refl))|].
  split; [exact (Hout 3 (or_introl eq_refl))|].
  split; [apply (Hout (-1)); right; lia|].
  exact (Hmul ltac:(lia) 2).
Defined.

(** C8, as stated, fails on an index that a [c_int] cannot hold: the library
    refuses every index off 0, 1, 2 that it is given, and yet
    [get_data_at('V(out)', -4294967296)], with [n < 0], returns the first
    sample, since what the library is given is the index 0. *)
Lemma get_data_at_wraps_the_index :
  (forall m, fst (three_samples _ [Ev (NL5_GetTrace 0 "V(out)") 0]
                    (NL5_GetDataAt 0 0 m)) < 0
             <-> (m < 0 \/ 3 <= m)) /\
  -4294967296 < 0 /\
  run (behind_ctypes three_samples) []
    (get_data_at "V(out)" (-4294967296) (open_client 0))
  = ((Returns (0%float, 1%float), open_client 0),
     [Ev (NL5_GetTrace 0 "V(out)") 0;
      Ev (NL5_GetDataAt 0 0 (-4294967296)) (0, (0%float, 1%float))]) /\
  received [Ev (NL5_GetTrace 0 "V(out)") 0;
            Ev (NL5_GetDataAt 0 0 (-4294967296)) (0, (0%float, 1%float))]
  = [Ev (NL5_GetTrace 0 "V(out)") 0;
     Ev (NL5_GetDataAt 0 0 0) (0, (0%float, 1%float))].
Proof.
  split.
  { intros m. simpl.
    destruct (0 <=? m) eqn:H0; destruct (m <? 3) eqn:H3; simpl;
      try apply Z.leb_le in H0; try apply Z.leb_gt in H0;
      try apply Z.ltb_lt in H3; try apply Z.ltb_ge in H3; lia. }
  split; [lia|]. split; vm_compute; reflexivity.
Qed.

(** ** Magnitudes *)

Lemma abs_abs (x : float) : PrimFloat.abs (PrimFloat.abs x) = PrimFloat.abs x.
Proof.
  apply Prim2SF_inj. rewrite !abs_spec.
  destruct (Prim2SF x); reflexivity.
Qed.

Lemma set_step_run (eng : engine) (h : list event) (step : float)
    (self : NL5_dll) :
  0 <= self.(_ncir) ->
  let e := NL5_SetStep self.(_ncir) (PrimFloat.abs step) in
  run eng h (set_step step self)
  = ((if eng Z h e <? 0 then Raises (NL5ValueException [Lit "Step not valid."])
      else Returns tt, self),
     [Ev e (eng Z h e)]).
Proof.
  intros Hn e. unfold set_step. cbn. rewrite (geb_true _ Hn). cbn.
  fold e. destruct (eng Z h e <? 0); reflexivity.
Qed.

Lemma set_timeout_run (eng : engine) (h : list event) (t : Z)
    (self : NL5_dll) :
  0 <= self.(_ncir) ->
  let e := NL5_SetTimeout self.(_ncir) (Z.abs t) in
  run eng h (set_timeout t self)
  = ((if eng Z h e <? 0 then Raises (NL5ValueException [Lit "Timeout not valid."])
      else Returns tt, self),
     [Ev e (eng Z h e)]).
Proof.
  intros Hn e. unfold set_timeout. cbn. rewrite (geb_true _ Hn). cbn.
  fold e. destruct (eng Z h e <? 0); reflexivity.
Qed.

Lemma simulate_run (eng : engine) (h : list event) (interval : float)
    (self : NL5_dll) :
  0 <= self.(_ncir) ->
  let e := NL5_Simulate self.(_ncir) (PrimFloat.abs interval) in
  run eng h (simulate interval self)
  = ((if eng Z h e <? 0 then
        Raises (NL5StartException
                  [Lit "Error trying to start simulation with interval=";
                   FFloat interval; Lit "."])
      else Returns tt, self),
     [Ev e (eng Z h e)]).
Proof.
  intros Hn e. unfold simulate. cbn. rewrite (geb_true _ Hn). cbn.
  fold e. destruct (eng Z h e <? 0); reflexivity.
Qed.

Lemma simulate_interval_run (eng : engine) (h : list event) (interval : float)
    (self : NL5_dll) :
  0 <= self.(_ncir) ->
  let e := NL5_SimulateInterval self.(_ncir) (PrimFloat.abs interval) in
  run eng h (simulate_interval interval self)
  = ((if eng Z h e <? 0 then
        Raises (NL5StartException
                  [Lit "Error trying to start simulation with interval=";
                   FFloat interval; Lit "."])
      else Returns tt, self),
     [Ev e (eng Z h e)]).
Proof.
  intros Hn e. unfold simulate_interval. cbn. rewrite (geb_true _ Hn). cbn.
  fold e. destruct (eng Z h e <? 0); reflexivity.
Qed.

Lemma get_data_run (eng : engine) (h : list event) (name : string)
    (time : float) (self : NL5_dll) :
  0 <= self.(_ncir) ->
  let ncir := self.(_ncir) in
  let ntrace := eng Z h (NL5_GetTrace ncir name) in
  let h1 := (h ++ [Ev (NL5_GetTrace ncir name) ntrace])%list in
  let e := NL5_GetData ncir ntrace (PrimFloat.abs time) in
  0 <= ntrace ->
  run eng h (get_data name time self)
  = ((if fst (eng _ h1 e) <? 0 then
        Raises (NL5ValueException
                  [Lit "Data point does not exist for abs(time)=";
                   FFloat (PrimFloat.abs time); Lit " seconds."])
      else Returns (snd (eng _ h1 e)), self),
     [Ev (NL5_GetTrace ncir name) ntrace; Ev e (eng _ h1 e)]).
Proof.
  intros Hn ncir ntrace h1 e Ht.
  unfold get_data. cbn. rewrite (geb_true _ Hn). cbn.
  fold ncir. fold ntrace. rewrite (geb_true _ Ht). cbn.
  fold h1. fold e. destruct (eng _ h1 e) as [retval d]. cbn.
  destruct (retval <? 0); reflexivity.
Qed.

(** A method whose body only uses [abs] of its argument runs the same on
    the argument and on its magnitude. *)
Lemma set_step_of_magnitude (step : float) :
  set_step (PrimFloat.abs step) = set_step step.
Proof. unfold set_step. rewrite abs_abs. reflexivity. Qed.

Lemma set_timeout_of_magnitude (t : Z) :
  set_timeout (Z.abs t) = set_timeout t.
Proof. unfold set_timeout. rewrite Z.abs_idemp. reflexivity. Qed.

Lemma get_data_of_magnitude (name : string) (time : float) :
  get_data name (PrimFloat.abs time) = get_data name time.
Proof. unfold get_data. rewrite abs_abs. reflexivity. Qed.

Lemma simulate_of_magnitude (eng : engine) (h : list event)
    (interval : float) (self : NL5_dll) :
  let a := run eng h (simulate interval self) in
  let b := run eng h (simulate (PrimFloat.abs interval) self) in
  snd a = snd b /\ snd (fst a) = snd (fst b) /\
  erase_result (fst (fst a)) = erase_result (fst (fst b)).
Proof.
  intros a b. subst a b.
  destruct (Z.le_gt_cases 0 self.(_ncir)) as [Hn | Hn].
  - rewrite !simulate_run by exact Hn. rewrite abs_abs. cbn.
    repeat split.
    destruct (eng Z h (NL5_Simulate (_ncir self) (PrimFloat.abs interval)) <? 0);
      reflexivity.
  - unfold simulate. cbn. rewrite (geb_false _ Hn). cbn. repeat split.
Qed.

Lemma simulate_interval_of_magnitude (eng : engine) (h : list event)
    (interval : float) (self : NL5_dll) :
  let a := run eng h (simulate_interval interval self) in
  let b := run eng h (simulate_interval (PrimFloat.abs interval) self) in
  snd a = snd b /\ snd (fst a) = snd (fst b) /\
  erase_result (fst (fst a)) = erase_result (fst (fst b)).
Proof.
  intros a b. subst a b.
  destruct (Z.le_gt_cases 0 self.(_ncir)) as [Hn | Hn].
  - rewrite !simulate_interval_run by exact Hn. rewrite abs_abs. cbn.
    repeat split.
    destruct (eng Z h (NL5_SimulateInterval (_ncir self)
                         (PrimFloat.abs interval)) <? 0);
      reflexivity.
  - unfold simulate_interval. cbn. rewrite (geb_false _ Hn). cbn. repeat split.
Qed.

(** C9, as the code has it, the library being behind ctypes: [set_step],
    [simulate], [simulate_interval] and [get_data] hand the library the
    magnitude of their [float] argument; [set_timeout] hands its wrapper
    [abs(t)], which the library receives as the [c_int] of it: [abs(t)]
    itself exactly when [abs(t) <= 2**31 - 1], and [-2**31] for
    [t = -2**31]; [set_step], [set_timeout] and [get_data] run the same on
    an argument and on its magnitude; [simulate] and [simulate_interval]
    make the same call, leave the same client and end the same way up to the
    text of the exception, whose message quotes the argument as it was
    given. *)
Theorem magnitude_reaches_the_engine :
  forall (library : engine) (h : list event) (name : string)
         (x : float) (t : Z) (self : NL5_dll),
    let eng := behind_ctypes library in
    let ncir := self.(_ncir) in
    let magnitude := PrimFloat.abs x in
    0 <= ncir ->
    (exists r, received (snd (run eng h (set_step x self)))
               = [Ev (NL5_SetStep (c_int ncir) magnitude) r]) /\
    (exists r, snd (run eng h (set_timeout t self))
               = [Ev (NL5_SetTimeout ncir (Z.abs t)) r] /\
               received (snd (run eng h (set_timeout t self)))
               = [Ev (NL5_SetTimeout (c_int ncir) (c_int (Z.abs t))) r]) /\
    (c_int (Z.abs t) = Z.abs t <-> Z.abs t <= 2147483647) /\
    (t = -2147483648 -> c_int (Z.abs t) = -2147483648) /\
    (ncir <= 2147483647 -> c_int ncir = ncir) /\
    (exists r, received (snd (run eng h (simulate x self)))
               = [Ev (NL5_Simulate (c_int ncir) magnitude) r]) /\
    (exists r, received (snd (run eng h (simulate_interval x self)))
               = [Ev (NL5_SimulateInterval (c_int ncir) magnitude) r]) /\
    (0 <= eng Z h (NL5_GetTrace ncir name) ->
     exists ntrace r,
       received (snd (run eng h (get_data name x self)))
       = [Ev (NL5_GetTrace (c_int ncir) (c_char_p name)) ntrace;
          Ev (NL5_GetData (c_int ncir) (c_int ntrace) magnitude) r]) /\
    run eng h (set_step x self) = run eng h (set_step magnitude self) /\
    run eng h (set_timeout t self) = run eng h (set_timeout (Z.abs t) self) /\
    run eng h (get_data name x self) = run eng h (get_data name magnitude self) /\
    (let a := run eng h (simulate x self) in
     let b := run eng h (simulate magnitude self) in
     snd a = snd b /\ snd (fst a) = snd (fst b) /\
     erase_result (fst (fst a)) = erase_result (fst (fst b))) /\
    (let a := run eng h (simulate_interval x self) in
     let b := run eng h (simulate_interval magnitude self) in
     snd a = snd b /\ snd (fst a) = snd (fst b) /\
     erase_result (fst (fst a)) = erase_result (fst (fst b))).
Proof.
  intros library h name x t self eng ncir magnitude Hn.
  split; [rewrite (set_step_run eng h x self Hn); eexists; reflexivity|].
  split; [rewrite (set_timeout_run eng h t self Hn); eexists; split; reflexivity|].
  split; [rewrite c_int_fixed; lia|].
  split; [intros ->; reflexivity|].
  split; [intros Hmax; apply c_int_id; lia|].
  split; [rewrite (simulate_run eng h x self Hn); eexists; reflexivity|].
  split; [rewrite (simulate_interval_run eng h x self Hn); eexists; reflexivity|].
  split.
  { intros Ht. rewrite (get_data_run eng h name x self Hn Ht).
    eexists; eexists; reflexivity. }
  subst magnitude.
  split; [rewrite set_step_of_magnitude; reflexivity|].
  split; [rewrite set_timeout_of_magnitude; reflexivity|].
  split; [rewrite get_data_of_magnitude; reflexivity|].
  split; [apply simulate_of_magnitude | apply simulate_interval_of_magnitude].
Qed.

Lemma magnitude_reaches_the_engine_witness :
  0 <= (open_client 0).(_ncir) /\
  (exists r, received (snd (run (behind_ctypes (steady 0)) []
                              (simulate (-10)%float (open_client 0))))
             = [Ev (NL5_Simulate 0 10%float) r]) /\
  (exists r, snd (run (behind_ctypes (steady 0)) []
                    (set_timeout (-5) (open_client 0)))
             = [Ev (NL5_SetTimeout 0 5) r] /\
             received (snd (run (behind_ctypes (steady 0)) []
                              (set_timeout (-5) (open_client 0))))
             = [Ev (NL5_SetTimeout 0 5) r]) /\
  (exists r, snd (run (behind_ctypes (steady 0)) []
                    (set_timeout (-2147483648) (open_client 0)))
             = [Ev (NL5_SetTimeout 0 2147483648) r] /\
             received (snd (run (behind_ctypes (steady 0)) []
                              (set_timeout (-2147483648) (open_client 0))))
             = [Ev (NL5_SetTimeout 0 (-2147483648)) r]) /\
  run (behind_ctypes (steady 0)) [] (set_step (-2)%float (open_client 0))
  = run (behind_ctypes (steady 0)) [] (set_step 2%float (open_client 0)).
Proof.
  assert (Hn : 0 <= (open_client 0).(_ncir)) by (simpl; lia).
  destruct (magnitude_reaches_the_engine (steady 0) [] "V(out)" (-10)%float (-5)
              (open_client 0) Hn) as (_ & Htimeout & _ & _ & _ & Hsim & _).
  destruct (magnitude_reaches_the_engine (steady 0) [] "V(out)" (-2)%float
              (-2147483648) (open_client 0) Hn)
    as (_ & Hmin & _ & _ & _ & _ & _ & _ & Hstep & _).
  split; [exact Hn|]. split; [exact Hsim|]. split; [exact Htimeout|].
  split; [exact Hmin | exact Hstep].
Defined.

Lemma append_cancel_l (a x y : string) :
  (a ++ x)%string = (a ++ y)%string -> x = y.
Proof.
  induction a as [| c a IH]; simpl; intros H; [exact H|].
  injection H as H. exact (IH H).
Qed.

Lemma append_cancel_r (x y z : string) :
  String.length z = 1%nat ->
  (x ++ z)%string = (y ++ z)%string -> x = y.
Proof.
  intros Hlen. revert y.
  induction x as [| c x IH]; intros [| d y] H; simpl in H.
  - reflexivity.
  - apply (f_equal String.length) in H. simpl in H.
    rewrite length_append in H. lia.
  - apply (f_equal String.length) in H. simpl in H.
    rewrite length_append in H. lia.
  - injection H as -> H. rewrite (IH y H). reflexivity.
Qed.

(** C9, as stated, fails on [simulate]: when the engine refuses the step,
    [simulate(-1.0)] and [simulate(1.0)] raise exceptions with different
    messages, "interval=-1.0" against "interval=1.0": the texts differ under
    every way of printing floats that tells -1.0 from 1.0. *)
Lemma simulate_message_keeps_the_sign :
  PrimFloat.abs (-1)%float = 1%float /\
  fst (fst (run (steady (-1)) [] (simulate (-1)%float (open_client 0))))
  = Raises (NL5StartException
              [Lit "Error trying to start simulation with interval=";
               FFloat (-1)%float; Lit "."]) /\
  fst (fst (run (steady (-1)) [] (simulate 1%float (open_client 0))))
  = Raises (NL5StartException
              [Lit "Error trying to start simulation with interval=";
               FFloat 1%float; Lit "."]) /\
  run (steady (-1)) [] (simulate (-1)%float (open_client 0))
  <> run (steady (-1)) [] (simulate (PrimFloat.abs (-1)%float) (open_client 0)) /\
  forall fmt : float -> string,
    fmt (-1)%float <> fmt 1%float ->
    render fmt [Lit "Error trying to start simulation with interval=";
                FFloat (-1)%float; Lit "."]
    <> render fmt [Lit "Error trying to start simulation with interval=";
                   FFloat 1%float; Lit "."].
Proof.
  split; [reflexivity|]. split; [reflexivity|]. split; [reflexivity|].
  split.
  - intros H.
    apply (f_equal
             (fun out : result unit * NL5_dll * list event =>
                match fst (fst out) with
                | Raises (NL5StartException [_; FFloat y; _]) =>
                    PrimFloat.ltb y 0%float
                | _ => false
                end)) in H.
    vm_compute in H. discriminate H.
  - intros fmt Hfmt H. cbn [render render_piece] in H.
    apply append_cancel_l in H.
    apply append_cancel_r in H; [exact (Hfmt H) | reflexivity].
Qed.

(** ** Messages *)

Lemma append_assoc (a b c : string) :
  ((a ++ b) ++ c = a ++ (b ++ c))%string.
Proof. induction a as [| x a IH]; simpl; [reflexivity | rewrite IH; reflexivity]. Qed.

Lemma prefix_append (a b : string) : prefix a (a ++ b) = true.
Proof.
  induction a as [| x a IH]; simpl.
  - destruct b; reflexivity.
  - destruct (ascii_dec x x) as [_ | Hne]; [exact IH | contradiction].
Qed.

Lemma contains_prefix (s sub : string) : prefix sub s = true -> contains s sub = true.
Proof. intros H. destruct s; cbn [contains]; rewrite H; reflexivity. Qed.

(** [contains] finds every occurrence. *)
Lemma contains_complete (pre sub post : string) :
  contains (pre ++ sub ++ post) sub = true.
Proof.
  induction pre as [| x pre IH].
  - change (contains (sub ++ post) sub = true).
    apply contains_prefix. apply prefix_append.
  - change (contains (String x (pre ++ sub ++ post)) sub = true).
    cbn [contains]. destruct (prefix sub (String x (pre ++ sub ++ post)));
      [reflexivity | exact IH].
Qed.

Lemma embeds_middle (ex : exn) (a id : string) (rest : fstring) :
  exn_message ex = Some (Lit a :: FStr id :: rest) -> embeds id ex.
Proof.
  intros H. exists (Lit a :: FStr id :: rest). split; [exact H|].
  intros fmt. exists a, (render fmt rest). reflexivity.
Qed.

Lemma embeds_extended (ex : exn) (a id ext : string) (rest : fstring) :
  exn_message ex = Some (Lit a :: FStr (with_extension id ext) :: rest) ->
  embeds id ex.
Proof.
  intros H. exists (Lit a :: FStr (with_extension id ext) :: rest).
  split; [exact H|]. intros fmt. unfold with_extension.
  destruct (negb (endswith id ext)).
  - exists a, (ext ++ render fmt rest)%string. simpl.
    rewrite append_assoc. reflexivity.
  - exists a, (render fmt rest). reflexivity.
Qed.

Lemma not_embedded (id : string) (ex : exn) (msg : fstring) :
  exn_message ex = Some msg ->
  contains (render (fun _ => EmptyString) msg) id = false ->
  ~ embeds id ex.
Proof.
  intros Hmsg Hc [msg' [Hmsg' Hall]].
  rewrite Hmsg in Hmsg'. injection Hmsg' as <-.
  destruct (Hall (fun _ => EmptyString)) as (pre & post & Heq).
  rewrite Heq, contains_complete in Hc. discriminate Hc.
Qed.

Ltac names_it :=
  unfold names_in_text; do 3 eexists; split; reflexivity.

(** Where the failing entry point is one of [names_subject], the method has
    a name for its subject and the message carries it. *)
Lemma named_failures (os : py_env) (c : method_call) (self : NL5_dll) :
  each_failure ev_names_subject (names_in_text c) (invoke os c self).
Proof.
  destruct c;
    try solve [walk names_it].
  - apply each_failure_bind_prog.
    + apply get_data_slice_each_failure.
      * intros; names_it.
      * intros ? ? ? ? ? H; simpl in H; discriminate H.
    + intros [[a | e] s]; exact I.
    + intros; reflexivity.
  - walk_to_loop names_it @timedata_loop_each_failure.
  - walk_to_loop names_it @freqmagphase_loop_each_failure.
Qed.

Ltac fixed_it := unfold has_fixed_text; eexists; split; reflexivity.

(** The loops report a refused sample with a fixed text. *)
Lemma slice_loop_fixed_text :
  forall ncir ntrace t_start t_step count i v self,
    each_failure ev_unnamed has_fixed_text
      (slice_loop ncir ntrace t_start t_step count i v self).
Proof.
  intros ncir ntrace t_start t_step count.
  induction count as [| count IH]; intros i v self.
  - exact I.
  - cbn. intros [retval d]. split.
    + intros Hf Hs. simpl in Hf. rewrite Hf. cbn.
      eexists; eexists; split; [reflexivity | fixed_it].
    + cbn. destruct (retval <? 0); [exact I | apply IH].
Qed.

Lemma timedata_loop_fixed_text :
  forall ncir ntrace count i t_vec d_vec self,
    each_failure ev_unnamed has_fixed_text
      (timedata_loop ncir ntrace count i t_vec d_vec self).
Proof.
  intros ncir ntrace count.
  induction count as [| count IH]; intros i t_vec d_vec self.
  - exact I.
  - cbn. intros [retval [t d]]. split.
    + intros Hf Hs. simpl in Hf. rewrite Hf. cbn.
      eexists; eexists; split; [reflexivity | fixed_it].
    + cbn. destruct (retval <? 0); [exact I | apply IH].
Qed.

Lemma freqmagphase_loop_fixed_text :
  forall ncir ntrace count i f_vec m_vec p_vec self,
    each_failure ev_unnamed has_fixed_text
      (freqmagphase_loop ncir ntrace count i f_vec m_vec p_vec self).
Proof.
  intros ncir ntrace count.
  induction count as [| count IH]; intros i f_vec m_vec p_vec self.
  - exact I.
  - cbn. intros [retval [f [m p]]]. split.
    + intros Hf Hs. simpl in Hf. rewrite Hf. cbn.
      eexists; eexists; split; [reflexivity | fixed_it].
    + cbn. destruct (retval <? 0); [exact I | apply IH].
Qed.

Lemma get_data_slice_fixed_text (name : string) (t_start t_end t_step : float)
    (self : NL5_dll) :
  each_failure ev_unnamed has_fixed_text
    (get_data_slice name t_start t_end t_step self).
Proof.
  unfold get_data_slice. cbn.
  destruct (_ncir self >=? 0) eqn:Hn; [| exact I].
  cbn. intros ntrace. split.
  - intros Hf Hs. simpl in Hs. discriminate Hs.
  - cbn. destruct (ntrace >=? 0); [| exact I].
    unfold slice_length, zeros, lift. cbn.
    destruct (PrimFloat.eqb t_step 0); [exact I|]. cbn.
    destruct (int_of_float ((t_end - t_start) / t_step)) as [n | e];
      [| exact I].
    cbn. destruct (n + 1 <? 0); [exact I|]. cbn.
    apply slice_loop_fixed_text.
Qed.

(** Where the failing entry point is any other one whose status is read, the
    message is one of the module's fixed texts. *)
Lemma unnamed_failures (os : py_env) (c : method_call) (self : NL5_dll) :
  each_failure ev_unnamed has_fixed_text (invoke os c self).
Proof.
  destruct c;
    try solve [walk fixed_it].
  - apply each_failure_bind_prog.
    + apply get_data_slice_fixed_text.
    + intros [[a | e] s]; exact I.
    + intros; reflexivity.
  - walk_to_loop fixed_it timedata_loop_fixed_text.
  - walk_to_loop fixed_it freqmagphase_loop_fixed_text.
Qed.

(** A fixed text has no formatted string in it. *)
Lemma fixed_text_quotes_no_name (m : fstring) :
  fixed_text m = true -> forall s, ~ In (FStr s) m.
Proof.
  intros H s Hin.
  destruct m as [| p1 m]; [exact Hin|].
  destruct p1 as [a | a | a]; try discriminate H.
  destruct m as [| p2 m].
  { destruct Hin as [E | []]. discriminate E. }
  destruct p2 as [b | b | b]; try discriminate H.
  destruct m as [| p3 m]; [discriminate H|].
  destruct p3 as [d | d | d]; try discriminate H.
  destruct m; [| discriminate H].
  destruct Hin as [E | [E | [E | []]]]; discriminate E.
Qed.

(** C10, as the code has it: on every run of every method, when a call other
    than [NL5_Close] comes back negative the method raises an exception of
    the module.  When the call is one of [NL5_SaveAs], [NL5_GetValue],
    [NL5_SetValue], [NL5_GetText], [NL5_SetText], [NL5_GetParam],
    [NL5_GetParamValue], [NL5_SetParamValue], [NL5_GetParamText],
    [NL5_SetParamText], [NL5_GetTrace], [NL5_GetACTrace], the five
    [NL5_Add*Trace], [NL5_DeleteTrace], [NL5_GetInput], [NL5_SetInputValue],
    [NL5_GetOutput], [NL5_GetOutputValue], [NL5_GetDataSize] or
    [NL5_GetACDataSize], the message is a literal text, the name given by
    the caller (for [save_as], the name with its extension) and a literal
    text, so the name is in it however floats are printed.  When it is any
    other call, the message is one of the module's fixed texts, around one
    number at most, and no formatted string is in it. *)
Theorem failure_message_names_the_subject :
  forall (os : py_env) (c : method_call) (self : NL5_dll)
         (eng : engine) (h : list event)
         (res : result pyvalue) (self' : NL5_dll)
         (pre : list event) (ev : event) (post : list event),
    run eng h (invoke os c self) = ((res, self'), (pre ++ ev :: post)%list) ->
    ev_failed ev = true ->
    ev_is_close ev = false ->
    exists ex msg,
      res = Raises ex /\ is_NL5Exception ex = true /\
      exn_message ex = Some msg /\
      (ev_names_subject ev = true ->
       exists id a b,
         identifier c = Some id /\
         msg = [Lit a; FStr (quoted_name c id); Lit b] /\
         embeds id ex) /\
      (ev_names_subject ev = false ->
       fixed_text msg = true /\ forall s, ~ In (FStr s) msg).
Proof.
  intros os c self eng h res self' pre ev post Hrun Hf Hc.
  destruct (ev_names_subject ev) eqn:Hs.
  - destruct (each_failure_run ev_names_subject (names_in_text c)
                _ eng h res self' pre ev post
                (named_failures os c self) Hrun Hf Hs)
      as [_ [ex [Hres (id & a & b & Hid & Hmsg)]]].
    exists ex, [Lit a; FStr (quoted_name c id); Lit b].
    split; [exact Hres|].
    split; [unfold is_NL5Exception; rewrite Hmsg; reflexivity|].
    split; [exact Hmsg|].
    split; [| intros H; discriminate H].
    intros _. exists id, a, b.
    split; [exact Hid|]. split; [reflexivity|].
    destruct c;
      first [ eapply embeds_middle; exact Hmsg
            | eapply embeds_extended; exact Hmsg ].
  - assert (Hu : ev_unnamed ev = true)
      by (unfold ev_unnamed; rewrite Hs, Hc; reflexivity).
    destruct (each_failure_run ev_unnamed has_fixed_text
                _ eng h res self' pre ev post
                (unnamed_failures os c self) Hrun Hf Hu)
      as [_ [ex [Hres (m & Hmsg & Hfix)]]].
    exists ex, m.
    split; [exact Hres|].
    split; [unfold is_NL5Exception; rewrite Hmsg; reflexivity|].
    split; [exact Hmsg|].
    split; [intros H; discriminate H|].
    intros _. split; [exact Hfix | exact (fixed_text_quotes_no_name m Hfix)].
Qed.

Lemma failure_message_names_the_subject_witness :
  run (steady (-1)) [] (invoke sample_env (Save_as "amp" EmptyString) (open_client 0))
  = ((Raises (NL5SaveException
                [Lit "Error trying to save the schematic circuit file as ";
                 FStr "amp.nl5"; Lit "."]), open_client 0),
     ([] ++ Ev (NL5_SaveAs 0 "/work/amp.nl5") (-1) :: [])%list) /\
  ev_failed (Ev (NL5_SaveAs 0 "/work/amp.nl5") (-1)) = true /\
  ev_is_close (Ev (NL5_SaveAs 0 "/work/amp.nl5") (-1)) = false /\
  exists ex msg,
    Raises (NL5SaveException
              [Lit "Error trying to save the schematic circuit file as ";
               FStr "amp.nl5"; Lit "."]) = @Raises pyvalue ex /\
    is_NL5Exception ex = true /\
    exn_message ex = Some msg /\
    (ev_names_subject (Ev (NL5_SaveAs 0 "/work/amp.nl5") (-1)) = true ->
     exists id a b,
       identifier (Save_as "amp" EmptyString) = Some id /\
       msg = [Lit a; FStr (quoted_name (Save_as "amp" EmptyString) id); Lit b] /\
       embeds id ex) /\
    (ev_names_subject (Ev (NL5_SaveAs 0 "/work/amp.nl5") (-1)) = false ->
     fixed_text msg = true /\ forall s, ~ In (FStr s) msg).
Proof.
  split; [reflexivity|]. split; [reflexivity|]. split; [reflexivity|].
  apply (failure_message_names_the_subject sample_env (Save_as "amp" EmptyString)
           (open_client 0) (steady (-1)) []
           (Raises (NL5SaveException
                      [Lit "Error trying to save the schematic circuit file as ";
                       FStr "amp.nl5"; Lit "."]))
           (open_client 0) [] (Ev (NL5_SaveAs 0 "/work/amp.nl5") (-1)) []);
    reflexivity.
Defined.

(** C10, as stated, fails on [open]: the engine refuses the file and the
    message, "Error opening NL5 circuit", has no file name in it. *)
Lemma open_message_has_no_file_name :
  run (steady (-1)) [] (invoke sample_env (Open "amp" EmptyString) closed_client)
  = ((Raises (NL5OpenException [Lit "Error opening NL5 circuit"]), closed_client),
     [Ev (NL5_Open "/work/amp.nl5") (-1)]) /\
  ev_failed (Ev (NL5_Open "/work/amp.nl5") (-1)) = true /\
  identifier (Open "amp" EmptyString) = Some "amp" /\
  ~ embeds "amp" (NL5OpenException [Lit "Error opening NL5 circuit"]).
Proof.
  split; [reflexivity|]. split; [reflexivity|]. split; [reflexivity|].
  apply (not_embedded "amp" _ [Lit "Error opening NL5 circuit"]); reflexivity.
Qed.

(** [save_data] and [get_data_at] are alike: the file name and the trace
    name are not in the messages for [NL5_SaveData] and [NL5_GetDataAt]. *)
Lemma save_data_message_has_no_file_name :
  fst (fst (run (steady (-1)) [] (save_data sample_env "run1" EmptyString (open_client 0))))
  = Raises (NL5SaveException [Lit "Error trying to save NL5 data file."]) /\
  ~ embeds "run1" (NL5SaveException [Lit "Error trying to save NL5 data file."]).
Proof.
  split; [reflexivity|].
  apply (not_embedded "run1" _ [Lit "Error trying to save NL5 data file."]);
    reflexivity.
Qed.

Lemma get_data_at_message_has_no_trace_name :
  fst (fst (run three_samples [] (get_data_at "V(out)" 3 (open_client 0))))
  = Raises (NL5ValueException bad_index) /\
  ~ embeds "V(out)" (NL5ValueException bad_index).
Proof.
  split; [reflexivity|].
  apply (not_embedded "V(out)" _ bad_index); reflexivity.
Qed.

(** * Further properties of the client *)

(** ** Leaves, calls and bounds along a run *)

Lemma all_leaves_run {X : Type} (Q : X -> Prop) :
  forall (p : prog X) eng h, all_leaves Q p -> Q (fst (run eng h p)).
Proof.
  induction p as [x | R e k IH]; intros eng h Hp; simpl in *.
  - exact Hp.
  - specialize (IH (eng R h e) eng (h ++ [Ev e (eng R h e)])%list (Hp _)).
    destruct (run eng (h ++ [Ev e (eng R h e)])%list (k (eng R h e))).
    exact IH.
Qed.

Lemma all_leaves_bind_prog {X Y : Type} (Q' : X -> Prop) (Q : Y -> Prop) :
  forall (p : prog X) (g : X -> prog Y),
    all_leaves Q' p ->
    (forall x, Q' x -> all_leaves Q (g x)) ->
    all_leaves Q (bind_prog p g).
Proof.
  induction p as [x | R e k IH]; intros g Hp Hg; simpl in *.
  - apply Hg. exact Hp.
  - intros r. apply IH; [apply Hp | exact Hg].
Qed.

Lemma all_calls_run {X : Type} (Q : forall R : Type, entry R -> Prop) :
  forall (p : prog X) eng h ev,
    all_calls Q p -> In ev (snd (run eng h p)) -> ev_entry_holds Q ev.
Proof.
  induction p as [x | R e k IH]; intros eng h ev Hp Hin; simpl in *.
  - contradiction.
  - destruct Hp as [Hhere Hrest].
    destruct (run eng (h ++ [Ev e (eng R h e)])%list (k (eng R h e)))
      as [x t] eqn:Hk.
    simpl in Hin. destruct Hin as [<- | Hin].
    + exact Hhere.
    + apply (IH (eng R h e) eng (h ++ [Ev e (eng R h e)])%list ev (Hrest _)).
      rewrite Hk. exact Hin.
Qed.

Lemma all_calls_bind_prog {X Y : Type} (Q : forall R : Type, entry R -> Prop) :
  forall (p : prog X) (g : X -> prog Y),
    all_calls Q p -> (forall x, all_calls Q (g x)) ->
    all_calls Q (bind_prog p g).
Proof.
  induction p as [x | R e k IH]; intros g Hp Hg; simpl in *.
  - apply Hg.
  - destruct Hp as [Hhere Hrest]. split; [exact Hhere|].
    intros r. apply IH; [apply Hrest | exact Hg].
Qed.

Lemma at_most_mono {X : Type} :
  forall (p : prog X) (n m : nat), (n <= m)%nat -> at_most n p -> at_most m p.
Proof.
  induction p as [x | R e k IH]; intros n m Hle Hp; simpl in *.
  - exact I.
  - destruct n as [| n]; [contradiction|].
    destruct m as [| m]; [lia|].
    intros r. apply (IH r n m); [lia | apply Hp].
Qed.

Lemma at_most_run {X : Type} :
  forall (p : prog X) (n : nat) eng h,
    at_most n p -> (List.length (snd (run eng h p)) <= n)%nat.
Proof.
  induction p as [x | R e k IH]; intros n eng h Hp; simpl in *.
  - lia.
  - destruct n as [| n]; [contradiction|].
    specialize (IH (eng R h e) n eng (h ++ [Ev e (eng R h e)])%list (Hp _)).
    destruct (run eng (h ++ [Ev e (eng R h e)])%list (k (eng R h e))).
    simpl in *. lia.
Qed.

Lemma at_most_bind_prog {X Y : Type} :
  forall (p : prog X) (g : X -> prog Y) (n : nat),
    at_most n p -> (forall x, at_most 0 (g x)) -> at_most n (bind_prog p g).
Proof.
  induction p as [x | R e k IH]; intros g n Hp Hg; simpl in *.
  - apply (at_most_mono _ 0%nat n); [lia | apply Hg].
  - destruct n as [| n]; [contradiction|].
    intros r. apply IH; [apply Hp | exact Hg].
Qed.

(** What one run does after another: the second starts from the client and
    the history the first has left, unless the first raised. *)
Lemma run_bind {A B : Type} (m : M A) (f : A -> M B) (self : NL5_dll)
    (eng : engine) (h : list event) :
  run eng h (bind m f self)
  = match fst (fst (run eng h (m self))) with
    | Returns a =>
        let first := run eng h (m self) in
        let second := run eng (h ++ snd first) (f a (snd (fst first))) in
        (fst second, (snd first ++ snd second)%list)
    | Raises e =>
        ((Raises e, snd (fst (run eng h (m self)))), snd (run eng h (m self)))
    end.
Proof.
  unfold bind. generalize (m self) as p. intros p. revert h.
  induction p as [[r s] | R e k IH]; intros h.
  - simpl. destruct r as [a | e]; simpl.
    + rewrite app_nil_r. destruct (run eng h (f a s)); reflexivity.
    + reflexivity.
  - simpl. rewrite IH.
    destruct (run eng (h ++ [Ev e (eng R h e)])%list (k (eng R h e)))
      as [[r s] t] eqn:Hk.
    simpl. destruct r as [a | ex]; simpl.
    + rewrite <- app_assoc. simpl.
      destruct (run eng (h ++ Ev e (eng R h e) :: t)%list (f a s)).
      reflexivity.
    + reflexivity.
Qed.

(** Walks a method body for a property of its leaves. *)
Ltac walk_leaves tacQ :=
  unfold create_string_buffer, decode_value, decode_c_char_p,
    slice_length, zeros, lift;
  cbn;
  lazymatch goal with
  | |- forall r, _ =>
      intros ?r;
      repeat match goal with r : (_ * _)%type |- _ => destruct r end;
      walk_leaves tacQ
  | |- context [if ?b then _ else _] => destruct b eqn:?; walk_leaves tacQ
  | |- context [match ?x with Some _ => _ | None => _ end] =>
      destruct x eqn:?; walk_leaves tacQ
  | |- context [match ?x with Returns _ => _ | Raises _ => _ end] =>
      destruct x eqn:?; walk_leaves tacQ
  | |- _ => tacQ
  end.

Arguments int_of_float : simpl never.

(** ** The loops, leaf by leaf *)

Section LoopLeaves.

Variable self : NL5_dll.

Lemma slice_loop_leaves (Q : result (list float) * NL5_dll -> Prop)
    (ncir ntrace : Z) (t_start t_step : float) :
  (forall m, Q (Raises (NL5ValueException m), self)) ->
  (forall v, Q (Returns v, self)) ->
  forall count i v,
    all_leaves Q (slice_loop ncir ntrace t_start t_step count i v self).
Proof.
  intros Hraise Hret.
  induction count as [| count IH]; intros i v; cbn.
  - apply Hret.
  - intros [retval d]. cbn.
    destruct (retval <? 0); cbn; [apply Hraise | apply IH].
Qed.

Lemma timedata_loop_leaves
    (Q : result (list float * list float) * NL5_dll -> Prop) (ncir ntrace : Z) :
  (forall m, Q (Raises (NL5ValueException m), self)) ->
  (forall v, Q (Returns v, self)) ->
  forall count i t_vec d_vec,
    all_leaves Q (timedata_loop ncir ntrace count i t_vec d_vec self).
Proof.
  intros Hraise Hret.
  induction count as [| count IH]; intros i t_vec d_vec; cbn.
  - apply Hret.
  - intros [retval [t d]]. cbn.
    destruct (retval <? 0); cbn; [apply Hraise | apply IH].
Qed.

Lemma freqmagphase_loop_leaves
    (Q : result (list float * list float * list float) * NL5_dll -> Prop)
    (ncir ntrace : Z) :
  (forall m, Q (Raises (NL5ValueException m), self)) ->
  (forall v, Q (Returns v, self)) ->
  forall count i f_vec m_vec p_vec,
    all_leaves Q (freqmagphase_loop ncir ntrace count i f_vec m_vec p_vec self).
Proof.
  intros Hraise Hret.
  induction count as [| count IH]; intros i f_vec m_vec p_vec; cbn.
  - apply Hret.
  - intros [retval [f [m p]]]. cbn.
    destruct (retval <? 0); cbn; [apply Hraise | apply IH].
Qed.

End LoopLeaves.

Lemma int_of_float_raises (x : float) (e : exn) :
  int_of_float x = Raises e -> kind_of e = KInterpreter.
Proof.
  unfold int_of_float. destruct (Prim2SF x); intros H;
    try discriminate H; injection H as <-; reflexivity.
Qed.

Ltac in_place :=
  split;
  [ reflexivity
  | cbn; try exact I; intros ?Hk;
    first
      [ discriminate Hk
      | bool_lia
      | match goal with
        | H : int_of_float _ = Raises ?e |- _ =>
            rewrite (int_of_float_raises _ _ H) in Hk; discriminate Hk
        end ] ].

(** A leaf, or a loop followed by what passes its result on. *)
Ltac leaf_or_loop lem :=
  first
    [ in_place
    | lazymatch goal with
      | |- all_leaves (ends_in_place ?s0) (bind_prog _ _) =>
          apply (all_leaves_bind_prog (ends_in_place s0));
          [ first [ apply lem; intros; in_place | leaf_or_loop lem ]
          | intros [[?a | ?e] ?s] [?Hs ?Hk]; simpl in Hs, Hk; subst;
            repeat match goal with r : (_ * _)%type |- _ => destruct r end;
            cbn;
            repeat match goal with
                   | |- context [if ?b then _ else _] => destruct b
                   end;
            (split; [reflexivity | cbn; first [exact I | exact Hk]]) ]
      end ].

Lemma methods_end_in_place (os : py_env) (c : method_call) (self : NL5_dll) :
  is_open_call c = false ->
  all_leaves (ends_in_place self) (invoke os c self).
Proof.
  intros Hc. destruct c; try discriminate Hc.
  all: try solve [walk_leaves in_place].
  - walk_leaves ltac:(leaf_or_loop slice_loop_leaves).
  - walk_leaves ltac:(leaf_or_loop timedata_loop_leaves).
  - walk_leaves ltac:(leaf_or_loop freqmagphase_loop_leaves).
Qed.

(** ** The client object across calls *)

(** X1: a method other than [open] never writes the client object: after
    the call, whatever the engine answered and however the call ended,
    [path] and [_ncir] are what they were. *)
Theorem only_open_writes_the_client :
  forall (os : py_env) (c : method_call) (self : NL5_dll)
         (eng : engine) (h : list event),
    is_open_call c = false ->
    snd (fst (run eng h (invoke os c self))) = self.
Proof.
  intros os c self eng h Hc.
  exact (proj1 (all_leaves_run (ends_in_place self) _ eng h
                  (methods_end_in_place os c self Hc))).
Qed.

Lemma only_open_writes_the_client_witness :
  is_open_call (Set_value "R1.R" 2%float) = false /\
  snd (fst (run (steady (-1)) []
              (invoke sample_env (Set_value "R1.R" 2%float) (open_client 4))))
  = open_client 4.
Proof.
  split; [reflexivity|].
  apply (only_open_writes_the_client sample_env (Set_value "R1.R" 2%float)
           (open_client 4) (steady (-1)) []).
  reflexivity.
Defined.

(** X2: when a method other than [open] raises [NL5OpenException], the
    client had no document (its handle was negative): with a document open
    these methods never report "not opened". *)
Theorem open_exception_means_no_document :
  forall (os : py_env) (c : method_call) (self : NL5_dll)
         (eng : engine) (h : list event) (msg : fstring),
    is_open_call c = false ->
    fst (fst (run eng h (invoke os c self))) = Raises (NL5OpenException msg) ->
    self.(_ncir) < 0.
Proof.
  intros os c self eng h msg Hc Hres.
  pose proof (proj2 (all_leaves_run (ends_in_place self) _ eng h
                       (methods_end_in_place os c self Hc))) as Hk.
  rewrite Hres in Hk. apply Hk. reflexivity.
Qed.

Lemma open_exception_means_no_document_witness :
  is_open_call Start = false /\
  fst (fst (run (steady 0) [] (invoke sample_env Start closed_client)))
  = Raises (NL5OpenException not_opened) /\
  closed_client.(_ncir) < 0.
Proof.
  assert (Hc : is_open_call Start = false) by reflexivity.
  assert (Hr : fst (fst (run (steady 0) [] (invoke sample_env Start closed_client)))
               = Raises (NL5OpenException not_opened)) by reflexivity.
  split; [exact Hc|]. split; [exact Hr|].
  exact (open_exception_means_no_document sample_env Start closed_client
           (steady 0) [] not_opened Hc Hr).
Defined.

Lemma run_fmap {A B : Type} (f : A -> B) (m : M A) (self : NL5_dll)
    (eng : engine) (h : list event) :
  run eng h (fmap f m self)
  = ((match fst (fst (run eng h (m self))) with
      | Returns a => Returns (f a)
      | Raises e => Raises e
      end,
      snd (fst (run eng h (m self)))),
     snd (run eng h (m self))).
Proof.
  unfold fmap. rewrite run_bind.
  destruct (run eng h (m self)) as [[[a | e] s] t]; simpl.
  - rewrite app_nil_r. reflexivity.
  - reflexivity.
Qed.

(** What [open] leaves in the client, in every case. *)
Lemma open_leaves (os : py_env) (eng : engine) (h : list event)
    (name dir : string) (self : NL5_dll) :
  let out := run eng h (open os name dir self) in
  (snd (fst out)).(path) = self.(path) /\
  ((fst (fst out) = Returns tt /\ 0 <= (snd (fst out)).(_ncir) /\
    In (Ev (NL5_Open (os.(join) (resolve os dir) (with_extension name ".nl5")))
          (snd (fst out)).(_ncir)) (snd out))
   \/
   ((exists msg, fst (fst out) = Raises (NL5OpenException msg)) /\
    ((snd (fst out)).(_ncir) = -1 \/ snd (fst out) = self /\ self.(_ncir) < 0))).
Proof.
  intros out. subst out.
  destruct (Z.le_gt_cases 0 self.(_ncir)) as [Hn | Hn].
  - rewrite (open_run_from_open os eng h name dir self Hn). cbn.
    split; [reflexivity|].
    match goal with |- context [if ?z >=? 0 then _ else _] =>
      destruct (z >=? 0) eqn:Hz end.
    + left. split; [reflexivity|]. split; [bool_lia|]. right. left. reflexivity.
    + right. split; [eexists; reflexivity | left; reflexivity].
  - rewrite (open_run_from_closed os eng h name dir self Hn). cbn.
    match goal with |- context [if ?z >=? 0 then _ else _] =>
      destruct (z >=? 0) eqn:Hz end; cbn.
    + split; [reflexivity|]. left. split; [reflexivity|].
      split; [bool_lia|]. left. reflexivity.
    + split; [reflexivity|]. right.
      split; [eexists; reflexivity | right; split; [reflexivity | exact Hn]].
Qed.

Lemma open_keeps_range (os : py_env) (eng : engine) (h : list event)
    (name dir : string) (self : NL5_dll) :
  -1 <= self.(_ncir) ->
  let out := run eng h (invoke os (Open name dir) self) in
  -1 <= (snd (fst out)).(_ncir) /\
  (0 <= (snd (fst out)).(_ncir) <-> fst (fst out) = Returns PyNone).
Proof.
  intros Hn out. subst out. unfold invoke. rewrite run_fmap.
  destruct (open_leaves os eng h name dir self) as [_ Hcases].
  cbn zeta in Hcases. cbn [fst snd].
  destruct Hcases as [(Hret & Hpos & _) | ([msg Hraise] & [Hm | [Hs Hneg]])].
  - rewrite Hret. split; [lia|]. split; intros; [reflexivity | exact Hpos].
  - rewrite Hraise, Hm. split; [lia|]. split; [lia | discriminate].
  - rewrite Hraise, Hs. split; [lia|]. split; [lia | discriminate].
Qed.

(** X3: the handle of a client is -1 or an engine handle: if it is at least
    -1 before a call of any method, it is at least -1 after it; and after
    [open] it is non-negative exactly when [open] returned. *)
Theorem handle_stays_in_range :
  forall (os : py_env) (c : method_call) (self : NL5_dll)
         (eng : engine) (h : list event),
    -1 <= self.(_ncir) ->
    let out := run eng h (invoke os c self) in
    -1 <= (snd (fst out)).(_ncir) /\
    (is_open_call c = true ->
     (0 <= (snd (fst out)).(_ncir) <-> fst (fst out) = Returns PyNone)).
Proof.
  intros os c self eng h Hn out. subst out.
  destruct (is_open_call c) eqn:Hc.
  - destruct c; try discriminate Hc.
    split; [| intros _]; apply open_keeps_range; exact Hn.
  - rewrite (proj1 (all_leaves_run (ends_in_place self) _ eng h
                      (methods_end_in_place os c self Hc))).
    split; [exact Hn | discriminate].
Qed.

Lemma handle_stays_in_range_witness :
  -1 <= closed_client.(_ncir) /\
  (snd (fst (run (steady 6) []
               (invoke sample_env (Open "amp" EmptyString) closed_client)))).(_ncir)
  = 6 /\
  -1 <= (open_client 6).(_ncir) /\
  (snd (fst (run (steady (-3)) []
               (invoke sample_env (Open "amp" EmptyString) (open_client 6))))).(_ncir)
  = -1 /\
  -1 <= (snd (fst (run (steady (-3)) []
                     (invoke sample_env (Open "amp" EmptyString)
                        (open_client 6))))).(_ncir).
Proof.
  assert (H1 : -1 <= closed_client.(_ncir)) by (simpl; lia).
  assert (H2 : -1 <= (open_client 6).(_ncir)) by (simpl; lia).
  split; [exact H1|]. split; [reflexivity|]. split; [exact H2|].
  split; [reflexivity|].
  exact (proj1 (handle_stays_in_range sample_env (Open "amp" EmptyString)
                  (open_client 6) (steady (-3)) [] H2)).
Defined.

(** X4: when [open] is called with a document open and the engine refuses
    the new file, the old document has been closed all the same: [NL5_Close]
    was called on it, [NL5OpenException] is raised and the client is left
    with no document. *)
Theorem failed_open_drops_the_document :
  forall (os : py_env) (eng : engine) (h : list event)
         (name dir : string) (self : NL5_dll),
    0 <= self.(_ncir) ->
    let file := os.(join) (resolve os dir) (with_extension name ".nl5") in
    let r0 := eng Z h (NL5_Close self.(_ncir)) in
    let h1 := (h ++ [Ev (NL5_Close self.(_ncir)) r0])%list in
    eng Z h1 (NL5_Open file) < 0 ->
    let out := run eng h (open os name dir self) in
    fst (fst out) = Raises (NL5OpenException [Lit "Error opening NL5 circuit"]) /\
    (snd (fst out)).(_ncir) = -1 /\
    (snd (fst out)).(path) = self.(path) /\
    closes (snd out) = [self.(_ncir)].
Proof.
  intros os eng h name dir self Hn file r0 h1 Hfail out. subst out.
  rewrite (open_run_from_open os eng h name dir self Hn).
  fold file. fold r0. fold h1. rewrite (geb_false _ Hfail).
  repeat split.
Qed.

Lemma failed_open_drops_the_document_witness :
  0 <= (open_client 2).(_ncir) /\
  steady (-1) Z ([] ++ [Ev (NL5_Close 2) (-1)])%list (NL5_Open "/work/amp.nl5") < 0 /\
  (snd (fst (run (steady (-1)) []
               (open sample_env "amp" EmptyString (open_client 2))))).(_ncir) = -1 /\
  closes (snd (run (steady (-1)) []
                 (open sample_env "amp" EmptyString (open_client 2)))) = [2].
Proof.
  assert (H0 : 0 <= (open_client 2).(_ncir)) by (simpl; lia).
  assert (H1 : steady (-1) Z ([] ++ [Ev (NL5_Close 2) (-1)])%list
                 (NL5_Open "/work/amp.nl5") < 0) by (simpl; lia).
  destruct (failed_open_drops_the_document sample_env (steady (-1)) [] "amp"
              EmptyString (open_client 2) H0 H1) as (_ & Hh & _ & Hc).
  split; [exact H0|]. split; [exact H1|]. split; [exact Hh | exact Hc].
Defined.

(** ** Which exception for which entry point *)

Lemma exn_kind_eqb_refl (k : exn_kind) : exn_kind_eqb k k = true.
Proof. destruct k; reflexivity. Qed.

Ltac of_kind :=
  idtac;
  lazymatch goal with
  | |- _ = ?K => destruct K; simpl in *; first [reflexivity | congruence]
  end.

Lemma failures_by_kind (os : py_env) (c : method_call) (self : NL5_dll)
    (K : exn_kind) :
  each_failure
    (fun ev => negb (ev_is_close ev) && exn_kind_eqb (ev_kind_for ev) K)
    (fun ex => kind_of ex = K)
    (invoke os c self).
Proof.
  destruct c;
    try solve [walk of_kind].
  - apply each_failure_bind_prog.
    + apply get_data_slice_each_failure; intros; of_kind.
    + intros [[a | e] s]; exact I.
    + intros; reflexivity.
  - walk_to_loop of_kind @timedata_loop_each_failure.
  - walk_to_loop of_kind @freqmagphase_loop_each_failure.
Qed.

(** X5: the class of the exception is decided by the entry point that
    failed ([kind_for]): [NL5_GetLicense] gives [NL5LicenseException],
    [NL5_Open] [NL5OpenException], the five saving entry points
    [NL5SaveException], [NL5_GetParam] [NL5ParamException], the look-ups of
    traces, inputs and outputs and the five [NL5_Add*Trace]
    [NL5TraceException], the five simulation entry points
    [NL5StartException], [NL5_DeleteOldData] [NL5DeleteException], and every
    other one but [NL5_Close] [NL5ValueException]; in every method. *)
Theorem exception_class_follows_entry_point :
  forall (os : py_env) (c : method_call) (self : NL5_dll)
         (eng : engine) (h : list event)
         (res : result pyvalue) (self' : NL5_dll)
         (pre : list event) (ev : event) (post : list event),
    run eng h (invoke os c self) = ((res, self'), (pre ++ ev :: post)%list) ->
    ev_failed ev = true ->
    ev_is_close ev = false ->
    exists ex, res = Raises ex /\ kind_of ex = ev_kind_for ev.
Proof.
  intros os c self eng h res self' pre ev post Hrun Hf Hc.
  destruct (each_failure_run _ _ _ eng h res self' pre ev post
              (failures_by_kind os c self (ev_kind_for ev)) Hrun Hf)
    as [_ [ex [Hres Hk]]].
  - rewrite Hc, exn_kind_eqb_refl. reflexivity.
  - exists ex. split; [exact Hres | exact Hk].
Qed.

Lemma exception_class_follows_entry_point_witness :
  run (steady (-1)) [] (invoke sample_env (Get_parameter_value "gain") (open_client 0))
  = ((Raises (NL5ParamException (param_missing "gain")), open_client 0),
     ([] ++ Ev (NL5_GetParam 0 "gain") (-1) :: [])%list) /\
  ev_failed (Ev (NL5_GetParam 0 "gain") (-1)) = true /\
  ev_is_close (Ev (NL5_GetParam 0 "gain") (-1)) = false /\
  exists ex,
    Raises (NL5ParamException (param_missing "gain")) = @Raises pyvalue ex /\
    kind_of ex = KParam.
Proof.
  split; [reflexivity|]. split; [reflexivity|]. split; [reflexivity|].
  apply (exception_class_follows_entry_point sample_env
           (Get_parameter_value "gain") (open_client 0) (steady (-1)) []
           (Raises (NL5ParamException (param_missing "gain")))
           (open_client 0) [] (Ev (NL5_GetParam 0 "gain") (-1)) []);
    reflexivity.
Defined.

(** ** What reaches the engine *)

Arguments sound_call : simpl never.

Section LoopCalls.

Context {X : Type} (Q : forall R : Type, entry R -> Prop).

Lemma slice_loop_calls (ncir ntrace : Z) (t_start t_step : float) :
  (forall t, Q _ (NL5_GetData ncir ntrace t)) ->
  forall count i v self,
    all_calls Q (slice_loop ncir ntrace t_start t_step count i v self).
Proof.
  intros HQ. induction count as [| count IH]; intros i v self; cbn.
  - exact I.
  - split; [apply HQ|]. intros [retval d]. cbn.
    destruct (retval <? 0); cbn; [exact I | apply IH].
Qed.

Lemma timedata_loop_calls (ncir ntrace : Z) :
  (forall n, Q _ (NL5_GetDataAt ncir ntrace n)) ->
  forall count i t_vec d_vec self,
    all_calls Q (timedata_loop ncir ntrace count i t_vec d_vec self).
Proof.
  intros HQ. induction count as [| count IH]; intros i t_vec d_vec self; cbn.
  - exact I.
  - split; [apply HQ|]. intros [retval [t d]]. cbn.
    destruct (retval <? 0); cbn; [exact I | apply IH].
Qed.

Lemma freqmagphase_loop_calls (ncir ntrace : Z) :
  (forall n, Q _ (NL5_GetACDataAt ncir ntrace n)) ->
  forall count i f_vec m_vec p_vec self,
    all_calls Q (freqmagphase_loop ncir ntrace count i f_vec m_vec p_vec self).
Proof.
  intros HQ.
  induction count as [| count IH]; intros i f_vec m_vec p_vec self; cbn.
  - exact I.
  - split; [apply HQ|]. intros [retval [f [m p]]]. cbn.
    destruct (retval <? 0); cbn; [exact I | apply IH].
Qed.

End LoopCalls.

Ltac sound :=
  unfold sound_call; cbn;
  repeat split; try reflexivity; try bool_lia.

(** Walks a method body for a property of its calls. *)
Ltac walk_calls tacQ lem :=
  unfold create_string_buffer, decode_value, decode_c_char_p,
    slice_length, zeros, lift;
  cbn;
  lazymatch goal with
  | |- True => exact I
  | |- _ /\ (forall r, _) =>
      split;
      [ tacQ
      | intros ?r;
        repeat match goal with r : (_ * _)%type |- _ => destruct r end;
        walk_calls tacQ lem ]
  | |- context [if ?b then _ else _] => destruct b eqn:?; walk_calls tacQ lem
  | |- context [match ?x with Some _ => _ | None => _ end] =>
      destruct x eqn:?; walk_calls tacQ lem
  | |- context [match ?x with Returns _ => _ | Raises _ => _ end] =>
      destruct x eqn:?; walk_calls tacQ lem
  | |- all_calls _ (bind_prog _ _) =>
      apply all_calls_bind_prog;
      [ first [ apply lem; intros; tacQ | walk_calls tacQ lem ]
      | intros [[?a | ?e] ?s];
        repeat match goal with r : (_ * _)%type |- _ => destruct r end;
        cbn;
        repeat match goal with
               | |- context [if ?b then _ else _] => destruct b
               end;
        exact I ]
  end.

Lemma calls_are_sound (os : py_env) (c : method_call) (self : NL5_dll) :
  all_calls (sound_call self c) (invoke os c self).
Proof.
  destruct c.
  all: try solve [walk_calls sound @timedata_loop_calls].
  - walk_calls sound @slice_loop_calls.
  - walk_calls sound @freqmagphase_loop_calls.
Qed.

(** X6: every entry point that takes a document handle is called with the
    handle of the client, and that handle is non-negative: no method calls
    the engine on another document or with the "no document" value. *)
Theorem calls_carry_the_client_handle :
  forall (os : py_env) (c : method_call) (self : NL5_dll)
         (eng : engine) (h : list event) (ev : event) (n : Z),
    In ev (snd (run eng h (invoke os c self))) ->
    ev_ncir_arg ev = Some n ->
    n = self.(_ncir) /\ 0 <= n.
Proof.
  intros os c self eng h ev n Hin Harg.
  pose proof (all_calls_run _ _ eng h ev (calls_are_sound os c self) Hin) as Hs.
  destruct ev as [R e r]. simpl in Hs, Harg.
  destruct Hs as [Hncir _]. rewrite Harg in Hncir. exact Hncir.
Qed.

Lemma calls_carry_the_client_handle_witness :
  In (Ev (NL5_GetDataAt 5 0 1) (0, (1%float, 1%float)))
     (snd (run three_samples []
             (invoke sample_env (Get_timedata_vectors "V(out)") (open_client 5)))) /\
  ev_ncir_arg (Ev (NL5_GetDataAt 5 0 1) (0, (1%float, 1%float))) = Some 5 /\
  5 = (open_client 5).(_ncir) /\ 0 <= 5.
Proof.
  assert (Hin : In (Ev (NL5_GetDataAt 5 0 1) (0, (1%float, 1%float)))
                  (snd (run three_samples []
                          (invoke sample_env (Get_timedata_vectors "V(out)")
                             (open_client 5))))).
  { vm_compute. right. right. right. left. reflexivity. }
  split; [exact Hin|]. split; [reflexivity|].
  exact (calls_carry_the_client_handle sample_env (Get_timedata_vectors "V(out)")
           (open_client 5) three_samples [] _ 5 Hin eq_refl).
Defined.

(** X7: the name of a parameter, trace, input or output is handed to the
    wrapper as the caller gave it, and the library, behind ctypes, reads it
    as a C string: it receives the name up to its first NUL byte, which is
    the whole name exactly when the name has no NUL byte in it. *)
Theorem names_cross_as_c_strings :
  forall (os : py_env) (c : method_call) (self : NL5_dll)
         (library : engine) (h : list event) (ev : event) (name : string),
    In ev (snd (run (behind_ctypes library) h (invoke os c self))) ->
    ev_name_arg ev = Some name ->
    identifier c = Some name /\
    ev_name_arg (ev_received ev) = Some (c_char_p name) /\
    In (ev_received ev)
       (received (snd (run (behind_ctypes library) h (invoke os c self)))) /\
    prefix (c_char_p name) name = true /\
    has_nul (c_char_p name) = false /\
    (c_char_p name = name <-> has_nul name = false).
Proof.
  intros os c self library h ev name Hin Harg.
  pose proof (all_calls_run _ _ (behind_ctypes library) h ev
                (calls_are_sound os c self) Hin) as Hs.
  split.
  { destruct ev as [R e r]. simpl in Hs, Harg.
    destruct Hs as (_ & Hname & _). rewrite Harg in Hname. exact Hname. }
  split.
  { destruct ev as [R e r]. simpl in Harg |- *.
    destruct e; simpl in Harg |- *; try discriminate Harg;
      injection Harg as <-; reflexivity. }
  split; [apply in_map; exact Hin|].
  split; [apply c_char_p_prefix|].
  split; [apply c_char_p_has_no_nul | apply c_char_p_fixed].
Qed.

Lemma names_cross_as_c_strings_witness :
  let name := ("R1" ++ String Ascii.zero ".R")%string in
  In (Ev (NL5_GetValue 0 name) (3, 0%float))
     (snd (run (behind_ctypes (steady 3)) []
             (invoke sample_env (Get_value name) (open_client 0)))) /\
  ev_name_arg (Ev (NL5_GetValue 0 name) (3, 0%float)) = Some name /\
  identifier (Get_value name) = Some name /\
  ev_name_arg (ev_received (Ev (NL5_GetValue 0 name) (3, 0%float))) = Some "R1" /\
  has_nul name = true.
Proof.
  intros name.
  assert (Hin : In (Ev (NL5_GetValue 0 name) (3, 0%float))
                  (snd (run (behind_ctypes (steady 3)) []
                          (invoke sample_env (Get_value name) (open_client 0))))).
  { vm_compute. left. reflexivity. }
  destruct (names_cross_as_c_strings sample_env (Get_value name) (open_client 0)
              (steady 3) [] _ name Hin eq_refl) as (Hid & Hrec & _).
  split; [exact Hin|]. split; [reflexivity|]. split; [exact Hid|].
  split; [exact Hrec | reflexivity].
Defined.

(** What [set_input_logical_value] and [get_output_logical_value] come to,
    whatever the engine answers. *)
Lemma set_input_logical_value_run (eng : engine) (h : list event)
    (name : string) (v : bool) (self : NL5_dll) :
  run eng h (set_input_logical_value name v self)
  = (if self.(_ncir) <? 0 then ((Raises (NL5OpenException not_opened), self), [])
     else
       let nin := eng Z h (NL5_GetInput self.(_ncir) name) in
       ((Raises (if nin <? 0 then NL5TraceException (trace_missing name)
                 else ValueError), self),
        [Ev (NL5_GetInput self.(_ncir) name) nin])).
Proof.
  unfold set_input_logical_value. cbn.
  rewrite (Z.ltb_antisym 0), <- Z.geb_leb.
  destruct (_ncir self >=? 0); cbn; [| reflexivity].
  rewrite (Z.ltb_antisym 0), <- Z.geb_leb.
  destruct (eng Z h (NL5_GetInput (_ncir self) name) >=? 0); reflexivity.
Qed.

Lemma get_output_logical_value_run (eng : engine) (h : list event)
    (name : string) (self : NL5_dll) :
  run eng h (get_output_logical_value name self)
  = (if self.(_ncir) <? 0 then ((Raises (NL5OpenException not_opened), self), [])
     else
       let nout := eng Z h (NL5_GetOutput self.(_ncir) name) in
       ((Raises (if nout <? 0 then NL5TraceException (trace_missing name)
                 else ArgumentError), self),
        [Ev (NL5_GetOutput self.(_ncir) name) nout])).
Proof.
  unfold get_output_logical_value. cbn.
  rewrite (Z.ltb_antisym 0), <- Z.geb_leb.
  destruct (_ncir self >=? 0); cbn; [| reflexivity].
  rewrite (Z.ltb_antisym 0), <- Z.geb_leb.
  destruct (eng Z h (NL5_GetOutput (_ncir self) name) >=? 0); reflexivity.
Qed.

(** X8: [set_input_logical_value] and [get_output_logical_value] never
    return.  With no document they raise [NL5OpenException] without a call;
    otherwise they make one call, the look-up of the input or output, and
    raise [NL5TraceException] when it is refused and, when it is answered,
    [ValueError] ([int] of a [c_double] cell) and [ArgumentError] (a
    [c_double] handed to a [POINTER(c_int)] parameter) respectively.  And no
    call of any public method reaches [NL5_SetInputLogicalValue] or
    [NL5_GetOutputLogicalValue] in the library. *)
Theorem logical_values_are_out_of_reach :
  forall (os : py_env) (self : NL5_dll) (eng : engine) (h : list event)
         (name : string) (v : bool) (c : method_call) (ev : event),
    run eng h (invoke os (Set_input_logical_value name v) self)
    = (if self.(_ncir) <? 0 then
         ((Raises (NL5OpenException not_opened), self), [])
       else
         ((Raises (if eng Z h (NL5_GetInput self.(_ncir) name) <? 0
                   then NL5TraceException (trace_missing name)
                   else ValueError), self),
          [Ev (NL5_GetInput self.(_ncir) name)
              (eng Z h (NL5_GetInput self.(_ncir) name))])) /\
    run eng h (invoke os (Get_output_logical_value name) self)
    = (if self.(_ncir) <? 0 then
         ((Raises (NL5OpenException not_opened), self), [])
       else
         ((Raises (if eng Z h (NL5_GetOutput self.(_ncir) name) <? 0
                   then NL5TraceException (trace_missing name)
                   else ArgumentError), self),
          [Ev (NL5_GetOutput self.(_ncir) name)
              (eng Z h (NL5_GetOutput self.(_ncir) name))])) /\
    (In ev (snd (run eng h (invoke os c self))) -> ev_is_logical ev = false).
Proof.
  intros os self eng h name v c ev.
  split.
  { unfold invoke. rewrite run_fmap, set_input_logical_value_run.
    destruct (_ncir self <? 0); cbn; [reflexivity|].
    destruct (eng Z h (NL5_GetInput (_ncir self) name) <? 0); reflexivity. }
  split.
  { unfold invoke. rewrite run_fmap, get_output_logical_value_run.
    destruct (_ncir self <? 0); cbn; [reflexivity|].
    destruct (eng Z h (NL5_GetOutput (_ncir self) name) <? 0); reflexivity. }
  intros Hin.
  pose proof (all_calls_run _ _ eng h ev (calls_are_sound os c self) Hin) as Hs.
  destruct ev as [R e r]. simpl in Hs. destruct Hs as (_ & _ & Hl). exact Hl.
Qed.

Lemma logical_values_are_out_of_reach_witness :
  run (steady 1) []
    (invoke sample_env (Set_input_logical_value "Vin" true) (open_client 0))
  = ((Raises ValueError, open_client 0), [Ev (NL5_GetInput 0 "Vin") 1]) /\
  run (steady 1) []
    (invoke sample_env (Get_output_logical_value "Vin") (open_client 0))
  = ((Raises ArgumentError, open_client 0), [Ev (NL5_GetOutput 0 "Vin") 1]) /\
  In (Ev (NL5_GetInput 0 "Vin") 1)
     (snd (run (steady 1) []
             (invoke sample_env (Set_input_logical_value "Vin" true)
                (open_client 0)))) /\
  ev_is_logical (Ev (NL5_GetInput 0 "Vin") 1) = false.
Proof.
  assert (Hin : In (Ev (NL5_GetInput 0 "Vin") 1)
                  (snd (run (steady 1) []
                          (invoke sample_env (Set_input_logical_value "Vin" true)
                             (open_client 0))))).
  { vm_compute. left. reflexivity. }
  destruct (logical_values_are_out_of_reach sample_env (open_client 0) (steady 1)
              [] "Vin" true (Set_input_logical_value "Vin" true)
              (Ev (NL5_GetInput 0 "Vin") 1)) as (Hset & Hget & Hnever).
  split; [exact Hset|]. split; [exact Hget|].
  split; [exact Hin | exact (Hnever Hin)].
Defined.

Lemma simple_methods_are_short (os : py_env) (c : method_call) (self : NL5_dll) :
  is_bulk c = false -> at_most 2 (invoke os c self).
Proof.
  intros Hc. destruct c; try discriminate Hc;
    walk_leaves ltac:(exact I).
Qed.

(** X9: a method other than the three that loop over a trace makes at most
    two calls of entry points, whatever the engine answers. *)
Theorem simple_methods_make_at_most_two_calls :
  forall (os : py_env) (c : method_call) (self : NL5_dll)
         (eng : engine) (h : list event),
    is_bulk c = false ->
    (List.length (snd (run eng h (invoke os c self))) <= 2)%nat.
Proof.
  intros os c self eng h Hc.
  apply at_most_run. apply simple_methods_are_short. exact Hc.
Qed.

Lemma simple_methods_make_at_most_two_calls_witness :
  is_bulk (Delete_trace "V(out)") = false /\
  List.length (snd (run (steady 0) []
                      (invoke sample_env (Delete_trace "V(out)") (open_client 0))))
  = 2%nat /\
  (List.length (snd (run (steady 0) []
                       (invoke sample_env (Delete_trace "V(out)") (open_client 0))))
   <= 2)%nat.
Proof.
  split; [reflexivity|]. split; [reflexivity|].
  apply (simple_methods_make_at_most_two_calls sample_env (Delete_trace "V(out)")
           (open_client 0) (steady 0) []).
  reflexivity.
Defined.

(** ** Handles *)

Lemma threads_run {X : Type} :
  forall (p : prog X) (last : option Z) eng h x pre ev post hd,
    threads last p ->
    run eng h p = (x, (pre ++ ev :: post)%list) ->
    ev_handle_arg ev = Some hd ->
    last_lookup last pre = Some hd /\ 0 <= hd.
Proof.
  induction p as [y | R e k IH];
    intros last eng h x pre ev post hd Hp Hrun Harg.
  - simpl in Hrun. destruct pre; discriminate.
  - simpl in Hrun, Hp. destruct Hp as [Hhere Hrest].
    destruct (run eng (h ++ [Ev e (eng R h e)])%list (k (eng R h e)))
      as [y t] eqn:Hk.
    destruct pre as [| ev0 pre]; simpl in Hrun.
    + injection Hrun as Hx Hev Ht. subst ev. simpl in Harg.
      rewrite Harg in Hhere. exact Hhere.
    + injection Hrun as Hx Hev Ht. subst ev0 t y.
      unfold last_lookup. simpl fold_left.
      exact (IH (eng R h e) _ eng _ x pre ev post hd (Hrest _) Hk Harg).
Qed.

Lemma threads_bind_prog {X Y : Type} :
  forall (p : prog X) (g : X -> prog Y) (last : option Z),
    threads last p -> (forall x l, threads l (g x)) ->
    threads last (bind_prog p g).
Proof.
  induction p as [x | R e k IH]; intros g last Hp Hg; simpl in *.
  - apply Hg.
  - destruct Hp as [Hhere Hrest]. split; [exact Hhere|].
    intros r. apply IH; [apply Hrest | exact Hg].
Qed.

Section LoopThreads.

Variables (ncir ntrace : Z).
Hypothesis ntrace_valid : 0 <= ntrace.

Lemma slice_loop_threads (t_start t_step : float) :
  forall count i v self,
    threads (Some ntrace) (slice_loop ncir ntrace t_start t_step count i v self).
Proof.
  induction count as [| count IH]; intros i v self; cbn.
  - exact I.
  - split; [split; [reflexivity | exact ntrace_valid]|].
    intros [retval d]. cbn. destruct (retval <? 0); cbn; [exact I | apply IH].
Qed.

Lemma timedata_loop_threads :
  forall count i t_vec d_vec self,
    threads (Some ntrace) (timedata_loop ncir ntrace count i t_vec d_vec self).
Proof.
  induction count as [| count IH]; intros i t_vec d_vec self; cbn.
  - exact I.
  - split; [split; [reflexivity | exact ntrace_valid]|].
    intros [retval [t d]]. cbn.
    destruct (retval <? 0); cbn; [exact I | apply IH].
Qed.

Lemma freqmagphase_loop_threads :
  forall count i f_vec m_vec p_vec self,
    threads (Some ntrace)
      (freqmagphase_loop ncir ntrace count i f_vec m_vec p_vec self).
Proof.
  induction count as [| count IH]; intros i f_vec m_vec p_vec self; cbn.
  - exact I.
  - split; [split; [reflexivity | exact ntrace_valid]|].
    intros [retval [f [m p]]]. cbn.
    destruct (retval <? 0); cbn; [exact I | apply IH].
Qed.

End LoopThreads.

Ltac threaded :=
  first [ exact I | split; [reflexivity | bool_lia] ].

Ltac walk_threads lem :=
  unfold create_string_buffer, decode_value, decode_c_char_p,
    slice_length, zeros, lift;
  cbn;
  lazymatch goal with
  | |- True => exact I
  | |- _ /\ (forall r, _) =>
      split;
      [ threaded
      | intros ?r;
        repeat match goal with r : (_ * _)%type |- _ => destruct r end;
        walk_threads lem ]
  | |- context [if ?b then _ else _] => destruct b eqn:?; walk_threads lem
  | |- context [match ?x with Some _ => _ | None => _ end] =>
      destruct x eqn:?; walk_threads lem
  | |- context [match ?x with Returns _ => _ | Raises _ => _ end] =>
      destruct x eqn:?; walk_threads lem
  | |- threads _ (bind_prog _ _) =>
      apply threads_bind_prog;
      [ first [ apply lem; bool_lia | walk_threads lem ]
      | intros [[?a | ?e] ?s] ?l;
        repeat match goal with r : (_ * _)%type |- _ => destruct r end;
        cbn;
        repeat match goal with
               | |- context [if ?b then _ else _] => destruct b
               end;
        exact I ]
  end.

Lemma handles_are_threaded (os : py_env) (c : method_call) (self : NL5_dll) :
  threads None (invoke os c self).
Proof.
  destruct c.
  all: try solve [walk_threads timedata_loop_threads].
  - walk_threads slice_loop_threads.
  - walk_threads freqmagphase_loop_threads.
Qed.

(** X10: every parameter, trace, input or output handle a method passes to
    the engine is the one the engine answered to the latest look-up
    ([NL5_GetParam], [NL5_GetTrace], [NL5_GetInput], [NL5_GetOutput],
    [NL5_GetACTrace]) earlier in the same call, and it is non-negative:
    handles are resolved anew in each call and a refused look-up is never
    used. *)
Theorem handles_come_from_the_lookup :
  forall (os : py_env) (c : method_call) (self : NL5_dll)
         (eng : engine) (h : list event)
         (x : result pyvalue * NL5_dll)
         (pre : list event) (ev : event) (post : list event) (hd : Z),
    run eng h (invoke os c self) = (x, (pre ++ ev :: post)%list) ->
    ev_handle_arg ev = Some hd ->
    last_lookup None pre = Some hd /\ 0 <= hd.
Proof.
  intros os c self eng h x pre ev post hd Hrun Harg.
  exact (threads_run _ None eng h x pre ev post hd
           (handles_are_threaded os c self) Hrun Harg).
Qed.

Lemma handles_come_from_the_lookup_witness :
  run (steady 4) [] (invoke sample_env (Delete_trace "V(out)") (open_client 0))
  = ((Returns PyNone, open_client 0),
     ([Ev (NL5_GetTrace 0 "V(out)") 4] ++ Ev (NL5_DeleteTrace 0 4) 4 :: [])%list) /\
  ev_handle_arg (Ev (NL5_DeleteTrace 0 4) 4) = Some 4 /\
  last_lookup None [Ev (NL5_GetTrace 0 "V(out)") 4] = Some 4 /\ 0 <= 4.
Proof.
  split; [reflexivity|]. split; [reflexivity|].
  apply (handles_come_from_the_lookup sample_env (Delete_trace "V(out)")
           (open_client 0) (steady 4) [] (Returns PyNone, open_client 0)
           [Ev (NL5_GetTrace 0 "V(out)") 4] (Ev (NL5_DeleteTrace 0 4) 4) [] 4);
    reflexivity.
Defined.

(** ** Arrays *)

Lemma length_setitem (v : list float) (i : nat) (x : float) :
  List.length (setitem v i x) = List.length v.
Proof.
  revert i. induction v as [| y v IH]; intros [| i]; simpl;
    try reflexivity. rewrite IH. reflexivity.
Qed.

Lemma firstn_setitem (v : list float) (i : nat) (x : float) :
  (i < List.length v)%nat ->
  firstn (S i) (setitem v i x) = (firstn i v ++ [x])%list.
Proof.
  revert i. induction v as [| y v IH]; intros [| i] Hi; simpl in *;
    try lia; try reflexivity.
  rewrite <- (IH i) by lia. reflexivity.
Qed.

Lemma length_np_zeros (n : Z) : List.length (np_zeros n) = Z.to_nat n.
Proof. unfold np_zeros. apply repeat_length. Qed.

Lemma length_range_from (n : nat) (i : Z) : List.length (range_from i n) = n.
Proof.
  revert i. induction n as [| n IH]; intros i; simpl;
    [reflexivity | rewrite IH; reflexivity].
Qed.

(** ** The time and data vectors *)

Lemma timedata_loop_step (eng : engine) (h : list event) (ncir ntrace : Z)
    (count : nat) (i : Z) (t_vec d_vec : list float) (self : NL5_dll) :
  let reply := eng _ h (NL5_GetDataAt ncir ntrace i) in
  let ev := Ev (NL5_GetDataAt ncir ntrace i) reply in
  run eng h (timedata_loop ncir ntrace (S count) i t_vec d_vec self)
  = if fst reply <? 0 then
      ((Raises (NL5ValueException bad_index), self), [ev])
    else
      let out :=
        run eng (h ++ [ev])%list
          (timedata_loop ncir ntrace count (i + 1)
             (setitem t_vec (Z.to_nat i) (fst (snd reply)))
             (setitem d_vec (Z.to_nat i) (snd (snd reply))) self) in
      (fst out, ev :: snd out).
Proof.
  intros reply ev. subst ev. cbn. fold reply.
  destruct reply as [retval [t d]]. cbn.
  destruct (retval <? 0); cbn; [reflexivity|].
  match goal with |- context [run ?e ?h' ?p] => destruct (run e h' p) end.
  reflexivity.
Qed.

Lemma timedata_loop_returns (eng : engine) (ncir ntrace : Z) (self : NL5_dll) :
  forall count i t_vec d_vec h tv dv self' t,
    0 <= i ->
    List.length t_vec = (Z.to_nat i + count)%nat ->
    List.length d_vec = (Z.to_nat i + count)%nat ->
    run eng h (timedata_loop ncir ntrace count i t_vec d_vec self)
    = ((Returns (tv, dv), self'), t) ->
    data_at_indices t = range_from i count /\
    List.length t = count /\
    tv = (firstn (Z.to_nat i) t_vec ++ map fst (data_at_samples t))%list /\
    dv = (firstn (Z.to_nat i) d_vec ++ map snd (data_at_samples t))%list.
Proof.
  induction count as [| count IH];
    intros i t_vec d_vec h tv dv self' t Hi Ht Hd Hrun.
  - simpl in Hrun. injection Hrun as <- <- _ <-. simpl.
    rewrite !app_nil_r, !firstn_all2 by lia. repeat split.
  - rewrite timedata_loop_step in Hrun. cbn zeta in Hrun.
    destruct (eng _ h (NL5_GetDataAt ncir ntrace i)) as [retval [t0 d0]].
    cbn [fst snd] in Hrun.
    destruct (retval <? 0); [discriminate Hrun|].
    match type of Hrun with context [run ?e ?h' ?p] =>
      destruct (run e h' p) as [[r s] t'] eqn:Hloop end.
    cbn [fst snd] in Hrun. injection Hrun as -> -> <-.
    apply IH in Hloop;
      [ | lia | rewrite length_setitem; lia | rewrite length_setitem; lia ].
    destruct Hloop as (Hidx & Hlen & Htv & Hdv).
    replace (Z.to_nat (i + 1)) with (S (Z.to_nat i)) in Htv, Hdv by lia.
    rewrite firstn_setitem in Htv, Hdv by lia.
    rewrite <- app_assoc in Htv, Hdv.
    simpl. rewrite Hidx, Hlen. repeat split; assumption.
Qed.

(** X11: when [get_timedata_vectors] returns, it has asked the engine for
    the trace, for its size, and then for the samples 0, 1, ..., size - 1 in
    this order and nothing else, and the two vectors it returns are the
    times and the values of these samples, in the same order. *)
Theorem timedata_vectors_are_the_samples :
  forall (eng : engine) (h : list event) (name : string) (self self' : NL5_dll)
         (t_vec d_vec : list float) (t : list event),
    run eng h (get_timedata_vectors name self)
    = ((Returns (t_vec, d_vec), self'), t) ->
    exists ntrace size rest,
      t = Ev (NL5_GetTrace self.(_ncir) name) ntrace
          :: Ev (NL5_GetDataSize self.(_ncir) ntrace) size :: rest /\
      0 <= ntrace /\ 0 <= size /\
      data_at_indices rest = range_from 0 (Z.to_nat size) /\
      List.length rest = Z.to_nat size /\
      t_vec = map fst (data_at_samples rest) /\
      d_vec = map snd (data_at_samples rest).
Proof.
  intros eng h name self self' t_vec d_vec t Hrun.
  unfold get_timedata_vectors in Hrun. cbn in Hrun.
  destruct (_ncir self >=? 0) eqn:Hn; cbn in Hrun; [| discriminate Hrun].
  match type of Hrun with context [eng Z h ?e] =>
    remember (eng Z h e) as ntrace eqn:Hntrace end.
  destruct (ntrace >=? 0) eqn:Hnt; cbn in Hrun; [| discriminate Hrun].
  match type of Hrun with context [eng Z ?h' (NL5_GetDataSize ?a ?b)] =>
    remember (eng Z h' (NL5_GetDataSize a b)) as size eqn:Hsize end.
  destruct (size <? 0) eqn:Hsz; cbn in Hrun; [discriminate Hrun|].
  match type of Hrun with context [run eng ?h' ?p] =>
    destruct (run eng h' p) as [[r s] t'] eqn:Hloop end.
  cbn in Hrun. injection Hrun as -> -> <-.
  apply timedata_loop_returns in Hloop;
    [ | lia | rewrite length_np_zeros; cbn; lia
      | rewrite length_np_zeros; cbn; lia ].
  destruct Hloop as (Hidx & Hlen & Htv & Hdv). cbn in Htv, Hdv.
  exists ntrace, size, t'.
  split; [reflexivity|]. split; [bool_lia|]. split; [bool_lia|].
  repeat split; assumption.
Qed.

Lemma timedata_vectors_are_the_samples_witness :
  run three_samples [] (get_timedata_vectors "V(out)" (open_client 0))
  = ((Returns ([0%float; 1%float; 2%float], [1%float; 1%float; 1%float]),
      open_client 0),
     [Ev (NL5_GetTrace 0 "V(out)") 0; Ev (NL5_GetDataSize 0 0) 3;
      Ev (NL5_GetDataAt 0 0 0) (0, (0%float, 1%float));
      Ev (NL5_GetDataAt 0 0 1) (0, (1%float, 1%float));
      Ev (NL5_GetDataAt 0 0 2) (0, (2%float, 1%float))]) /\
  exists ntrace size rest,
    [Ev (NL5_GetTrace 0 "V(out)") 0; Ev (NL5_GetDataSize 0 0) 3;
     Ev (NL5_GetDataAt 0 0 0) (0, (0%float, 1%float));
     Ev (NL5_GetDataAt 0 0 1) (0, (1%float, 1%float));
     Ev (NL5_GetDataAt 0 0 2) (0, (2%float, 1%float))]
    = Ev (NL5_GetTrace (open_client 0).(_ncir) "V(out)") ntrace
      :: Ev (NL5_GetDataSize (open_client 0).(_ncir) ntrace) size :: rest /\
    0 <= ntrace /\ 0 <= size /\
    data_at_indices rest = range_from 0 (Z.to_nat size) /\
    List.length rest = Z.to_nat size /\
    [0%float; 1%float; 2%float] = map fst (data_at_samples rest) /\
    [1%float; 1%float; 1%float] = map snd (data_at_samples rest).
Proof.
  assert (Hrun : run three_samples [] (get_timedata_vectors "V(out)" (open_client 0))
    = ((Returns ([0%float; 1%float; 2%float], [1%float; 1%float; 1%float]),
        open_client 0),
       [Ev (NL5_GetTrace 0 "V(out)") 0; Ev (NL5_GetDataSize 0 0) 3;
        Ev (NL5_GetDataAt 0 0 0) (0, (0%float, 1%float));
        Ev (NL5_GetDataAt 0 0 1) (0, (1%float, 1%float));
        Ev (NL5_GetDataAt 0 0 2) (0, (2%float, 1%float))]))
    by (vm_compute; reflexivity).
  split; [exact Hrun|].
  exact (timedata_vectors_are_the_samples three_samples [] "V(out)"
           (open_client 0) (open_client 0) _ _ _ Hrun).
Defined.

Lemma run_bind_prog {X Y : Type} (g : X -> prog Y) (eng : engine) :
  forall (p : prog X) (h : list event),
    run eng h (bind_prog p g)
    = (fst (run eng (h ++ snd (run eng h p))%list (g (fst (run eng h p)))),
       (snd (run eng h p)
        ++ snd (run eng (h ++ snd (run eng h p))%list (g (fst (run eng h p)))))%list).
Proof.
  induction p as [x | R e k IH]; intros h; simpl.
  - rewrite app_nil_r. destruct (run eng h (g x)); reflexivity.
  - rewrite IH.
    destruct (run eng (h ++ [Ev e (eng R h e)])%list (k (eng R h e)))
      as [x t] eqn:Hk.
    simpl. rewrite <- app_assoc. reflexivity.
Qed.

(** ** The frequency, magnitude and phase vectors *)

Lemma freqmagphase_loop_step (eng : engine) (h : list event) (ncir ntrace : Z)
    (count : nat) (i : Z) (f_vec m_vec p_vec : list float) (self : NL5_dll) :
  let reply := eng _ h (NL5_GetACDataAt ncir ntrace i) in
  let ev := Ev (NL5_GetACDataAt ncir ntrace i) reply in
  run eng h (freqmagphase_loop ncir ntrace (S count) i f_vec m_vec p_vec self)
  = if fst reply <? 0 then
      ((Raises (NL5ValueException bad_index), self), [ev])
    else
      let out :=
        run eng (h ++ [ev])%list
          (freqmagphase_loop ncir ntrace count (i + 1)
             (setitem f_vec (Z.to_nat i) (fst (snd reply)))
             (setitem m_vec (Z.to_nat i) (fst (snd (snd reply))))
             (setitem p_vec (Z.to_nat i) (snd (snd (snd reply)))) self) in
      (fst out, ev :: snd out).
Proof.
  intros reply ev. subst ev. cbn. fold reply.
  destruct reply as [retval [f [m p]]]. cbn.
  destruct (retval <? 0); cbn; [reflexivity|].
  match goal with |- context [run ?e ?h' ?p] => destruct (run e h' p) end.
  reflexivity.
Qed.

Lemma freqmagphase_loop_returns (eng : engine) (ncir ntrace : Z)
    (self : NL5_dll) :
  forall count i f_vec m_vec p_vec h fv mv pv self' t,
    0 <= i ->
    List.length f_vec = (Z.to_nat i + count)%nat ->
    List.length m_vec = (Z.to_nat i + count)%nat ->
    List.length p_vec = (Z.to_nat i + count)%nat ->
    run eng h (freqmagphase_loop ncir ntrace count i f_vec m_vec p_vec self)
    = ((Returns (fv, mv, pv), self'), t) ->
    ac_data_at_indices t = range_from i count /\
    List.length t = count /\
    fv = (firstn (Z.to_nat i) f_vec
          ++ map (fun s => fst s) (ac_data_at_samples t))%list /\
    mv = (firstn (Z.to_nat i) m_vec
          ++ map (fun s => fst (snd s)) (ac_data_at_samples t))%list /\
    pv = (firstn (Z.to_nat i) p_vec
          ++ map (fun s => snd (snd s)) (ac_data_at_samples t))%list.
Proof.
  induction count as [| count IH];
    intros i f_vec m_vec p_vec h fv mv pv self' t Hi Hf Hm Hp Hrun.
  - simpl in Hrun. injection Hrun as <- <- <- _ <-. simpl.
    rewrite !app_nil_r, !firstn_all2 by lia. repeat split.
  - rewrite freqmagphase_loop_step in Hrun. cbn zeta in Hrun.
    destruct (eng _ h (NL5_GetACDataAt ncir ntrace i)) as [retval [f0 [m0 p0]]].
    cbn [fst snd] in Hrun.
    destruct (retval <? 0); [discriminate Hrun|].
    match type of Hrun with context [run ?e ?h' ?p] =>
      destruct (run e h' p) as [[r s] t'] eqn:Hloop end.
    cbn [fst snd] in Hrun. injection Hrun as -> -> <-.
    apply IH in Hloop;
      [ | lia | rewrite length_setitem; lia | rewrite length_setitem; lia
        | rewrite length_setitem; lia ].
    destruct Hloop as (Hidx & Hlen & Hfv & Hmv & Hpv).
    replace (Z.to_nat (i + 1)) with (S (Z.to_nat i)) in Hfv, Hmv, Hpv by lia.
    rewrite firstn_setitem in Hfv, Hmv, Hpv by lia.
    rewrite <- app_assoc in Hfv, Hmv, Hpv.
    simpl. rewrite Hidx, Hlen. repeat split; assumption.
Qed.

(** X12: when [get_freqmagphase_vectors] returns, it has asked the engine
    for the AC trace, for its size, and then for the samples 0, 1, ...,
    size - 1 in this order and nothing else; the vectors it returns are the
    frequencies, magnitudes and phases of these samples, with [log] turning
    each frequency into its [log10] and each magnitude into 20 times its
    [log10], and never touching the phases nor the calls made. *)
Theorem freqmagphase_vectors_are_the_samples :
  forall (os : py_env) (eng : engine) (h : list event) (name : string)
         (log : bool) (self self' : NL5_dll)
         (f_vec m_vec p_vec : list float) (t : list event),
    run eng h (get_freqmagphase_vectors os name log self)
    = ((Returns (f_vec, m_vec, p_vec), self'), t) ->
    exists ntrace size rest,
      t = Ev (NL5_GetACTrace self.(_ncir) name) ntrace
          :: Ev (NL5_GetACDataSize self.(_ncir) ntrace) size :: rest /\
      0 <= ntrace /\ 0 <= size /\
      ac_data_at_indices rest = range_from 0 (Z.to_nat size) /\
      List.length rest = Z.to_nat size /\
      f_vec = map (fun s => if log then os.(log10) (fst s) else fst s)
                (ac_data_at_samples rest) /\
      m_vec = map (fun s => if log then (20 * os.(log10) (fst (snd s)))%float
                            else fst (snd s))
                (ac_data_at_samples rest) /\
      p_vec = map (fun s => snd (snd s)) (ac_data_at_samples rest).
Proof.
  intros os eng h name log self self' f_vec m_vec p_vec t Hrun.
  unfold get_freqmagphase_vectors in Hrun. cbn in Hrun.
  destruct (_ncir self >=? 0) eqn:Hn; cbn in Hrun; [| discriminate Hrun].
  match type of Hrun with context [eng Z h ?e] =>
    remember (eng Z h e) as ntrace eqn:Hntrace end.
  destruct (ntrace >=? 0) eqn:Hnt; cbn in Hrun; [| discriminate Hrun].
  match type of Hrun with context [eng Z ?h' (NL5_GetACDataSize ?a ?b)] =>
    remember (eng Z h' (NL5_GetACDataSize a b)) as size eqn:Hsize end.
  destruct (size <? 0) eqn:Hsz; cbn in Hrun; [discriminate Hrun|].
  rewrite run_bind_prog in Hrun.
  match type of Hrun with context [run eng ?h' (freqmagphase_loop ?a ?b ?c ?d ?e ?f ?g ?s)] =>
    destruct (run eng h' (freqmagphase_loop a b c d e f g s))
      as [[r s0] t'] eqn:Hloop end.
  destruct r as [[[fv mv] pv] | e]; cbn in Hrun; [| discriminate Hrun].
  apply freqmagphase_loop_returns in Hloop;
    [ | lia | rewrite length_np_zeros; cbn; lia
      | rewrite length_np_zeros; cbn; lia
      | rewrite length_np_zeros; cbn; lia ].
  destruct Hloop as (Hidx & Hlen & Hfv & Hmv & Hpv). cbn in Hfv, Hmv, Hpv.
  exists ntrace, size, t'.
  destruct log; cbn in Hrun; rewrite ?app_nil_r in Hrun;
    injection Hrun as <- <- <- _ <-;
    (split; [reflexivity|]); (split; [bool_lia|]); (split; [bool_lia|]);
    (split; [exact Hidx|]); (split; [exact Hlen|]);
    subst fv mv pv; rewrite ?map_map; repeat split.
Qed.

Lemma freqmagphase_vectors_are_the_samples_witness :
  run (steady 2) [] (get_freqmagphase_vectors sample_env "V(out)" false (open_client 0))
  = ((Returns ([0%float; 0%float], [0%float; 0%float], [0%float; 0%float]),
      open_client 0),
     [Ev (NL5_GetACTrace 0 "V(out)") 2; Ev (NL5_GetACDataSize 0 2) 2;
      Ev (NL5_GetACDataAt 0 2 0) (2, (0%float, (0%float, 0%float)));
      Ev (NL5_GetACDataAt 0 2 1) (2, (0%float, (0%float, 0%float)))]) /\
  exists ntrace size rest,
    [Ev (NL5_GetACTrace 0 "V(out)") 2; Ev (NL5_GetACDataSize 0 2) 2;
     Ev (NL5_GetACDataAt 0 2 0) (2, (0%float, (0%float, 0%float)));
     Ev (NL5_GetACDataAt 0 2 1) (2, (0%float, (0%float, 0%float)))]
    = Ev (NL5_GetACTrace (open_client 0).(_ncir) "V(out)") ntrace
      :: Ev (NL5_GetACDataSize (open_client 0).(_ncir) ntrace) size :: rest /\
    0 <= ntrace /\ 0 <= size /\
    ac_data_at_indices rest = range_from 0 (Z.to_nat size) /\
    List.length rest = Z.to_nat size /\
    [0%float; 0%float]
    = map (fun s => if false then sample_env.(log10) (fst s) else fst s)
        (ac_data_at_samples rest) /\
    [0%float; 0%float]
    = map (fun s => if false then (20 * sample_env.(log10) (fst (snd s)))%float
                    else fst (snd s))
        (ac_data_at_samples rest) /\
    [0%float; 0%float] = map (fun s => snd (snd s)) (ac_data_at_samples rest).
Proof.
  assert (Hrun :
    run (steady 2) [] (get_freqmagphase_vectors sample_env "V(out)" false (open_client 0))
    = ((Returns ([0%float; 0%float], [0%float; 0%float], [0%float; 0%float]),
        open_client 0),
       [Ev (NL5_GetACTrace 0 "V(out)") 2; Ev (NL5_GetACDataSize 0 2) 2;
        Ev (NL5_GetACDataAt 0 2 0) (2, (0%float, (0%float, 0%float)));
        Ev (NL5_GetACDataAt 0 2 1) (2, (0%float, (0%float, 0%float)))]))
    by (vm_compute; reflexivity).
  split; [exact Hrun|].
  exact (freqmagphase_vectors_are_the_samples sample_env (steady 2) [] "V(out)"
           false (open_client 0) (open_client 0) _ _ _ _ Hrun).
Defined.

(** ** Slices *)

Lemma slice_loop_step (eng : engine) (h : list event) (ncir ntrace : Z)
    (t_start t_step : float) (count : nat) (i : Z) (v : list float)
    (self : NL5_dll) :
  let t := (float_of_int i * t_step + t_start)%float in
  let reply := eng _ h (NL5_GetData ncir ntrace (PrimFloat.abs t)) in
  let ev := Ev (NL5_GetData ncir ntrace (PrimFloat.abs t)) reply in
  run eng h (slice_loop ncir ntrace t_start t_step (S count) i v self)
  = if fst reply <? 0 then
      ((Raises (NL5ValueException
                  [Lit "Data point does not exist for time="; FFloat t;
                   Lit " seconds."]), self), [ev])
    else
      let out :=
        run eng (h ++ [ev])%list
          (slice_loop ncir ntrace t_start t_step count (i + 1)
             (setitem v (Z.to_nat i) (snd reply)) self) in
      (fst out, ev :: snd out).
Proof.
  intros t reply ev. subst ev. cbn. fold t. fold reply.
  destruct reply as [retval d]. cbn.
  destruct (retval <? 0); cbn; [reflexivity|].
  match goal with |- context [run ?e ?h' ?p] => destruct (run e h' p) end.
  reflexivity.
Qed.

Lemma slice_loop_returns (eng : engine) (ncir ntrace : Z)
    (t_start t_step : float) (self : NL5_dll) :
  forall count i v h v' self' t,
    0 <= i ->
    List.length v = (Z.to_nat i + count)%nat ->
    run eng h (slice_loop ncir ntrace t_start t_step count i v self)
    = ((Returns v', self'), t) ->
    data_times t
    = map (fun j => PrimFloat.abs (float_of_int j * t_step + t_start)%float)
        (range_from i count) /\
    List.length t = count /\
    v' = (firstn (Z.to_nat i) v ++ data_values t)%list.
Proof.
  induction count as [| count IH]; intros i v h v' self' t Hi Hv Hrun.
  - simpl in Hrun. injection Hrun as <- _ <-. simpl.
    rewrite app_nil_r, firstn_all2 by lia. repeat split.
  - rewrite slice_loop_step in Hrun. cbn zeta in Hrun.
    match type of Hrun with context [eng ?T h ?e] =>
      destruct (eng T h e) as [retval d0] end.
    cbn [fst snd] in Hrun.
    destruct (retval <? 0); [discriminate Hrun|].
    match type of Hrun with context [run ?e ?h' ?p] =>
      destruct (run e h' p) as [[r s] t'] eqn:Hloop end.
    cbn [fst snd] in Hrun. injection Hrun as -> -> <-.
    apply IH in Hloop; [ | lia | rewrite length_setitem; lia ].
    destruct Hloop as (Htimes & Hlen & Hv').
    replace (Z.to_nat (i + 1)) with (S (Z.to_nat i)) in Hv' by lia.
    rewrite firstn_setitem in Hv' by lia.
    rewrite <- app_assoc in Hv'.
    simpl. rewrite Htimes, Hlen. repeat split; assumption.
Qed.

(** X13: when [get_data_slice] returns, the step is not zero, the count
    [N = int((t_end - t_start) / t_step) + 1] is not negative, the engine
    has been asked for the trace and then for the data at the [N] times
    [abs(i * t_step + t_start)], [i = 0, ..., N - 1], in this order and
    nothing else, and the array returned holds the [N] values it answered,
    in the same order. *)
Theorem data_slice_is_the_samples :
  forall (eng : engine) (h : list event) (name : string)
         (t_start t_end t_step : float) (self self' : NL5_dll)
         (v : list float) (t : list event),
    run eng h (get_data_slice name t_start t_end t_step self)
    = ((Returns v, self'), t) ->
    exists ntrace n rest,
      t = Ev (NL5_GetTrace self.(_ncir) name) ntrace :: rest /\
      0 <= ntrace /\
      PrimFloat.eqb t_step 0%float = false /\
      int_of_float ((t_end - t_start) / t_step)%float = Returns n /\
      0 <= n + 1 /\
      List.length rest = Z.to_nat (n + 1) /\
      data_times rest
      = map (fun j => PrimFloat.abs (float_of_int j * t_step + t_start)%float)
          (range_from 0 (Z.to_nat (n + 1))) /\
      v = data_values rest.
Proof.
  intros eng h name t_start t_end t_step self self' v t Hrun.
  unfold get_data_slice in Hrun. cbn in Hrun.
  destruct (_ncir self >=? 0) eqn:Hn; cbn in Hrun; [| discriminate Hrun].
  match type of Hrun with context [eng Z h ?e] =>
    remember (eng Z h e) as ntrace eqn:Hntrace end.
  destruct (ntrace >=? 0) eqn:Hnt; cbn in Hrun; [| discriminate Hrun].
  unfold slice_length, zeros, lift in Hrun. cbn in Hrun.
  destruct (PrimFloat.eqb t_step 0) eqn:Hstep; cbn in Hrun;
    [discriminate Hrun|].
  destruct (int_of_float ((t_end - t_start) / t_step)) as [n | e] eqn:Hint;
    cbn in Hrun; [| discriminate Hrun].
  destruct (n + 1 <? 0) eqn:HN; cbn in Hrun; [discriminate Hrun|].
  match type of Hrun with context [run eng ?h' ?p] =>
    destruct (run eng h' p) as [[r s] t'] eqn:Hloop end.
  cbn in Hrun. injection Hrun as -> -> <-.
  apply slice_loop_returns in Hloop;
    [ | lia | rewrite length_np_zeros; cbn; lia ].
  destruct Hloop as (Htimes & Hlen & Hv). cbn in Hv.
  exists ntrace, n, t'.
  split; [reflexivity|]. split; [bool_lia|]. split; [reflexivity|].
  split; [reflexivity|]. split; [bool_lia|].
  repeat split; assumption.
Qed.

Lemma data_slice_is_the_samples_witness :
  run (steady 0) [] (get_data_slice "V(out)" 0%float 1%float 0.5%float (open_client 0))
  = ((Returns [0%float; 0%float; 0%float], open_client 0),
     [Ev (NL5_GetTrace 0 "V(out)") 0;
      Ev (NL5_GetData 0 0 0%float) (0, 0%float);
      Ev (NL5_GetData 0 0 0.5%float) (0, 0%float);
      Ev (NL5_GetData 0 0 1%float) (0, 0%float)]) /\
  exists ntrace n rest,
    [Ev (NL5_GetTrace 0 "V(out)") 0;
     Ev (NL5_GetData 0 0 0%float) (0, 0%float);
     Ev (NL5_GetData 0 0 0.5%float) (0, 0%float);
     Ev (NL5_GetData 0 0 1%float) (0, 0%float)]
    = Ev (NL5_GetTrace (open_client 0).(_ncir) "V(out)") ntrace :: rest /\
    0 <= ntrace /\
    PrimFloat.eqb 0.5%float 0%float = false /\
    int_of_float ((1 - 0) / 0.5)%float = Returns n /\
    0 <= n + 1 /\
    List.length rest = Z.to_nat (n + 1) /\
    data_times rest
    = map (fun j => PrimFloat.abs (float_of_int j * 0.5 + 0)%float)
        (range_from 0 (Z.to_nat (n + 1))) /\
    [0%float; 0%float; 0%float] = data_values rest.
Proof.
  assert (Hrun :
    run (steady 0) [] (get_data_slice "V(out)" 0%float 1%float 0.5%float (open_client 0))
    = ((Returns [0%float; 0%float; 0%float], open_client 0),
       [Ev (NL5_GetTrace 0 "V(out)") 0;
        Ev (NL5_GetData 0 0 0%float) (0, 0%float);
        Ev (NL5_GetData 0 0 0.5%float) (0, 0%float);
        Ev (NL5_GetData 0 0 1%float) (0, 0%float)]))
    by (vm_compute; reflexivity).
  split; [exact Hrun|].
  exact (data_slice_is_the_samples (steady 0) [] "V(out)" 0%float 1%float
           0.5%float (open_client 0) (open_client 0) _ _ Hrun).
Defined.

(** ** Sequences of calls *)

Lemma open_returns_run (os : py_env) (eng : engine) (h : list event)
    (name dir : string) (self : NL5_dll) :
  fst (fst (run eng h (open os name dir self))) = Returns tt ->
  exists pre n,
    run eng h (open os name dir self)
    = ((Returns tt, set_ncir self n),
       (pre ++ [Ev (NL5_Open (os.(join) (resolve os dir)
                                (with_extension name ".nl5"))) n])%list) /\
    0 <= n /\
    closes pre = (if 0 <=? self.(_ncir) then [self.(_ncir)] else []) /\
    (List.length pre <= 1)%nat /\ file_args pre = [].
Proof.
  intros Hret.
  destruct (Z.le_gt_cases 0 self.(_ncir)) as [Hn | Hn].
  - rewrite (open_run_from_open os eng h name dir self Hn) in *.
    cbn [fst snd] in Hret.
    match type of Hret with context [if ?z >=? 0 then _ else _] =>
      destruct (z >=? 0) eqn:Hz; [| discriminate Hret];
      exists [Ev (NL5_Close self.(_ncir)) (eng Z h (NL5_Close self.(_ncir)))], z
    end.
    split; [reflexivity|]. split; [bool_lia|].
    replace (0 <=? _ncir self) with true by (symmetry; apply Z.leb_le; exact Hn).
    repeat split. simpl. lia.
  - rewrite (open_run_from_closed os eng h name dir self Hn) in *.
    cbn [fst snd] in Hret.
    match type of Hret with context [if ?z >=? 0 then _ else _] =>
      destruct (z >=? 0) eqn:Hz; [| discriminate Hret];
      exists [], z
    end.
    split; [reflexivity|]. split; [bool_lia|].
    replace (0 <=? _ncir self) with false by (symmetry; apply Z.leb_gt; exact Hn).
    repeat split. simpl. lia.
Qed.

(** The whole run of an [open] that returns. *)
Lemma open_returns_trace (os : py_env) (eng : engine) (h : list event)
    (name dir : string) (self : NL5_dll) :
  fst (fst (run eng h (open os name dir self))) = Returns tt ->
  let old := self.(_ncir) in
  let before :=
    if 0 <=? old then [Ev (NL5_Close old) (eng Z h (NL5_Close old))] else [] in
  exists n,
    run eng h (open os name dir self)
    = ((Returns tt, set_ncir self n),
       (before ++ [Ev (NL5_Open (os.(join) (resolve os dir)
                                   (with_extension name ".nl5"))) n])%list) /\
    0 <= n.
Proof.
  intros Hret old before. subst old before.
  destruct (Z.le_gt_cases 0 self.(_ncir)) as [Hn | Hn].
  - rewrite (open_run_from_open os eng h name dir self Hn) in *.
    cbn [fst snd] in Hret.
    replace (0 <=? _ncir self) with true by (symmetry; apply Z.leb_le; exact Hn).
    match type of Hret with context [if ?z >=? 0 then _ else _] =>
      destruct (z >=? 0) eqn:Hz; [| discriminate Hret]; exists z
    end.
    split; [reflexivity | bool_lia].
  - rewrite (open_run_from_closed os eng h name dir self Hn) in *.
    cbn [fst snd] in Hret.
    replace (0 <=? _ncir self) with false by (symmetry; apply Z.leb_gt; exact Hn).
    match type of Hret with context [if ?z >=? 0 then _ else _] =>
      destruct (z >=? 0) eqn:Hz; [| discriminate Hret]; exists z
    end.
    split; [reflexivity | bool_lia].
Qed.

(** X14: [open] followed by [close], when [open] returns: the calls made
    are the [NL5_Close] of the document that was open before, if there was
    one, then [NL5_Open], then [NL5_Close] on the handle [NL5_Open] has just
    answered, and nothing else; [close] returns, and the client keeps that
    handle. *)
Theorem close_closes_what_open_opened :
  forall (os : py_env) (eng : engine) (h : list event)
         (name dir : string) (self : NL5_dll),
    fst (fst (run eng h (open os name dir self))) = Returns tt ->
    let old := self.(_ncir) in
    let before :=
      if 0 <=? old then [Ev (NL5_Close old) (eng Z h (NL5_Close old))] else [] in
    let out := run eng h ((open os name dir ;;; close) self) in
    exists n r,
      snd out
      = (before ++ [Ev (NL5_Open (os.(join) (resolve os dir)
                                    (with_extension name ".nl5"))) n;
                    Ev (NL5_Close n) r])%list /\
      0 <= n /\
      (List.length before <= 1)%nat /\
      closes before = (if 0 <=? old then [old] else []) /\
      fst out = (Returns tt, set_ncir self n).
Proof.
  intros os eng h name dir self Hret old before out. subst out.
  destruct (open_returns_trace os eng h name dir self Hret)
    as (n & Hrun & Hpos).
  fold old in Hrun. fold before in Hrun.
  rewrite run_bind, Hrun. cbn [fst snd].
  rewrite close_run by exact Hpos. cbn [fst snd _ncir set_ncir].
  exists n. eexists.
  split; [rewrite <- app_assoc; reflexivity|].
  split; [exact Hpos|].
  subst before. destruct (0 <=? old); repeat split; simpl; lia.
Qed.

Lemma close_closes_what_open_opened_witness :
  fst (fst (run (steady 9) [] (open sample_env "amp" EmptyString (open_client 1))))
  = Returns tt /\
  run (steady 9) []
    ((open sample_env "amp" EmptyString ;;; close) (open_client 1))
  = ((Returns tt, open_client 9),
     [Ev (NL5_Close 1) 9; Ev (NL5_Open "/work/amp.nl5") 9; Ev (NL5_Close 9) 9]) /\
  exists n r,
    snd (run (steady 9) []
           ((open sample_env "amp" EmptyString ;;; close) (open_client 1)))
    = ([Ev (NL5_Close 1) 9]
       ++ [Ev (NL5_Open (sample_env.(join) (resolve sample_env EmptyString)
                           (with_extension "amp" ".nl5"))) n;
           Ev (NL5_Close n) r])%list /\
    0 <= n /\
    (List.length [Ev (NL5_Close 1%Z) 9%Z] <= 1)%nat /\
    closes [Ev (NL5_Close 1) 9] = [1] /\
    fst (run (steady 9) []
           ((open sample_env "amp" EmptyString ;;; close) (open_client 1)))
    = (Returns tt, set_ncir (open_client 1) n).
Proof.
  assert (Hret : fst (fst (run (steady 9) []
                             (open sample_env "amp" EmptyString (open_client 1))))
                 = Returns tt) by reflexivity.
  split; [exact Hret|]. split; [reflexivity|].
  exact (close_closes_what_open_opened sample_env (steady 9) [] "amp"
           EmptyString (open_client 1) Hret).
Defined.

(** X15: two [open] in a row, when the first returns: the second closes
    the handle the first was given, once, before it calls [NL5_Open] for
    its own file; over the two calls [NL5_Close] is called on the document
    that was open at the start, if any, and on the first one opened, and on
    nothing else. *)
Theorem reopening_releases_the_first_document :
  forall (os : py_env) (eng : engine) (h : list event)
         (name1 dir1 name2 dir2 : string) (self : NL5_dll),
    fst (fst (run eng h (open os name1 dir1 self))) = Returns tt ->
    let file1 := os.(join) (resolve os dir1) (with_extension name1 ".nl5") in
    let file2 := os.(join) (resolve os dir2) (with_extension name2 ".nl5") in
    let out := run eng h ((open os name1 dir1 ;;; open os name2 dir2) self) in
    exists pre n1 r n2,
      snd out
      = (pre ++ [Ev (NL5_Open file1) n1; Ev (NL5_Close n1) r;
                 Ev (NL5_Open file2) n2])%list /\
      0 <= n1 /\
      closes (snd out)
      = ((if 0 <=? self.(_ncir) then [self.(_ncir)] else []) ++ [n1])%list /\
      file_args (snd out) = [file1; file2] /\
      (snd (fst out)).(_ncir) = (if n2 >=? 0 then n2 else -1).
Proof.
  intros os eng h name1 dir1 name2 dir2 self Hret file1 file2 out. subst out.
  destruct (open_returns_run os eng h name1 dir1 self Hret)
    as (pre & n1 & Hrun & Hpos & Hcloses & Hlen & Hfiles).
  rewrite run_bind, Hrun. cbn [fst snd].
  rewrite (open_run_from_open os eng _ name2 dir2 (set_ncir self n1))
    by exact Hpos.
  cbn [fst snd _ncir set_ncir]. fold file1. fold file2.
  exists pre, n1. eexists. eexists.
  split; [rewrite <- app_assoc; reflexivity|].
  split; [exact Hpos|].
  assert (Hsplit : forall a b, closes (a ++ b) = (closes a ++ closes b)%list).
  { induction a as [| [R e r] a IH]; intros b; simpl; [reflexivity|].
    destruct e; simpl; rewrite ?IH; reflexivity. }
  assert (Hfsplit : forall a b,
             file_args (a ++ b) = (file_args a ++ file_args b)%list).
  { induction a as [| [R e r] a IH]; intros b; simpl; [reflexivity|].
    destruct e; simpl; rewrite ?IH; reflexivity. }
  split; [rewrite !Hsplit, Hcloses; simpl; rewrite ?app_nil_r; reflexivity|].
  split; [rewrite !Hfsplit, Hfiles; reflexivity|].
  match goal with |- context [if ?z >=? 0 then _ else _] =>
    destruct (z >=? 0) end; reflexivity.
Qed.

Lemma reopening_releases_the_first_document_witness :
  fst (fst (run (steady 9) [] (open sample_env "amp" EmptyString closed_client)))
  = Returns tt /\
  snd (run (steady 9) []
         ((open sample_env "amp" EmptyString ;;; open sample_env "filter.nl5" "/lab")
            closed_client))
  = [Ev (NL5_Open "/work/amp.nl5") 9; Ev (NL5_Close 9) 9;
     Ev (NL5_Open "/lab/filter.nl5") 9] /\
  exists pre n1 r n2,
    snd (run (steady 9) []
           ((open sample_env "amp" EmptyString ;;; open sample_env "filter.nl5" "/lab")
              closed_client))
    = (pre ++ [Ev (NL5_Open "/work/amp.nl5") n1; Ev (NL5_Close n1) r;
               Ev (NL5_Open "/lab/filter.nl5") n2])%list /\
    0 <= n1 /\
    closes (snd (run (steady 9) []
                   ((open sample_env "amp" EmptyString
                     ;;; open sample_env "filter.nl5" "/lab") closed_client)))
    = ((if 0 <=? closed_client.(_ncir) then [closed_client.(_ncir)] else [])
       ++ [n1])%list /\
    file_args (snd (run (steady 9) []
                      ((open sample_env "amp" EmptyString
                        ;;; open sample_env "filter.nl5" "/lab") closed_client)))
    = ["/work/amp.nl5"; "/lab/filter.nl5"] /\
    (snd (fst (run (steady 9) []
                 ((open sample_env "amp" EmptyString
                   ;;; open sample_env "filter.nl5" "/lab") closed_client)))).(_ncir)
    = (if n2 >=? 0 then n2 else -1).
Proof.
  assert (Hret : fst (fst (run (steady 9) []
                             (open sample_env "amp" EmptyString closed_client)))
                 = Returns tt) by reflexivity.
  split; [exact Hret|]. split; [reflexivity|].
  exact (reopening_releases_the_first_document sample_env (steady 9) []
           "amp" EmptyString "filter.nl5" "/lab" closed_client Hret).
Defined.

(** ** A new client *)

(** X16: a client just built by [__init__] has no document: every
    per-document method called on it raises [NL5OpenException] without
    calling the engine, and leaves it as built. *)
Theorem new_client_has_no_document :
  forall (os : py_env) (name dir : string) (c : method_call)
         (eng : engine) (h : list event),
    per_document c = true ->
    (__init__ os name dir).(_ncir) = -1 /\
    (__init__ os name dir).(path) = os.(abspath) dir /\
    exists msg,
      run eng h (invoke os c (__init__ os name dir))
      = ((Raises (NL5OpenException msg), __init__ os name dir), []).
Proof.
  intros os name dir c eng h Hc.
  split; [reflexivity|]. split; [reflexivity|].
  destruct (no_document_program os c (__init__ os name dir) Hc) as [msg Hp];
    [simpl; lia|].
  exists msg. rewrite Hp. reflexivity.
Qed.

Lemma new_client_has_no_document_witness :
  per_document Simulate_step = true /\
  exists msg,
    run (steady 0) [] (invoke sample_env Simulate_step
                         (__init__ sample_env "nl5_dll" "lib"))
    = ((Raises (NL5OpenException msg), __init__ sample_env "nl5_dll" "lib"), []).
Proof.
  split; [reflexivity|].
  exact (proj2 (proj2 (new_client_has_no_document sample_env "nl5_dll" "lib"
                         Simulate_step (steady 0) [] eq_refl))).
Defined.

(** X17: the library file [__init__] loads is the given name joined to the
    given folder, with ".so" (on Linux) or ".dll" (elsewhere) appended
    unless the name already ends with ".dll" or ".so"; in every case the
    name that is joined ends with ".dll" or ".so", and a name with one of
    the two extensions is never given the other. *)
Theorem dll_file_has_a_library_extension :
  forall (os : py_env) (name dir : string),
    exists file,
      dll_file os name dir = os.(join) dir file /\
      (endswith file ".dll" = true \/ endswith file ".so" = true) /\
      ((exists p, name = (p ++ ".dll")%string) \/
       (exists p, name = (p ++ ".so")%string) -> file = name) /\
      ((forall p, name <> (p ++ ".dll")%string) ->
       (forall p, name <> (p ++ ".so")%string) ->
       file = (name ++ (if os.(on_linux) then ".so" else ".dll"))%string).
Proof.
  intros os name dir. unfold dll_file.
  destruct (endswith name ".dll") eqn:Hdll; simpl.
  - exists name. split; [reflexivity|]. split; [left; exact Hdll|].
    split; [reflexivity|]. intros Hno _.
    apply endswith_spec in Hdll. destruct Hdll as [p Hp].
    exfalso. exact (Hno p Hp).
  - destruct (endswith name ".so") eqn:Hso; simpl.
    + exists name. split; [reflexivity|]. split; [right; exact Hso|].
      split; [reflexivity|]. intros _ Hno.
      apply endswith_spec in Hso. destruct Hso as [p Hp].
      exfalso. exact (Hno p Hp).
    + assert (Hnone : (exists p, name = (p ++ ".dll")%string) \/
                      (exists p, name = (p ++ ".so")%string) -> False).
      { intros [H | H]; apply endswith_spec in H; congruence. }
      destruct (on_linux os).
      * exists (name ++ ".so")%string. split; [reflexivity|].
        split; [right; apply endswith_append|].
        split; [intros H; exfalso; exact (Hnone H) | reflexivity].
      * exists (name ++ ".dll")%string. split; [reflexivity|].
        split; [left; apply endswith_append|].
        split; [intros H; exfalso; exact (Hnone H) | reflexivity].
Qed.

Lemma dll_file_has_a_library_extension_witness :
  dll_file sample_env "nl5_dll" "/opt/nl5" = "/opt/nl5/nl5_dll.so" /\
  dll_file sample_env "nl5_dll.dll" "/opt/nl5" = "/opt/nl5/nl5_dll.dll" /\
  exists file,
    dll_file sample_env "nl5_dll.dll" "/opt/nl5" = sample_env.(join) "/opt/nl5" file /\
    (endswith file ".dll" = true \/ endswith file ".so" = true).
Proof.
  split; [reflexivity|]. split; [reflexivity|].
  destruct (dll_file_has_a_library_extension sample_env "nl5_dll.dll" "/opt/nl5")
    as (file & Hfile & Hext & _).
  exists file. split; [exact Hfile | exact Hext].
Defined.

(** ** More on file names *)

Lemma append_empty (a : string) : (a ++ EmptyString)%string = a.
Proof. induction a as [| c a IH]; simpl; [reflexivity | rewrite IH; reflexivity]. Qed.

(** X18: giving a name its extension never changes what the caller wrote:
    the name is a prefix of the result, the result is the name or the name
    with the extension right after it, and an empty name becomes the bare
    extension. *)
Theorem with_extension_keeps_the_name :
  forall (name ext : string),
    prefix name (with_extension name ext) = true /\
    (with_extension name ext = name \/
     with_extension name ext = (name ++ ext)%string) /\
    (String.length (with_extension name ext)
     <= String.length name + String.length ext)%nat /\
    with_extension EmptyString ext = ext.
Proof.
  intros name ext. unfold with_extension.
  split.
  { destruct (negb (endswith name ext)); [apply prefix_append|].
    rewrite <- (append_empty name) at 2. apply prefix_append. }
  split.
  { destruct (negb (endswith name ext)); [right | left]; reflexivity. }
  split.
  { destruct (negb (endswith name ext)); [rewrite length_append|]; lia. }
  destruct (endswith EmptyString ext) eqn:He; simpl; [| reflexivity].
  apply endswith_spec in He. destruct He as [p Hp].
  destruct p; simpl in Hp; [exact Hp | discriminate Hp].
Qed.

(** ** Text buffers *)

(** What making the buffer comes to, in the four cases of its size. *)
Lemma create_string_buffer_cases (os : py_env) (buf_size : Z) :
  (buf_size < - os.(maxsize) - 1 \/ os.(maxsize) < buf_size ->
   create_string_buffer os buf_size = raise OverflowError) /\
  (- os.(maxsize) - 1 <= buf_size <= os.(maxsize) -> buf_size < 0 ->
   create_string_buffer os buf_size = raise ValueError) /\
  (- os.(maxsize) - 1 <= buf_size <= os.(maxsize) -> 0 <= buf_size ->
   os.(can_allocate) buf_size = false ->
   create_string_buffer os buf_size = raise MemoryError) /\
  (- os.(maxsize) - 1 <= buf_size <= os.(maxsize) -> 0 <= buf_size ->
   os.(can_allocate) buf_size = true ->
   create_string_buffer os buf_size = ret tt).
Proof.
  unfold create_string_buffer.
  repeat split; intros.
  - replace ((buf_size <? - maxsize os - 1) || (maxsize os <? buf_size))
      with true; [reflexivity|].
    symmetry. apply orb_true_iff. rewrite !Z.ltb_lt. assumption.
  - replace ((buf_size <? - maxsize os - 1) || (maxsize os <? buf_size))
      with false by (symmetry; apply orb_false_iff; rewrite !Z.ltb_ge; lia).
    rewrite ltb_true by assumption. reflexivity.
  - replace ((buf_size <? - maxsize os - 1) || (maxsize os <? buf_size))
      with false by (symmetry; apply orb_false_iff; rewrite !Z.ltb_ge; lia).
    rewrite ltb_false by assumption.
    match goal with H : can_allocate _ _ = _ |- _ => rewrite H end. reflexivity.
  - replace ((buf_size <? - maxsize os - 1) || (maxsize os <? buf_size))
      with false by (symmetry; apply orb_false_iff; rewrite !Z.ltb_ge; lia).
    rewrite ltb_false by assumption.
    match goal with H : can_allocate _ _ = _ |- _ => rewrite H end. reflexivity.
Qed.

Lemma get_text_without_buffer (os : py_env) (eng : engine) (h : list event)
    (name : string) (buf_size : Z) (self : NL5_dll) (ex : exn) :
  0 <= self.(_ncir) ->
  create_string_buffer os buf_size = raise ex ->
  run eng h (get_text os name buf_size self) = ((Raises ex, self), []) /\
  (0 <= eng Z h (NL5_GetParam self.(_ncir) name) ->
   run eng h (get_parameter_text os name buf_size self)
   = ((Raises ex, self),
      [Ev (NL5_GetParam self.(_ncir) name)
          (eng Z h (NL5_GetParam self.(_ncir) name))])).
Proof.
  intros Hn Hbuf. split.
  - unfold get_text. cbn. rewrite (geb_true _ Hn). cbn.
    rewrite Hbuf. reflexivity.
  - intros Hpar. unfold get_parameter_text. cbn.
    rewrite (geb_true _ Hn). cbn. rewrite (geb_true _ Hpar). cbn.
    rewrite Hbuf. reflexivity.
Qed.

(** X19: with a document open, [get_text] makes its buffer before any call
    of the library, and [get_parameter_text] right after the look-up of the
    parameter, when the library has found it.  A [buf_size] that is not an
    index (below [-sys.maxsize - 1] or above [sys.maxsize]) raises
    [OverflowError], a negative index [ValueError], a size that does not fit
    in memory [MemoryError]; otherwise the wrapper [NL5_GetText] is given
    [buf_size] for the length, and the library, behind ctypes, receives the
    [c_int] of it: [buf_size] itself exactly when it is at most
    [2**31 - 1]. *)
Theorem text_buffer_is_made_first :
  forall (os : py_env) (library : engine) (h : list event)
         (name : string) (buf_size : Z) (self : NL5_dll),
    let eng := behind_ctypes library in
    let ncir := self.(_ncir) in
    let refused (ex : exn) :=
      run eng h (get_text os name buf_size self) = ((Raises ex, self), []) /\
      (0 <= eng Z h (NL5_GetParam ncir name) ->
       run eng h (get_parameter_text os name buf_size self)
       = ((Raises ex, self),
          [Ev (NL5_GetParam ncir name) (eng Z h (NL5_GetParam ncir name))])) in
    0 <= ncir ->
    (buf_size < - os.(maxsize) - 1 \/ os.(maxsize) < buf_size ->
     refused OverflowError) /\
    (- os.(maxsize) - 1 <= buf_size <= os.(maxsize) -> buf_size < 0 ->
     refused ValueError) /\
    (- os.(maxsize) - 1 <= buf_size <= os.(maxsize) -> 0 <= buf_size ->
     os.(can_allocate) buf_size = false ->
     refused MemoryError) /\
    (- os.(maxsize) - 1 <= buf_size <= os.(maxsize) -> 0 <= buf_size ->
     os.(can_allocate) buf_size = true ->
     exists r,
       snd (run eng h (get_text os name buf_size self))
       = [Ev (NL5_GetText ncir name buf_size) r] /\
       received (snd (run eng h (get_text os name buf_size self)))
       = [Ev (NL5_GetText (c_int ncir) (c_char_p name) (c_int buf_size)) r] /\
       (c_int buf_size = buf_size <-> buf_size <= 2147483647) /\
       (0 <= eng Z h (NL5_GetParam ncir name) ->
        exists npar r',
          received (snd (run eng h (get_parameter_text os name buf_size self)))
          = [Ev (NL5_GetParam (c_int ncir) (c_char_p name)) npar;
             Ev (NL5_GetParamText (c_int ncir) (c_int npar) (c_int buf_size))
                r'])).
Proof.
  intros os library h name buf_size self eng ncir refused Hn.
  destruct (create_string_buffer_cases os buf_size) as (Hov & Hneg & Hmem & Hok).
  split; [intros H; apply get_text_without_buffer; auto|].
  split; [intros H H0; apply get_text_without_buffer; auto|].
  split; [intros H H0 H1; apply get_text_without_buffer; auto|].
  intros H H0 H1.
  assert (Hfix : c_int buf_size = buf_size <-> buf_size <= 2147483647)
    by (rewrite c_int_fixed; lia).
  assert (Hpar : 0 <= eng Z h (NL5_GetParam ncir name) ->
            exists npar r',
              received (snd (run eng h (get_parameter_text os name buf_size self)))
              = [Ev (NL5_GetParam (c_int ncir) (c_char_p name)) npar;
                 Ev (NL5_GetParamText (c_int ncir) (c_int npar) (c_int buf_size))
                    r']).
  { intros Hfound. unfold get_parameter_text. cbn.
    fold ncir. rewrite (geb_true _ Hn). cbn. rewrite (geb_true _ Hfound). cbn.
    rewrite (Hok H H0 H1). unfold decode_value. cbn.
    match goal with |- context [eng ?T ?h' (NL5_GetParamText ?a ?b ?c)] =>
      destruct (eng T h' (NL5_GetParamText a b c)) as [retval b'] end.
    cbn. destruct (retval <? 0); cbn; [eexists; eexists; reflexivity|].
    destruct (decode os b'); eexists; eexists; reflexivity. }
  assert (Htext : exists r,
            snd (run eng h (get_text os name buf_size self))
            = [Ev (NL5_GetText ncir name buf_size) r] /\
            received (snd (run eng h (get_text os name buf_size self)))
            = [Ev (NL5_GetText (c_int ncir) (c_char_p name) (c_int buf_size)) r]).
  { unfold get_text. cbn.
    fold ncir. rewrite (geb_true _ Hn). cbn.
    rewrite (Hok H H0 H1). unfold decode_value. cbn.
    match goal with |- context [eng ?T h ?e] =>
      destruct (eng T h e) as [retval b] end.
    cbn. destruct (retval <? 0); cbn; [eexists; split; reflexivity|].
    destruct (decode os b); eexists; split; reflexivity. }
  destruct Htext as (r & Hcall & Hrec).
  exists r. split; [exact Hcall|]. split; [exact Hrec|].
  split; [exact Hfix | exact Hpar].
Qed.

Lemma text_buffer_is_made_first_witness :
  0 <= (open_client 0).(_ncir) /\
  run (behind_ctypes (steady 0)) []
    (get_text sample_env "R1.R" (-1) (open_client 0))
  = ((Raises ValueError, open_client 0), []) /\
  run (behind_ctypes (steady 0)) []
    (get_text sample_env "R1.R" 9223372036854775808 (open_client 0))
  = ((Raises OverflowError, open_client 0), []) /\
  run (behind_ctypes (steady 0)) []
    (get_text sample_env "R1.R" 4611686018427387904 (open_client 0))
  = ((Raises MemoryError, open_client 0), []) /\
  exists r,
    snd (run (behind_ctypes (steady 0)) []
           (get_text sample_env "R1.R" 2147483648 (open_client 0)))
    = [Ev (NL5_GetText 0 "R1.R" 2147483648) r] /\
    received (snd (run (behind_ctypes (steady 0)) []
                     (get_text sample_env "R1.R" 2147483648 (open_client 0))))
    = [Ev (NL5_GetText 0 "R1.R" (-2147483648)) r].
Proof.
  assert (Hn : 0 <= (open_client 0).(_ncir)) by (simpl; lia).
  assert (Hidx : forall z, -9223372036854775808 <= z <= 9223372036854775807 ->
                   - sample_env.(maxsize) - 1 <= z <= sample_env.(maxsize))
    by (simpl; lia).
  destruct (text_buffer_is_made_first sample_env (steady 0) [] "R1.R" (-1)
              (open_client 0) Hn) as (_ & Hneg & _).
  destruct (text_buffer_is_made_first sample_env (steady 0) [] "R1.R"
              9223372036854775808 (open_client 0) Hn) as (Hover & _).
  destruct (text_buffer_is_made_first sample_env (steady 0) [] "R1.R"
              4611686018427387904 (open_client 0) Hn) as (_ & _ & Hmem & _).
  destruct (text_buffer_is_made_first sample_env (steady 0) [] "R1.R" 2147483648
              (open_client 0) Hn) as (_ & _ & _ & Hok).
  assert (Hsmall : -9223372036854775808 <= -1 <= 9223372036854775807) by lia.
  assert (Hbig : -9223372036854775808 <= 4611686018427387904
                 <= 9223372036854775807) by lia.
  assert (Hfit : -9223372036854775808 <= 2147483648 <= 9223372036854775807)
    by lia.
  assert (Hout : 9223372036854775808 < - sample_env.(maxsize) - 1 \/
                 sample_env.(maxsize) < 9223372036854775808)
    by (right; simpl; lia).
  assert (H1 : -1 < 0) by lia.
  assert (H2 : 0 <= 4611686018427387904) by lia.
  assert (H3 : 0 <= 2147483648) by lia.
  split; [exact Hn|].
  split; [exact (proj1 (Hneg (Hidx (-1) Hsmall) H1))|].
  split; [exact (proj1 (Hover Hout))|].
  split; [exact (proj1 (Hmem (Hidx 4611686018427387904 Hbig) H2 eq_refl))|].
  destruct (Hok (Hidx 2147483648 Hfit) H3 eq_refl) as (r & Hcall & Hrec & _).
  exists r. split; [exact Hcall | exact Hrec].
Defined.
